(** * Rs_gh_actions: a shallow embedding of the local GitHub Actions controller

    The script drives [git] and [gh] through two process runners
    ([run_cmd], [run_cmd_live]), a process-wide [DRY_RUN] flag, the wall
    clock and the console.  Everything outside the script (the child
    processes, the file system, the date) is an oracle of the environment
    [Env]; the script itself is a state-and-exception monad over [World]. *)

From Stdlib Require Import ZArith NArith List String Ascii Bool Lia DecimalString.
From Corelib Require Import PrimFloat.

#[local] Set Warnings "-register-all".
Import ListNotations.

Local Open Scope string_scope.
Local Open Scope Z_scope.

(** ** Python text primitives *)

Module Py.

(** [chr n] for a code point below 256. *)
Definition chr (n : nat) : string := String (ascii_of_nat n) EmptyString.

Definition NL : string := chr 10.
Definition ESC : string := chr 27.
Definition DQUOTE : string := chr 34.

(** [str(n)] for an [int]. *)
Definition str_int (z : Z) : string := NilZero.string_of_int (Z.to_int z).

(** [sep.join(l)]. *)
Definition join (sep : string) (l : list string) : string := String.concat sep l.

(** [s * n]. *)
Fixpoint repeat_str (s : string) (n : nat) : string :=
  match n with
  | O => ""
  | S n' => s ++ repeat_str s n'
  end.

(** [c.isspace()] on the one-byte code points:
    TAB, LF, VT, FF, CR, FS, GS, RS, US and SPACE. *)
Definition is_space (c : ascii) : bool :=
  let n := nat_of_ascii c in
  ((9 <=? n)%nat && (n <=? 13)%nat) || ((28 <=? n)%nat && (n <=? 32)%nat).

Fixpoint lstrip (s : string) : string :=
  match s with
  | EmptyString => EmptyString
  | String c r => if is_space c then lstrip r else s
  end.

Fixpoint rstrip (s : string) : string :=
  match s with
  | EmptyString => EmptyString
  | String c r =>
      match rstrip r with
      | EmptyString => if is_space c then EmptyString else String c EmptyString
      | r' => String c r'
      end
  end.

(** [s.strip()]. *)
Definition strip (s : string) : string := rstrip (lstrip s).

(** [len(s)]. *)
Definition len (s : string) : Z := Z.of_nat (String.length s).

(** [needle in hay] for two strings. *)
Fixpoint contains (needle hay : string) : bool :=
  prefix needle hay ||
  match hay with
  | EmptyString => false
  | String _ r => contains needle r
  end.

Definition is_digit (c : ascii) : bool :=
  let n := nat_of_ascii c in (48 <=? n)%nat && (n <=? 57)%nat.

Fixpoint all_digits (s : string) : bool :=
  match s with
  | EmptyString => true
  | String c r => is_digit c && all_digits r
  end.

(** [s.isdigit()]: at least one character, all of them digits. *)
Definition isdigit (s : string) : bool :=
  match s with
  | EmptyString => false
  | _ => all_digits s
  end.

Fixpoint int_acc (acc : Z) (s : string) : Z :=
  match s with
  | EmptyString => acc
  | String c r => int_acc (10 * acc + (Z.of_nat (nat_of_ascii c) - 48)) r
  end.

(** [int(s)] where [s.isdigit()] holds. *)
Definition int (s : string) : Z := int_acc 0 s.

Definition lower_char (c : ascii) : ascii :=
  let n := nat_of_ascii c in
  if (65 <=? n)%nat && (n <=? 90)%nat then ascii_of_nat (n + 32) else c.

(** [s.lower()]. *)
Fixpoint lower (s : string) : string :=
  match s with
  | EmptyString => EmptyString
  | String c r => String (lower_char c) (lower r)
  end.

(** Truth value of a string: non-empty. *)
Definition truthy_str (s : string) : bool :=
  match s with
  | EmptyString => false
  | _ => true
  end.

(** Decimal rendering padded with zeros on the left to [width] digits,
    as [strftime] does for its numeric fields. *)
Definition zpad (width : nat) (z : Z) : string :=
  let s := str_int z in
  repeat_str "0" (width - String.length s) ++ s.

End Py.

(** ** Decoded JSON values

    What [json.loads] hands back: [None], [bool], [int], [float], [str],
    [list] and [dict] (insertion-ordered, keys are strings). *)

Inductive json : Type :=
| JNull
| JBool (b : bool)
| JInt (z : Z)
| JFloat (f : float)
| JStr (s : string)
| JArr (l : list json)
| JObj (kv : list (string * json)).

(** Exceptions that reach the top of the script.  [OutOfFuel] is not a
    Python exception: it marks a bounded unrolling of the [while] loop
    that was cut short, and [wait_for_workflow_start_total] shows that
    the script never produces it. *)
Inductive exn : Type :=
| SystemExit (code : Z)
| IndexError
| KeyError (key : string)
| TypeError
| OutOfFuel.

Definition truthy (v : json) : bool :=
  match v with
  | JNull => false
  | JBool b => b
  | JInt z => negb (z =? 0)
  | JFloat f => negb (PrimFloat.eqb f PrimFloat.zero)
  | JStr s => Py.truthy_str s
  | JArr l => match l with [] => false | _ => true end
  | JObj kv => match kv with [] => false | _ => true end
  end.

Fixpoint assoc (k : string) (kv : list (string * json)) : option json :=
  match kv with
  | [] => None
  | (k', v) :: rest => if String.eqb k k' then Some v else assoc k rest
  end.

(** [v[i]] for an [int] index. *)
Definition getitem_int (v : json) (i : Z) : exn + json :=
  match v with
  | JArr l =>
      let n := Z.of_nat (List.length l) in
      let j := if i <? 0 then i + n else i in
      if (0 <=? j) && (j <? n)
      then match nth_error l (Z.to_nat j) with
           | Some x => inr x
           | None => inl IndexError
           end
      else inl IndexError
  | JObj _ => inl (KeyError (Py.str_int i))
  | JStr s =>
      let n := Py.len s in
      let j := if i <? 0 then i + n else i in
      if (0 <=? j) && (j <? n)
      then inr (JStr (String.substring (Z.to_nat j) 1 s))
      else inl IndexError
  | _ => inl TypeError
  end.

(** [v[k]] for a [str] key. *)
Definition getitem_key (v : json) (k : string) : exn + json :=
  match v with
  | JObj kv =>
      match assoc k kv with
      | Some x => inr x
      | None => inl (KeyError k)
      end
  | _ => inl TypeError
  end.

(** [v in l] for a list [l] of strings. *)
Definition is_in (v : json) (l : list string) : bool :=
  match v with
  | JStr s => existsb (String.eqb s) l
  | _ => false
  end.

(** ** The world outside the script *)

Definition Path : Type := list string.

Definition path_str (p : Path) : string := "/" ++ Py.join "/" p.

Record DateTime : Type := mkDateTime {
  year : Z; month : Z; day : Z; hour : Z; minute : Z; second : Z
}.

(** The fields of [strftime]; [%Y] is the year in four digits, which is
    what every platform prints from the year 1000 on. *)
Definition strftime_field (c : ascii) (dt : DateTime) : string :=
  if Ascii.eqb c "Y" then Py.zpad 4 (year dt)
  else if Ascii.eqb c "m" then Py.zpad 2 (month dt)
  else if Ascii.eqb c "d" then Py.zpad 2 (day dt)
  else if Ascii.eqb c "H" then Py.zpad 2 (hour dt)
  else if Ascii.eqb c "M" then Py.zpad 2 (minute dt)
  else if Ascii.eqb c "S" then Py.zpad 2 (second dt)
  else String "%" (String c EmptyString).

(** [dt.strftime(fmt)] for the directives the script uses. *)
Fixpoint strftime (fmt : string) (dt : DateTime) : string :=
  match fmt with
  | EmptyString => EmptyString
  | String c r =>
      if Ascii.eqb c "%"
      then match r with
           | EmptyString => String c EmptyString
           | String d r' => strftime_field d dt ++ strftime r' dt
           end
      else String c (strftime r dt)
  end.

(** One child process: the arguments of [subprocess.run]. *)
Record Call : Type := mkCall {
  cmd : list string;
  cwd : option Path;
  capture_output : bool;
  timeout : option Z
}.

(** (return_code, stdout, stderr) *)
Definition CommandResult : Type := Z * string * string.

Definition code_of (r : CommandResult) : Z := fst (fst r).
Definition stdout_of (r : CommandResult) : string := snd (fst r).
Definition stderr_of (r : CommandResult) : string := snd r.

(** A child process that was really started, with what the runner
    returned for it. *)
Record Event : Type := mkEvent {
  ev_call : Call;
  ev_result : CommandResult
}.

(** What [subprocess.run] does when it is left to finish: the child exits,
    or the call raises (the program is missing, the directory is). *)
Inductive Raw : Type :=
| Exited (returncode : Z) (out err : string)
| Raised (msg : string).

(** The environment: how child processes answer (given everything that
    was run before and the time, the outcome and how long it takes), which
    directories exist, what the date is, and the two library functions the
    script leaves to Python: [json.loads] ([None] for a
    [JSONDecodeError]) and [str] of a list, dict or float. *)
Record Env : Type := mkEnv {
  exec : list Event -> Z -> Call -> Raw * N;
  path_exists : list Event -> Path -> bool;
  datetime_now : Z -> DateTime;
  json_loads : string -> option json;
  str_compound : json -> string;
  SCRIPT_DIR : Path;
  SCRIPT_NAME : string
}.

(** The state of the process: the global flag, the clock (in seconds),
    the child processes run so far (oldest first) and the lines printed. *)
Record World : Type := mkWorld {
  DRY_RUN : bool;
  clock : Z;
  events : list Event;
  console : list string
}.

(** ** The monad of the script *)

Inductive Outcome (A : Type) : Type :=
| Val (a : A)
| Raise (e : exn).

Arguments Val {A} a.
Arguments Raise {A} e.

Definition M (A : Type) : Type := World -> Outcome A * World.

Definition ret {A} (a : A) : M A := fun w => (Val a, w).

Definition raise {A} (e : exn) : M A := fun w => (Raise e, w).

Definition bind {A B} (m : M A) (k : A -> M B) : M B :=
  fun w =>
    match m w with
    | (Val a, w') => k a w'
    | (Raise e, w') => (Raise e, w')
    end.

Declare Scope py_scope.
Delimit Scope py_scope with py.
Notation "x <- m ;; k" := (bind m (fun x => k))
  (at level 61, m at next level, right associativity) : py_scope.
Notation "' pat <- m ;; k" := (bind m (fun x => match x with pat => k end))
  (at level 61, pat pattern, m at next level, right associativity) : py_scope.
Notation "m ;; k" := (bind m (fun _ => k))
  (at level 61, right associativity) : py_scope.
Local Open Scope py_scope.

Definition lift {A} (r : exn + A) : M A :=
  match r with
  | inl e => raise e
  | inr a => ret a
  end.

Definition result_of {A} (m : M A) (w : World) : Outcome A := fst (m w).
Definition world_after {A} (m : M A) (w : World) : World := snd (m w).

(** The child processes started by [m] from [w]. *)
Definition new_events {A} (m : M A) (w : World) : list Event :=
  skipn (List.length (events w)) (events (world_after m w)).

(** The lines printed by [m] from [w]. *)
Definition new_console {A} (m : M A) (w : World) : list string :=
  skipn (List.length (console w)) (console (world_after m w)).

(** ** The script *)

(** The terminal colour codes. *)
Module Colors.

Definition HEADER : string := Py.ESC ++ "[95m".
Definition BLUE : string := Py.ESC ++ "[94m".
Definition CYAN : string := Py.ESC ++ "[96m".
Definition GREEN : string := Py.ESC ++ "[92m".
Definition YELLOW : string := Py.ESC ++ "[93m".
Definition RED : string := Py.ESC ++ "[91m".
Definition ENDC : string := Py.ESC ++ "[0m".
Definition BOLD : string := Py.ESC ++ "[1m".
End Colors.

Section Script.

Variable env : Env.

(** *** Configuration *)

Definition RS_CLIENT_DIR : Path := SCRIPT_DIR env.
Definition HBB_COMMON_DIR : Path := (RS_CLIENT_DIR ++ ["libs"; "hbb_common"])%list.

Definition REPO_OWNER : string := "Jiang1756".
Definition REPO_NAME : string := "rs-client".
Definition WORKFLOW_FILE : string := "flutter-nightly.yml".

Definition DEFAULT_CMD_TIMEOUT : Z := 300.
Definition GIT_PUSH_TIMEOUT : Z := 600.

(** *** Primitive effects *)

Definition print (s : string) : M unit :=
  fun w => (Val tt, mkWorld (DRY_RUN w) (clock w) (events w) (console w ++ [s])).

Definition color_print (msg : string) (color : string) : M unit :=
  print (color ++ msg ++ Colors.ENDC).

Definition get_DRY_RUN : M bool := fun w => (Val (DRY_RUN w), w).

Definition set_DRY_RUN (b : bool) : M unit :=
  fun w => (Val tt, mkWorld b (clock w) (events w) (console w)).

Definition time_time : M Z := fun w => (Val (clock w), w).

Definition time_sleep (secs : Z) : M unit :=
  fun w => (Val tt, mkWorld (DRY_RUN w) (clock w + secs) (events w) (console w)).

Definition datetime_now_ : M DateTime :=
  fun w => (Val (datetime_now env (clock w)), w).

Definition exists_ (p : Path) : M bool :=
  fun w => (Val (path_exists env (events w) p), w).

Definition sys_exit {A} (code : Z) : M A := raise (SystemExit code).

(** [str(v)] of a decoded value. *)
Definition py_str (v : json) : string :=
  match v with
  | JNull => "None"
  | JBool true => "True"
  | JBool false => "False"
  | JInt z => Py.str_int z
  | JStr s => s
  | _ => str_compound env v
  end.

(** [subprocess.run(cmd, cwd=cwd, capture_output=capture, text=True,
    timeout=timeout)] followed by the runner's own treatment of the
    result.  The child is started, runs for [d] seconds and is recorded
    with the triple the runner returns:
    - it outlives the timeout: [TimeoutExpired], after [timeout] seconds;
    - the call raises: (-1, "", message);
    - it exits: (returncode, stdout.strip(), stderr.strip()); without
      capture [stdout] is [None] and [.strip()] raises, which the runner
      catches like any other exception. *)
Definition spawn (c : Call) (tmo : Z) : M CommandResult :=
  fun w =>
    let (raw, d) := exec env (events w) (clock w) c in
    let timed_out := tmo <? Z.of_N d in
    let res : CommandResult :=
      if timed_out
      then (-1, "", "命令执行超时 (" ++ Py.str_int tmo ++ "秒)")
      else match raw with
           | Raised msg => (-1, "", msg)
           | Exited rc out err =>
               if capture_output c
               then (rc, Py.strip out, Py.strip err)
               else (-1, "", "'NoneType' object has no attribute 'strip'")
           end in
    (Val res,
     mkWorld (DRY_RUN w)
             (clock w + (if timed_out then tmo else Z.of_N d))
             (events w ++ [mkEvent c res])
             (console w)).

Definition run_cmd (cmd : list string) (cwd : option Path)
    (capture : bool) (timeout : Z) : M CommandResult :=
  dry <- get_DRY_RUN ;;
  if dry then
    color_print ("[DRY-RUN] 将执行: " ++ Py.join " " cmd) Colors.YELLOW ;;
    ret (0, "[dry-run]", "")
  else
    spawn (mkCall cmd cwd capture (Some timeout)) timeout.

(** [subprocess.run(cmd, cwd=cwd)]: no capture and no timeout. *)
Definition spawn_live (c : Call) : M (string + Z) :=
  fun w =>
    let (raw, d) := exec env (events w) (clock w) c in
    let r : string + Z :=
      match raw with
      | Raised msg => inl msg
      | Exited rc _ _ => inr rc
      end in
    (Val r,
     mkWorld (DRY_RUN w) (clock w + Z.of_N d)
             (events w ++ [mkEvent c (match r with
                                     | inl msg => (-1, "", msg)
                                     | inr rc => (rc, "", "")
                                     end)])
             (console w)).

Definition run_cmd_live (cmd : list string) (cwd : option Path) : M Z :=
  dry <- get_DRY_RUN ;;
  if dry then
    color_print ("[DRY-RUN] 将执行: " ++ Py.join " " cmd) Colors.YELLOW ;;
    ret 0
  else
    r <- spawn_live (mkCall cmd cwd false None) ;;
    match r with
    | inr rc => ret rc
    | inl e =>
        color_print ("执行失败: " ++ e) Colors.RED ;;
        ret (-1)
    end.

(** *** Pre-flight checks *)

Definition check_gh_installed : M unit :=
  '(code, _, _) <- run_cmd ["gh"; "--version"] None true DEFAULT_CMD_TIMEOUT ;;
  (if negb (code =? 0) then
     color_print "错误: gh CLI 未安装或不在 PATH 中" Colors.RED ;;
     color_print "请访问 https://cli.github.com/ 安装 gh" Colors.YELLOW ;;
     sys_exit 1
   else ret tt) ;;
  '(code, _, _) <- run_cmd ["gh"; "auth"; "status"] None true DEFAULT_CMD_TIMEOUT ;;
  if negb (code =? 0) then
    color_print "错误: gh CLI 未登录" Colors.RED ;;
    color_print "请执行 'gh auth login' 进行登录" Colors.YELLOW ;;
    sys_exit 1
  else ret tt.

Definition check_repo_exists : M unit :=
  ex <- exists_ RS_CLIENT_DIR ;;
  (if negb ex then
     color_print "错误: 未找到 rs-client 仓库目录" Colors.RED ;;
     color_print ("期望路径: " ++ path_str RS_CLIENT_DIR) Colors.YELLOW ;;
     sys_exit 1
   else ret tt) ;;
  ex <- exists_ HBB_COMMON_DIR ;;
  if negb ex then
    color_print "警告: hbb_common 子模块目录不存在" Colors.YELLOW ;;
    color_print "尝试初始化子模块..." Colors.CYAN ;;
    code <- run_cmd_live ["git"; "submodule"; "update"; "--init"] (Some RS_CLIENT_DIR) ;;
    if negb (code =? 0) then
      color_print "子模块初始化失败" Colors.RED ;;
      sys_exit 1
    else ret tt
  else ret tt.

Definition get_timestamp : M string :=
  now <- datetime_now_ ;; ret (strftime "%Y%m%d-%H%M%S" now).

Definition get_tag_timestamp : M string :=
  now <- datetime_now_ ;; ret (strftime "%Y-%m%d-%H%M" now).

(** *** Repository sync *)

Definition git_has_changes (repo_dir : Path) : M bool :=
  '(code, stdout, _) <-
     run_cmd ["git"; "status"; "--porcelain"] (Some repo_dir) true DEFAULT_CMD_TIMEOUT ;;
  ret ((code =? 0) && (0 <? Py.len stdout)).

Definition git_check_remote_ahead (repo_dir : Path) : M bool :=
  run_cmd ["git"; "fetch"] (Some repo_dir) true 60 ;;
  '(code, stdout, _) <-
     run_cmd ["git"; "rev-list"; "HEAD..@{u}"; "--count"] (Some repo_dir) true
             DEFAULT_CMD_TIMEOUT ;;
  if (code =? 0) && Py.isdigit stdout
  then ret (0 <? Py.int stdout)
  else ret false.

Definition git_pull (repo_dir : Path) : M bool :=
  color_print "执行: git pull --rebase" Colors.BLUE ;;
  '(code, stdout, stderr) <-
     run_cmd ["git"; "pull"; "--rebase"] (Some repo_dir) true 120 ;;
  if negb (code =? 0) then
    color_print ("git pull 失败: " ++ stderr) Colors.RED ;;
    ret false
  else ret true.

Definition git_commit_push (repo_dir : Path) (repo_name commit_msg : string)
    (auto_pull : bool) : M bool :=
  color_print (Py.NL ++ Py.repeat_str "=" 50) Colors.CYAN ;;
  color_print ("处理仓库: " ++ repo_name) Colors.BOLD ;;
  color_print ("路径: " ++ path_str repo_dir) Colors.CYAN ;;
  color_print (Py.repeat_str "=" 50) Colors.CYAN ;;
  changed <- git_has_changes repo_dir ;;
  if negb changed then
    color_print "没有需要提交的更改，跳过" Colors.YELLOW ;;
    ret true
  else
  color_print "执行: git add ." Colors.BLUE ;;
  '(code, _, stderr) <-
     run_cmd ["git"; "add"; "."] (Some repo_dir) true DEFAULT_CMD_TIMEOUT ;;
  if negb (code =? 0) then
    color_print ("git add 失败: " ++ stderr) Colors.RED ;;
    ret false
  else
  color_print ("执行: git commit -m " ++ Py.DQUOTE ++ commit_msg ++ Py.DQUOTE) Colors.BLUE ;;
  '(code, stdout, stderr) <-
     run_cmd ["git"; "commit"; "-m"; commit_msg] (Some repo_dir) true DEFAULT_CMD_TIMEOUT ;;
  if negb (code =? 0) then
    if Py.contains "nothing to commit" stderr || Py.contains "nothing to commit" stdout
    then
      color_print "没有需要提交的更改" Colors.YELLOW ;;
      ret true
    else
      color_print ("git commit 失败: " ++ stderr) Colors.RED ;;
      ret false
  else
  color_print stdout Colors.GREEN ;;
  ahead <- (if auto_pull then git_check_remote_ahead repo_dir else ret false) ;;
  pulled <- (if ahead then
               color_print "远程有新提交，自动拉取中..." Colors.YELLOW ;;
               ok <- git_pull repo_dir ;;
               if negb ok then
                 color_print "建议手动解决冲突后重试" Colors.YELLOW ;;
                 ret false
               else ret true
             else ret true) ;;
  if negb pulled then ret false else
  color_print "执行: git push" Colors.BLUE ;;
  '(code, stdout, stderr) <-
     run_cmd ["git"; "push"] (Some repo_dir) true GIT_PUSH_TIMEOUT ;;
  if negb (code =? 0) then
    color_print ("git push 失败: " ++ stderr) Colors.RED ;;
    (if Py.contains "rejected" (Py.lower stderr)
     then color_print "提示: 远程有新提交，请先执行 git pull" Colors.YELLOW
     else ret tt) ;;
    ret false
  else
  color_print "推送成功!" Colors.GREEN ;;
  ret true.

(** *** Confirmation polling *)

Definition run_list_cmd : list string :=
  ["gh"; "run"; "list";
   "-R"; REPO_OWNER ++ "/" ++ REPO_NAME;
   "-w"; WORKFLOW_FILE;
   "-L"; "1";
   "--json"; "databaseId,status,createdAt"].

(** The body of the [try]: [Some id] when the function returns from
    inside the loop, [None] when the iteration goes on to the sleep
    (also after a [JSONDecodeError]). *)
Definition poll_once : M (option string) :=
  '(code, stdout, _) <-
     run_cmd run_list_cmd (Some RS_CLIENT_DIR) true DEFAULT_CMD_TIMEOUT ;;
  if (code =? 0) && Py.truthy_str stdout then
    match json_loads env stdout with
    | None => ret None
    | Some runs =>
        if truthy runs then
          run0 <- lift (getitem_int runs 0) ;;
          status <- lift (getitem_key run0 "status") ;;
          if is_in status ["queued"; "in_progress"] then
            run0 <- lift (getitem_int runs 0) ;;
            run_id <- lift (getitem_key run0 "databaseId") ;;
            color_print ("✅ Workflow 已启动! Run ID: " ++ py_str run_id) Colors.GREEN ;;
            ret (Some (py_str run_id))
          else ret None
        else ret None
    end
  else ret None.

(** [while time.time() - start_time < max_wait: ...], unrolled at most
    [fuel] times. *)
Fixpoint wait_loop (fuel : nat) (start_time max_wait : Z) : M (option string) :=
  match fuel with
  | O => raise OutOfFuel
  | S fuel' =>
      now <- time_time ;;
      if now - start_time <? max_wait then
        found <- poll_once ;;
        match found with
        | Some run_id => ret (Some run_id)
        | None =>
            time_sleep 2 ;;
            wait_loop fuel' start_time max_wait
        end
      else ret None
  end.

(** Every iteration sleeps two seconds, so [max_wait] + 1 unrollings are
    more than the loop can use. *)
Definition wait_fuel (max_wait : Z) : nat := S (Z.to_nat max_wait).

Definition wait_for_workflow_start (max_wait : Z) : M (option string) :=
  color_print (Py.NL ++ "⏳ 等待 workflow 启动 (最多 " ++ Py.str_int max_wait ++ " 秒)...")
              Colors.CYAN ;;
  start_time <- time_time ;;
  found <- wait_loop (wait_fuel max_wait) start_time max_wait ;;
  match found with
  | Some run_id => ret (Some run_id)
  | None =>
      color_print "⚠️ 等待超时，请手动检查 workflow 状态" Colors.YELLOW ;;
      ret None
  end.

(** *** Commands *)

(** The [argparse] namespace; [dry_run], [message] and [tag] are those of
    the [push] and [build] parsers, [follow] that of [watch]. *)
Record Args : Type := mkArgs {
  dry_run : bool;
  message : option string;
  tag : option string;
  follow : bool
}.

Definition opt_truthy (o : option string) : bool :=
  match o with
  | Some s => Py.truthy_str s
  | None => false
  end.

Definition opt_get (o : option string) : string :=
  match o with
  | Some s => s
  | None => ""
  end.

Definition cmd_push (args : Args) : M Z :=
  set_DRY_RUN (dry_run args) ;;
  check_gh_installed ;;
  check_repo_exists ;;
  timestamp <- get_timestamp ;;
  let commit_msg :=
    if opt_truthy (message args) then opt_get (message args)
    else "build: auto commit " ++ timestamp in
  color_print (Py.NL ++ "提交信息: " ++ commit_msg) Colors.HEADER ;;
  dry <- get_DRY_RUN ;;
  (if dry then color_print (Py.NL ++ "[DRY-RUN 模式] 以下操作不会真正执行:") Colors.YELLOW
   else ret tt) ;;
  success <- git_commit_push HBB_COMMON_DIR "hbb_common" commit_msg true ;;
  if negb success then
    color_print (Py.NL ++ "hbb_common 提交失败，终止操作") Colors.RED ;;
    ret 1
  else
  success <- git_commit_push RS_CLIENT_DIR "rs-client" commit_msg true ;;
  if negb success then
    color_print (Py.NL ++ "rs-client 提交失败") Colors.RED ;;
    ret 1
  else
  color_print (Py.NL ++ "✅ 所有仓库提交完成!") Colors.GREEN ;;
  ret 0.

Definition workflow_run_cmd (tag : string) : list string :=
  ["gh"; "workflow"; "run"; WORKFLOW_FILE;
   "-R"; REPO_OWNER ++ "/" ++ REPO_NAME;
   "-f"; "upload-tag=" ++ tag].

Definition cmd_build (args : Args) : M Z :=
  set_DRY_RUN (dry_run args) ;;
  check_gh_installed ;;
  check_repo_exists ;;
  color_print (Py.NL ++ "📦 步骤 1/3: 提交代码") Colors.HEADER ;;
  ret_ <- cmd_push args ;;
  if negb (ret_ =? 0) then ret ret_ else
  tag <- (if opt_truthy (tag args) then ret (opt_get (tag args))
          else get_tag_timestamp) ;;
  color_print (Py.NL ++ "🏷️  步骤 2/3: 使用 Tag: " ++ tag) Colors.HEADER ;;
  color_print (Py.NL ++ "🚀 步骤 3/3: 触发 GitHub Actions 构建") Colors.HEADER ;;
  color_print ("Workflow: " ++ WORKFLOW_FILE) Colors.CYAN ;;
  let cmd := workflow_run_cmd tag in
  color_print ("执行: " ++ Py.join " " cmd) Colors.BLUE ;;
  '(code, stdout, stderr) <-
     run_cmd cmd (Some RS_CLIENT_DIR) true DEFAULT_CMD_TIMEOUT ;;
  if negb (code =? 0) then
    color_print ("触发构建失败: " ++ stderr) Colors.RED ;;
    ret 1
  else
  color_print (Py.NL ++ "✅ 构建已触发!") Colors.GREEN ;;
  color_print ("Tag: " ++ tag) Colors.CYAN ;;
  dry <- get_DRY_RUN ;;
  (if negb dry then
     run_id <- wait_for_workflow_start 30 ;;
     match run_id with
     | Some id =>
         if Py.truthy_str id then
           color_print (Py.NL ++ "查看构建详情: gh run view " ++ id ++ " -R "
                        ++ REPO_OWNER ++ "/" ++ REPO_NAME) Colors.CYAN
         else ret tt
     | None => ret tt
     end
   else ret tt) ;;
  color_print ("监控构建状态: python " ++ SCRIPT_NAME env ++ " watch") Colors.YELLOW ;;
  ret 0.

Definition cmd_watch (args : Args) : M Z :=
  check_gh_installed ;;
  color_print (Py.NL ++ "👁️  查询最近的构建状态...") Colors.HEADER ;;
  let cmd := ["gh"; "run"; "list";
              "-R"; REPO_OWNER ++ "/" ++ REPO_NAME;
              "-w"; WORKFLOW_FILE;
              "-L"; "5"] in
  '(code, stdout, stderr) <-
     run_cmd cmd (Some RS_CLIENT_DIR) true DEFAULT_CMD_TIMEOUT ;;
  if negb (code =? 0) then
    color_print ("查询失败: " ++ stderr) Colors.RED ;;
    ret 1
  else
  if negb (Py.truthy_str stdout) then
    color_print "没有找到构建记录" Colors.YELLOW ;;
    ret 0
  else
  color_print (Py.NL ++ "最近 5 次构建:") Colors.CYAN ;;
  print (Py.repeat_str "-" 80) ;;
  print stdout ;;
  print (Py.repeat_str "-" 80) ;;
  if follow args then
    color_print (Py.NL ++ "🔄 实时监控最新构建...") Colors.HEADER ;;
    let cmd := ["gh"; "run"; "watch";
                "-R"; REPO_OWNER ++ "/" ++ REPO_NAME] in
    run_cmd_live cmd (Some RS_CLIENT_DIR)
  else ret 0.

Definition failed_list_cmd : list string :=
  ["gh"; "run"; "list";
   "-R"; REPO_OWNER ++ "/" ++ REPO_NAME;
   "-w"; WORKFLOW_FILE;
   "-s"; "failure";
   "-L"; "1";
   "--json"; "databaseId,displayTitle,conclusion,createdAt"].

Definition log_failed_cmd (run_id : string) : list string :=
  ["gh"; "run"; "view"; run_id;
   "-R"; REPO_OWNER ++ "/" ++ REPO_NAME;
   "--log-failed"].

Definition no_failures_message : string := "没有找到失败的构建记录 🎉".

Definition cmd_fail (args : Args) : M Z :=
  check_gh_installed ;;
  color_print (Py.NL ++ "🔍 查找最近的失败构建...") Colors.HEADER ;;
  '(code, stdout, stderr) <-
     run_cmd failed_list_cmd (Some RS_CLIENT_DIR) true DEFAULT_CMD_TIMEOUT ;;
  if negb (code =? 0) then
    color_print ("查询失败: " ++ stderr) Colors.RED ;;
    ret 1
  else
  match json_loads env stdout with
  | None =>
      color_print "解析返回数据失败" Colors.RED ;;
      ret 1
  | Some runs =>
      if negb (truthy runs) then
        color_print no_failures_message Colors.GREEN ;;
        ret 0
      else
      run <- lift (getitem_int runs 0) ;;
      run_id <- lift (getitem_key run "databaseId") ;;
      title <- lift (getitem_key run "displayTitle") ;;
      created <- lift (getitem_key run "createdAt") ;;
      color_print (Py.NL ++ "找到失败构建:") Colors.RED ;;
      color_print ("  Run ID: " ++ py_str run_id) Colors.CYAN ;;
      color_print ("  标题: " ++ py_str title) Colors.CYAN ;;
      color_print ("  时间: " ++ py_str created) Colors.CYAN ;;
      color_print (Py.NL ++ "📋 获取失败的 Jobs...") Colors.HEADER ;;
      let cmd := log_failed_cmd (py_str run_id) in
      color_print ("输出失败日志 (可能较长):" ++ Py.NL) Colors.YELLOW ;;
      print (Py.repeat_str "=" 80) ;;
      run_cmd_live cmd (Some RS_CLIENT_DIR)
  end.

(** *** Dispatch *)

Inductive Command : Type := Push | Build | Watch | Fail.

Definition func (c : Command) : Args -> M Z :=
  match c with
  | Push => cmd_push
  | Build => cmd_build
  | Watch => cmd_watch
  | Fail => cmd_fail
  end.

(** Commands run one after another in one process, as a test suite calls
    them: the global flag and the record of what was run carry over; an
    exception ends the sequence. *)
Fixpoint run_commands (cs : list (Command * Args)) : M (list Z) :=
  match cs with
  | [] => ret []
  | (c, args) :: rest =>
      r <- func c args ;;
      rs <- run_commands rest ;;
      ret (r :: rs)
  end.

End Script.

(** ** What one sync can do, as a relation on the processes it starts *)

Definition git_call (args : list string) (dir : Path) (tmo : Z) : Call :=
  mkCall ("git" :: args) (Some dir) true (Some tmo).

Definition status_call (dir : Path) : Call :=
  git_call ["status"; "--porcelain"] dir DEFAULT_CMD_TIMEOUT.
Definition add_call (dir : Path) : Call :=
  git_call ["add"; "."] dir DEFAULT_CMD_TIMEOUT.
Definition commit_call (dir : Path) (msg : string) : Call :=
  git_call ["commit"; "-m"; msg] dir DEFAULT_CMD_TIMEOUT.
Definition fetch_call (dir : Path) : Call :=
  git_call ["fetch"] dir 60.
Definition rev_list_call (dir : Path) : Call :=
  git_call ["rev-list"; "HEAD..@{u}"; "--count"] dir DEFAULT_CMD_TIMEOUT.
Definition pull_call (dir : Path) : Call :=
  git_call ["pull"; "--rebase"] dir 120.
Definition push_call (dir : Path) : Call :=
  git_call ["push"] dir GIT_PUSH_TIMEOUT.

(** The tests the sync makes on the triples it gets back. *)
Definition reports_changes (r : CommandResult) : bool :=
  (code_of r =? 0) && (0 <? Py.len (stdout_of r)).

Definition noop_marker (r : CommandResult) : bool :=
  Py.contains "nothing to commit" (stderr_of r)
  || Py.contains "nothing to commit" (stdout_of r).

Definition reports_ahead (r : CommandResult) : bool :=
  (code_of r =? 0) && Py.isdigit (stdout_of r) && (0 <? Py.int (stdout_of r)).

Inductive AheadCheck (dir : Path) : bool -> list Event -> bool -> Prop :=
| Ahead_not_asked : AheadCheck dir false [] false
| Ahead_asked (fe rl : CommandResult) :
    AheadCheck dir true
      [mkEvent (fetch_call dir) fe; mkEvent (rev_list_call dir) rl]
      (reports_ahead rl).

Inductive SyncRun (dir : Path) (msg : string) (auto_pull : bool)
  : list Event -> bool -> Prop :=
| Sync_no_changes st :
    reports_changes st = false ->
    SyncRun dir msg auto_pull [mkEvent (status_call dir) st] true
| Sync_add_failed st ad :
    reports_changes st = true ->
    code_of ad <> 0 ->
    SyncRun dir msg auto_pull
      [mkEvent (status_call dir) st; mkEvent (add_call dir) ad] false
| Sync_commit_failed st ad cm :
    reports_changes st = true ->
    code_of ad = 0 ->
    code_of cm <> 0 ->
    SyncRun dir msg auto_pull
      [mkEvent (status_call dir) st; mkEvent (add_call dir) ad;
       mkEvent (commit_call dir msg) cm]
      (noop_marker cm)
| Sync_pull_failed st ad cm chk pl :
    reports_changes st = true ->
    code_of ad = 0 ->
    code_of cm = 0 ->
    AheadCheck dir auto_pull chk true ->
    code_of pl <> 0 ->
    SyncRun dir msg auto_pull
      ([mkEvent (status_call dir) st; mkEvent (add_call dir) ad;
        mkEvent (commit_call dir msg) cm]
       ++ chk ++ [mkEvent (pull_call dir) pl])
      false
| Sync_pulled_pushed st ad cm chk pl pu :
    reports_changes st = true ->
    code_of ad = 0 ->
    code_of cm = 0 ->
    AheadCheck dir auto_pull chk true ->
    code_of pl = 0 ->
    SyncRun dir msg auto_pull
      ([mkEvent (status_call dir) st; mkEvent (add_call dir) ad;
        mkEvent (commit_call dir msg) cm]
       ++ chk ++ [mkEvent (pull_call dir) pl; mkEvent (push_call dir) pu])
      (code_of pu =? 0)
| Sync_pushed st ad cm chk pu :
    reports_changes st = true ->
    code_of ad = 0 ->
    code_of cm = 0 ->
    AheadCheck dir auto_pull chk false ->
    SyncRun dir msg auto_pull
      ([mkEvent (status_call dir) st; mkEvent (add_call dir) ad;
        mkEvent (commit_call dir msg) cm]
       ++ chk ++ [mkEvent (push_call dir) pu])
      (code_of pu =? 0).

(** What the confirmation loop reads off one listing answer: an
    exception of the indexing, [Some run_id] for a first run that is
    queued or in progress, [None] otherwise. *)
Definition qualifying_run (env : Env) (res : CommandResult) : exn + option json :=
  if (code_of res =? 0) && Py.truthy_str (stdout_of res) then
    match json_loads env (stdout_of res) with
    | None => inr None
    | Some runs =>
        if truthy runs then
          match getitem_int runs 0 with
          | inl e => inl e
          | inr run0 =>
              match getitem_key run0 "status" with
              | inl e => inl e
              | inr status =>
                  if is_in status ["queued"; "in_progress"] then
                    match getitem_key run0 "databaseId" with
                    | inl e => inl e
                    | inr run_id => inr (Some run_id)
                    end
                  else inr None
              end
          end
        else inr None
    end
  else inr None.

Definition poll_call (env : Env) : Call :=
  mkCall run_list_cmd (Some (RS_CLIENT_DIR env)) true (Some DEFAULT_CMD_TIMEOUT).

Definition trigger_call (env : Env) (tag : string) : Call :=
  mkCall (workflow_run_cmd tag) (Some (RS_CLIENT_DIR env)) true
         (Some DEFAULT_CMD_TIMEOUT).

Definition failed_list_call (env : Env) : Call :=
  mkCall failed_list_cmd (Some (RS_CLIENT_DIR env)) true (Some DEFAULT_CMD_TIMEOUT).

(** ** Reasoning about runs *)

(** [wp m Q w]: running [m] from [w] ends in an outcome and a world that
    satisfy [Q]. *)
Definition wp {A} (m : M A) (Q : Outcome A -> World -> Prop) (w : World) : Prop :=
  Q (fst (m w)) (snd (m w)).

(** [w'] continues [w] in earnest: the flag is the same, the processes
    [l] were started in between, [dt] seconds went by and lines were
    added to the console. *)
Record Effect (w w' : World) (l : list Event) (dt : Z) : Prop := mkEffect {
  eff_flag : DRY_RUN w' = DRY_RUN w;
  eff_events : events w' = (events w ++ l)%list;
  eff_clock : clock w' = clock w + dt;
  eff_time : 0 <= dt;
  eff_console : exists lines, console w' = (console w ++ lines)%list
}.

(** The pre-flight checks. *)
Definition gh_version_call : Call :=
  mkCall ["gh"; "--version"] None true (Some DEFAULT_CMD_TIMEOUT).
Definition gh_auth_call : Call :=
  mkCall ["gh"; "auth"; "status"] None true (Some DEFAULT_CMD_TIMEOUT).
Definition submodule_init_call (env : Env) : Call :=
  mkCall ["git"; "submodule"; "update"; "--init"] (Some (RS_CLIENT_DIR env))
         false None.

Definition is_preflight (env : Env) (e : Event) : Prop :=
  In (ev_call e) [gh_version_call; gh_auth_call; submodule_init_call env].

(** The first line the confirmation loop prints, whatever its budget. *)
Definition wait_banner_prefix : string := Colors.CYAN ++ Py.NL ++ "⏳".

Definition is_wait_banner (line : string) : bool := prefix wait_banner_prefix line.

(** [w'] continues [w] under simulation: the flag is set, no process was
    started, no time went by, and none of the lines printed is the
    banner of the confirmation loop. *)
Record Simulated (w w' : World) : Prop := mkSimulated {
  sim_flag : DRY_RUN w' = true;
  sim_events : events w' = events w;
  sim_clock : clock w' = clock w;
  sim_console : exists lines,
      console w' = (console w ++ lines)%list /\
      Forall (fun line => is_wait_banner line = false) lines
}.

(** A sequence of commands that keeps the flag set: [push] and [build]
    assign it from their arguments, [watch] and [fail] leave it alone. *)
Definition simulating (cs : list (Command * Args)) : Prop :=
  forall c args, In (c, args) cs -> c = Push \/ c = Build -> dry_run args = true.

(** [w] with the flag set. *)
Definition flagged (w : World) : World :=
  mkWorld true (clock w) (events w) (console w).

(** ** What the confirmation loop can do *)

(** How long the listing started from [w] keeps the script waiting. *)
Definition poll_time (env : Env) (w : World) : Z :=
  Z.min DEFAULT_CMD_TIMEOUT
        (Z.of_N (snd (exec env (events w) (clock w) (poll_call env)))).

(** What one turn of the loop makes of a listing. *)
Definition poll_outcome (env : Env) (res : CommandResult) : Outcome (option string) :=
  match qualifying_run env res with
  | inl e => Raise e
  | inr None => Val None
  | inr (Some run_id) => Val (Some (py_str env run_id))
  end.

(** Listings that let the loop go on: no first run that is queued or in
    progress, and nothing that makes the indexing raise. *)
Definition polls_nothing (env : Env) (polls : list Event) : Prop :=
  Forall (fun e => ev_call e = poll_call env /\
                   qualifying_run env (ev_result e) = inr None) polls.

Inductive WaitRun (env : Env) : list Event -> Outcome (option string) -> Prop :=
| Wait_timed_out polls :
    polls_nothing env polls ->
    WaitRun env polls (Val None)
| Wait_confirmed polls res run_id :
    polls_nothing env polls ->
    qualifying_run env res = inr (Some run_id) ->
    WaitRun env (polls ++ [mkEvent (poll_call env) res])
            (Val (Some (py_str env run_id)))
| Wait_raised polls res e :
    polls_nothing env polls ->
    qualifying_run env res = inl e ->
    WaitRun env (polls ++ [mkEvent (poll_call env) res]) (Raise e).

(** ** What a build can do *)

(** The tag of a build whose clock reads [t] when the tag is made. *)
Definition build_tag (env : Env) (args : Args) (t : Z) : string :=
  if opt_truthy (tag args) then opt_get (tag args)
  else strftime "%Y-%m%d-%H%M" (datetime_now env t).

(** The processes of the push phase: the pre-flight checks and [git]. *)
Definition is_push_phase (env : Env) (e : Event) : Prop :=
  is_preflight env e \/ hd_error (cmd (ev_call e)) = Some "git".

Definition is_trigger (c : Call) : Prop :=
  firstn 3 (cmd c) = ["gh"; "workflow"; "run"].

Inductive BuildRun (env : Env) (args : Args) (t0 t1 : Z)
  : list Event -> Outcome Z -> Prop :=
| Build_stopped pre r :
    Forall (is_push_phase env) pre ->
    r = Raise (SystemExit 1) \/ r = Val 1 ->
    BuildRun env args t0 t1 pre r
| Build_not_triggered pre t tr :
    Forall (is_push_phase env) pre ->
    t0 <= t <= t1 ->
    code_of tr <> 0 ->
    BuildRun env args t0 t1
      (pre ++ [mkEvent (trigger_call env (build_tag env args t)) tr]) (Val 1)
| Build_triggered pre t tr polls r :
    Forall (is_push_phase env) pre ->
    t0 <= t <= t1 ->
    code_of tr = 0 ->
    WaitRun env polls r ->
    BuildRun env args t0 t1
      (pre ++ [mkEvent (trigger_call env (build_tag env args t)) tr] ++ polls)
      (match r with
       | Val _ => Val 0
       | Raise e => Raise e
       end).

(** The tag as the script's docstring has it, YYYY-MMDD-HHMM. *)
Definition tag_YYYY_MMDD_HHMM (dt : DateTime) : string :=
  Py.zpad 4 (year dt) ++ "-" ++ Py.zpad 2 (month dt) ++ Py.zpad 2 (day dt)
  ++ "-" ++ Py.zpad 2 (hour dt) ++ Py.zpad 2 (minute dt).

(** The tag as the specification words it, YYYY-MM-DD-HHMM. *)
Definition tag_YYYY_MM_DD_HHMM (dt : DateTime) : string :=
  Py.zpad 4 (year dt) ++ "-" ++ Py.zpad 2 (month dt) ++ "-" ++ Py.zpad 2 (day dt)
  ++ "-" ++ Py.zpad 2 (hour dt) ++ Py.zpad 2 (minute dt).

(** A date of the calendar, with the year in four digits. *)
Definition valid_datetime (dt : DateTime) : Prop :=
  1000 <= year dt <= 9999 /\ 1 <= month dt <= 12 /\ 1 <= day dt <= 31 /\
  0 <= hour dt <= 23 /\ 0 <= minute dt <= 59 /\ 0 <= second dt <= 59.

(** ** The other processes of the commands *)

Definition watch_list_cmd : list string :=
  ["gh"; "run"; "list";
   "-R"; REPO_OWNER ++ "/" ++ REPO_NAME;
   "-w"; WORKFLOW_FILE;
   "-L"; "5"].

Definition watch_list_call (env : Env) : Call :=
  mkCall watch_list_cmd (Some (RS_CLIENT_DIR env)) true (Some DEFAULT_CMD_TIMEOUT).

Definition watch_live_call (env : Env) : Call :=
  mkCall ["gh"; "run"; "watch"; "-R"; REPO_OWNER ++ "/" ++ REPO_NAME]
         (Some (RS_CLIENT_DIR env)) false None.

Definition log_failed_call (env : Env) (run_id : string) : Call :=
  mkCall (log_failed_cmd run_id) (Some (RS_CLIENT_DIR env)) false None.



(** The commit message of a [push] whose clock reads [t] when the
    timestamp is taken. *)
Definition commit_message (env : Env) (args : Args) (t : Z) : string :=
  if opt_truthy (message args) then opt_get (message args)
  else "build: auto commit " ++ strftime "%Y%m%d-%H%M%S" (datetime_now env t).

Definition is_commit (c : Call) : Prop := firstn 2 (cmd c) = ["git"; "commit"].

(** The timestamp as the script's docstring has it, YYYYMMDD-HHMMSS. *)
Definition stamp_YYYYMMDD_HHMMSS (dt : DateTime) : string :=
  Py.zpad 4 (year dt) ++ Py.zpad 2 (month dt) ++ Py.zpad 2 (day dt)
  ++ "-" ++ Py.zpad 2 (hour dt) ++ Py.zpad 2 (minute dt) ++ Py.zpad 2 (second dt).

(** ** What the other commands can do *)

(** The check of [gh]: the version query, then the login query. *)
Inductive GhCheck : list Event -> Outcome unit -> Prop :=
| Gh_missing v :
    code_of v <> 0 ->
    GhCheck [mkEvent gh_version_call v] (Raise (SystemExit 1))
| Gh_logged_out v a :
    code_of v = 0 ->
    code_of a <> 0 ->
    GhCheck [mkEvent gh_version_call v; mkEvent gh_auth_call a]
            (Raise (SystemExit 1))
| Gh_ready v a :
    code_of v = 0 ->
    code_of a = 0 ->
    GhCheck [mkEvent gh_version_call v; mkEvent gh_auth_call a] (Val tt).

Inductive WatchRun (env : Env) (args : Args) : list Event -> Outcome Z -> Prop :=
| Watch_stopped pre :
    GhCheck pre (Raise (SystemExit 1)) ->
    WatchRun env args pre (Raise (SystemExit 1))
| Watch_query_failed pre ls :
    GhCheck pre (Val tt) ->
    code_of ls <> 0 ->
    WatchRun env args (pre ++ [mkEvent (watch_list_call env) ls]) (Val 1)
| Watch_listed pre ls :
    GhCheck pre (Val tt) ->
    code_of ls = 0 ->
    Py.truthy_str (stdout_of ls) = false \/ follow args = false ->
    WatchRun env args (pre ++ [mkEvent (watch_list_call env) ls]) (Val 0)
| Watch_followed pre ls lv :
    GhCheck pre (Val tt) ->
    code_of ls = 0 ->
    Py.truthy_str (stdout_of ls) = true ->
    follow args = true ->
    WatchRun env args
      (pre ++ [mkEvent (watch_list_call env) ls; mkEvent (watch_live_call env) lv])
      (Val (code_of lv)).

(** What [fail] reads off the first run of a listing that decoded to a
    non-empty value: its id, title and creation time, or the exception of
    the indexing. *)
Definition failing_run (runs : json) : exn + (json * json * json) :=
  match getitem_int runs 0 with
  | inl e => inl e
  | inr run =>
      match getitem_key run "databaseId" with
      | inl e => inl e
      | inr run_id =>
          match getitem_key run "displayTitle" with
          | inl e => inl e
          | inr title =>
              match getitem_key run "createdAt" with
              | inl e => inl e
              | inr created => inr (run_id, title, created)
              end
          end
      end
  end.

Inductive FailRun (env : Env) : list Event -> Outcome Z -> Prop :=
| Fail_stopped pre :
    GhCheck pre (Raise (SystemExit 1)) ->
    FailRun env pre (Raise (SystemExit 1))
| Fail_query_failed pre res :
    GhCheck pre (Val tt) ->
    code_of res <> 0 ->
    FailRun env (pre ++ [mkEvent (failed_list_call env) res]) (Val 1)
| Fail_undecodable pre res :
    GhCheck pre (Val tt) ->
    code_of res = 0 ->
    json_loads env (stdout_of res) = None ->
    FailRun env (pre ++ [mkEvent (failed_list_call env) res]) (Val 1)
| Fail_none pre res runs :
    GhCheck pre (Val tt) ->
    code_of res = 0 ->
    json_loads env (stdout_of res) = Some runs ->
    truthy runs = false ->
    FailRun env (pre ++ [mkEvent (failed_list_call env) res]) (Val 0)
| Fail_ill_shaped pre res runs e :
    GhCheck pre (Val tt) ->
    code_of res = 0 ->
    json_loads env (stdout_of res) = Some runs ->
    truthy runs = true ->
    failing_run runs = inl e ->
    FailRun env (pre ++ [mkEvent (failed_list_call env) res]) (Raise e)
| Fail_logged pre res runs run_id title created lg :
    GhCheck pre (Val tt) ->
    code_of res = 0 ->
    json_loads env (stdout_of res) = Some runs ->
    truthy runs = true ->
    failing_run runs = inr (run_id, title, created) ->
    FailRun env
      (pre ++ [mkEvent (failed_list_call env) res;
               mkEvent (log_failed_call env (py_str env run_id)) lg])
      (Val (code_of lg)).

(** A listing of workflow runs, whatever its options. *)
Definition is_run_list (c : Call) : bool :=
  match cmd c with
  | a :: b :: c' :: _ =>
      String.eqb a "gh" && String.eqb b "run" && String.eqb c' "list"
  | _ => false
  end.

Definition listings (l : list Event) : list Event :=
  filter (fun e => is_run_list (ev_call e)) l.

(** A process that, if it is a [git commit], records the message [msg]. *)
Definition commits_with (msg : string) (e : Event) : Prop :=
  is_commit (ev_call e) -> cmd (ev_call e) = ["git"; "commit"; "-m"; msg].

(** ** Concrete environments *)

Module Examples.

Definition date0 : DateTime := mkDateTime 2026 11 3 14 5 9.

(** An environment given by the way child processes answer; decoding
    knows the two listings used below. *)
Definition run_100 : json :=
  JArr [JObj [("databaseId", JInt 100); ("status", JStr "in_progress");
              ("createdAt", JStr "2026-11-03T13:00:00Z")]].

Definition quoted (s : string) : string := Py.DQUOTE ++ s ++ Py.DQUOTE.

(** The listing of one run, number 100 and in progress, in the JSON that
    [gh run list --json] prints. *)
Definition run_100_text : string :=
  "[{" ++ quoted "databaseId" ++ ":100,"
       ++ quoted "status" ++ ":" ++ quoted "in_progress" ++ ","
       ++ quoted "createdAt" ++ ":" ++ quoted "2026-11-03T13:00:00Z" ++ "}]".

Definition loads (s : string) : option json :=
  if String.eqb s "[]" then Some (JArr [])
  else if String.eqb s run_100_text then Some run_100
  else None.

Definition env_of (answer : list Event -> Z -> Call -> Raw * N) : Env :=
  mkEnv answer (fun _ _ => true) (fun _ => date0) loads (fun _ => "?")
        ["srv"; "rs-client"] "Rs_gh_actions.py".

(** Every child exits at once with status 0 and prints nothing. *)
Definition env_quiet : Env := env_of (fun _ _ _ => (Exited 0 "" "", 0%N)).

(** Children that answer by git sub-command alone, at once. *)
Definition by_subcommand (f : string -> Raw) : list Event -> Z -> Call -> Raw * N :=
  fun _ _ c => (f (nth 1 (cmd c) ""), 0%N).


(** A dirty tree whose commit finds nothing to record. *)
Definition env_noop_commit : Env :=
  env_of (by_subcommand (fun sub =>
    if String.eqb sub "status" then Exited 0 "?? build/" ""
    else if String.eqb sub "commit"
         then Exited 1 "On branch master nothing to commit, working tree clean" ""
    else Exited 0 "" "")).

(** [git status] itself fails. *)
Definition env_status_fails : Env :=
  env_of (by_subcommand (fun sub =>
    if String.eqb sub "status"
    then Exited 128 "" "fatal: not a git repository"
    else Exited 0 "" "")).


(** [gh] is installed and logged in, and lists no failing run. *)
Definition env_no_failures : Env :=
  env_of (fun _ _ c =>
    (if String.eqb (nth 1 (cmd c) "") "run"
     then Exited 0 "[]" ""
     else Exited 0 "gh version 2.62.0" "", 0%N)).

(** Every child exits with status 0 and prints nothing, after 400
    seconds. *)
Definition env_slow : Env := env_of (fun _ _ _ => (Exited 0 "" "", 400%N)).

(** A run of the workflow, number 100, is in progress all along, whatever
    was or was not started before. *)
Definition env_stale_run : Env :=
  env_of (fun _ _ c =>
    (if String.eqb (nth 1 (cmd c) "") "run"
     then Exited 0 run_100_text ""
     else Exited 0 "" "", 0%N)).

(** The submodule is dirty and its push is rejected. *)
Definition env_push_rejected : Env :=
  env_of (by_subcommand (fun sub =>
    if String.eqb sub "status" then Exited 0 " M src/lib.rs" ""
    else if String.eqb sub "rev-list" then Exited 0 "0" ""
    else if String.eqb sub "push"
         then Exited 1 "" " ! [rejected] master -> master (fetch first)"
    else Exited 0 "" "")).

Definition world0 : World := mkWorld false 0 [] [].

Definition repo : Path := ["srv"; "rs-client"].

Definition plain_args : Args := mkArgs false None None false.

Definition dry_args : Args := mkArgs true None (Some "v1.0.0") false.

Definition world_dry : World := mkWorld true 0 [] [].

(** A dirty tree that cannot be staged. *)
Definition env_add_fails : Env :=
  env_of (by_subcommand (fun sub =>
    if String.eqb sub "status" then Exited 0 " M src/main.rs" ""
    else if String.eqb sub "add" then Exited 128 "" "fatal: Unable to create index.lock"
    else Exited 0 "" "")).

(** A dirty tree, one commit behind its upstream, whose rebase stops on
    a conflict. *)
Definition env_pull_conflict : Env :=
  env_of (by_subcommand (fun sub =>
    if String.eqb sub "status" then Exited 0 " M src/main.rs" ""
    else if String.eqb sub "rev-list" then Exited 0 "1" ""
    else if String.eqb sub "pull" then Exited 1 "" "CONFLICT (content): src/main.rs"
    else Exited 0 "" "")).



(** The workflow cannot be dispatched. *)
Definition env_trigger_fails : Env :=
  env_of (by_subcommand (fun sub =>
    if String.eqb sub "workflow" then Exited 1 "" "HTTP 422: Workflow does not have 'workflow_dispatch' trigger"
    else Exited 0 "" "")).

(** The listing of one failing run, number 7. *)
Definition run_7 : json :=
  JArr [JObj [("conclusion", JStr "failure");
              ("createdAt", JStr "2026-11-02T09:30:00Z");
              ("databaseId", JInt 7);
              ("displayTitle", JStr "build: auto commit 20261102-093000")]].

Definition run_7_text : string :=
  "[{" ++ quoted "conclusion" ++ ":" ++ quoted "failure" ++ ","
       ++ quoted "createdAt" ++ ":" ++ quoted "2026-11-02T09:30:00Z" ++ ","
       ++ quoted "databaseId" ++ ":7,"
       ++ quoted "displayTitle" ++ ":"
       ++ quoted "build: auto commit 20261102-093000" ++ "}]".

(** Decoding that also knows the failing run, a run without fields and
    a text that is no JSON at all. *)
Definition loads_more (s : string) : option json :=
  if String.eqb s run_7_text then Some run_7
  else if String.eqb s "[{}]" then Some (JArr [JObj []])
  else loads s.

Definition env_answering (answer : list Event -> Z -> Call -> Raw * N) : Env :=
  mkEnv answer (fun _ _ => true) (fun _ => date0) loads_more (fun _ => "?")
        ["srv"; "rs-client"] "Rs_gh_actions.py".

(** Run 7 failed; its log view exits with status 1. *)
Definition env_failed_run : Env :=
  env_answering (fun _ _ c =>
    (if String.eqb (nth 2 (cmd c) "") "list" then Exited 0 run_7_text ""
     else if String.eqb (nth 2 (cmd c) "") "view" then Exited 1 "" ""
     else Exited 0 "" "", 0%N)).

(** Every listing shows one run without any field. *)
Definition env_bare_run : Env :=
  env_answering (fun _ _ c =>
    (if String.eqb (nth 2 (cmd c) "") "list" then Exited 0 "[{}]" ""
     else Exited 0 "" "", 0%N)).

(** The listing of failing runs answers with a text that is no JSON. *)
Definition env_garbled : Env :=
  env_answering (fun _ _ c =>
    (if String.eqb (nth 2 (cmd c) "") "list" then Exited 0 "Not Found" ""
     else Exited 0 "" "", 0%N)).

(** [gh run list] prints one line; [gh run watch] ends with status 3. *)
Definition env_watching : Env :=
  env_of (fun _ _ c =>
    (if String.eqb (nth 2 (cmd c) "") "list"
     then Exited 0 "completed  success  build  flutter-nightly  master" ""
     else if String.eqb (nth 2 (cmd c) "") "watch" then Exited 3 "" ""
     else Exited 0 "" "", 0%N)).

(** [gh] is not logged in. *)
Definition env_logged_out : Env :=
  env_of (by_subcommand (fun sub =>
    if String.eqb sub "auth" then Exited 1 "" "You are not logged into any GitHub hosts."
    else Exited 0 "" "")).

Definition follow_args : Args := mkArgs false None None true.

Definition tagged_args : Args := mkArgs false None (Some "v1.0.0") false.

Definition message_args : Args := mkArgs false (Some "feat: relay") None false.

(** [git status] hangs for an hour; everything else answers at once. *)
Definition env_hung_status : Env :=
  env_of (fun _ _ c =>
    if String.eqb (nth 1 (cmd c) "") "status"
    then (Exited 0 " M src/main.rs" "", 3600%N)
    else (Exited 0 "" "", 0%N)).

End Examples.

(** ** Rules for running the monad *)

Lemma skipn_length_app {A} (l l' : list A) :
  skipn (List.length l) (l ++ l') = l'.
Proof. induction l; simpl; auto. Qed.

Lemma wp_ret {A} (a : A) Q w : Q (Val a) w -> wp (ret a) Q w.
Proof. exact (fun H => H). Qed.

Lemma wp_raise {A} e (Q : Outcome A -> World -> Prop) w :
  Q (Raise e) w -> wp (raise e) Q w.
Proof. exact (fun H => H). Qed.

Lemma wp_bind {A B} (m : M A) (k : A -> M B) Q w :
  wp m (fun r w' => match r with
                    | Val a => wp (k a) Q w'
                    | Raise e => Q (Raise e) w'
                    end) w ->
  wp (bind m k) Q w.
Proof.
  unfold wp, bind. destruct (m w) as [[a | e] w']; simpl; auto.
Qed.

Lemma wp_mono {A} (m : M A) (Q Q' : Outcome A -> World -> Prop) w :
  wp m Q w -> (forall r w', Q r w' -> Q' r w') -> wp m Q' w.
Proof. unfold wp; auto. Qed.

Lemma wp_elim {A} (m : M A) Q w :
  wp m Q w -> Q (result_of m w) (world_after m w).
Proof. exact (fun H => H). Qed.

Lemma wp_lift {A} (r : exn + A) Q w :
  match r with
  | inl e => Q (Raise e) w
  | inr a => Q (Val a) w
  end ->
  wp (lift r) Q w.
Proof. destruct r; exact (fun H => H). Qed.

Lemma new_events_eq {A} (m : M A) (w : World) l :
  events (world_after m w) = (events w ++ l)%list -> new_events m w = l.
Proof. intros H. unfold new_events. rewrite H. apply skipn_length_app. Qed.

Lemma new_console_eq {A} (m : M A) (w : World) l :
  console (world_after m w) = (console w ++ l)%list -> new_console m w = l.
Proof. intros H. unfold new_console. rewrite H. apply skipn_length_app. Qed.

Section Rules.

Variable env : Env.

Lemma wp_print s Q w :
  Q (Val tt) (mkWorld (DRY_RUN w) (clock w) (events w) (console w ++ [s])) ->
  wp (print s) Q w.
Proof. exact (fun H => H). Qed.

Lemma wp_color_print msg color Q w :
  Q (Val tt) (mkWorld (DRY_RUN w) (clock w) (events w)
                (console w ++ [color ++ msg ++ Colors.ENDC])) ->
  wp (color_print msg color) Q w.
Proof. exact (fun H => H). Qed.

Lemma wp_get_DRY_RUN Q w : Q (Val (DRY_RUN w)) w -> wp get_DRY_RUN Q w.
Proof. exact (fun H => H). Qed.

Lemma wp_set_DRY_RUN b Q w :
  Q (Val tt) (mkWorld b (clock w) (events w) (console w)) ->
  wp (set_DRY_RUN b) Q w.
Proof. exact (fun H => H). Qed.

Lemma wp_time_time Q w : Q (Val (clock w)) w -> wp time_time Q w.
Proof. exact (fun H => H). Qed.

Lemma wp_time_sleep secs Q w :
  Q (Val tt) (mkWorld (DRY_RUN w) (clock w + secs) (events w) (console w)) ->
  wp (time_sleep secs) Q w.
Proof. exact (fun H => H). Qed.

Lemma wp_datetime_now Q w :
  Q (Val (datetime_now env (clock w))) w -> wp (datetime_now_ env) Q w.
Proof. exact (fun H => H). Qed.

Lemma wp_exists p Q w :
  Q (Val (path_exists env (events w) p)) w -> wp (exists_ env p) Q w.
Proof. exact (fun H => H). Qed.

(** A started child is recorded with the triple it returned, the flag
    and the console are untouched and the clock does not go back. *)
Lemma spawn_shape (c : Call) (tmo : Z) (w : World) :
  0 <= tmo ->
  exists (r : CommandResult) (dt : Z),
    0 <= dt <= tmo /\
    spawn env c tmo w =
      (Val r, mkWorld (DRY_RUN w) (clock w + dt)
                      (events w ++ [mkEvent c r]) (console w)).
Proof.
  intros Ht. unfold spawn.
  destruct (exec env (events w) (clock w) c) as [raw d].
  destruct (tmo <? Z.of_N d) eqn:E.
  - eexists; exists tmo; split; [lia | reflexivity].
  - apply Z.ltb_ge in E.
    eexists; exists (Z.of_N d); split; [lia | reflexivity].
Qed.

Lemma wp_run_cmd_real cmd cwd tmo Q w :
  DRY_RUN w = false ->
  0 <= tmo ->
  (forall r dt, 0 <= dt <= tmo ->
     Q (Val r) (mkWorld false (clock w + dt)
                  (events w ++ [mkEvent (mkCall cmd cwd true (Some tmo)) r])
                  (console w))) ->
  wp (run_cmd env cmd cwd true tmo) Q w.
Proof.
  intros Hd Ht H. unfold wp, run_cmd, bind, get_DRY_RUN. simpl. rewrite Hd.
  destruct (spawn_shape (mkCall cmd cwd true (Some tmo)) tmo w Ht)
    as (r & dt & Hdt & E).
  rewrite E. simpl. rewrite Hd. apply H. exact Hdt.
Qed.

Lemma wp_run_cmd_dry cmd cwd capture tmo Q w :
  DRY_RUN w = true ->
  Q (Val (0, "[dry-run]", ""))
    (mkWorld true (clock w) (events w)
       (console w ++ [Colors.YELLOW ++ ("[DRY-RUN] 将执行: " ++ Py.join " " cmd)
                      ++ Colors.ENDC])) ->
  wp (run_cmd env cmd cwd capture tmo) Q w.
Proof.
  intros Hd H. unfold wp, run_cmd, bind, get_DRY_RUN. simpl. rewrite Hd.
  simpl. rewrite Hd. exact H.
Qed.

Lemma wp_run_cmd_live_real cmd cwd Q w :
  DRY_RUN w = false ->
  (forall (r : CommandResult) dt lines, 0 <= dt ->
     Q (Val (code_of r))
       (mkWorld false (clock w + dt)
                (events w ++ [mkEvent (mkCall cmd cwd false None) r])
                (console w ++ lines))) ->
  wp (run_cmd_live env cmd cwd) Q w.
Proof.
  intros Hd H. unfold wp, run_cmd_live, bind, get_DRY_RUN, spawn_live.
  simpl. rewrite Hd.
  destruct (exec env (events w) (clock w) (mkCall cmd cwd false None))
    as [[rc out err | msg] d]; simpl; rewrite Hd.
  - specialize (H (rc, "", "") (Z.of_N d) [] ltac:(lia)).
    rewrite app_nil_r in H. exact H.
  - apply (H (-1, "", msg) (Z.of_N d)). lia.
Qed.

Lemma wp_run_cmd_live_dry cmd cwd Q w :
  DRY_RUN w = true ->
  Q (Val 0)
    (mkWorld true (clock w) (events w)
       (console w ++ [Colors.YELLOW ++ ("[DRY-RUN] 将执行: " ++ Py.join " " cmd)
                      ++ Colors.ENDC])) ->
  wp (run_cmd_live env cmd cwd) Q w.
Proof.
  intros Hd H. unfold wp, run_cmd_live, bind, get_DRY_RUN. simpl. rewrite Hd.
  simpl. rewrite Hd. exact H.
Qed.

End Rules.

Lemma Effect_refl w : Effect w w [] 0.
Proof.
  split; [reflexivity | now rewrite app_nil_r | lia | lia |].
  exists []. now rewrite app_nil_r.
Qed.

Lemma Simulated_refl w : DRY_RUN w = true -> Simulated w w.
Proof.
  intros H. split; auto. exists []. split; [now rewrite app_nil_r | constructor].
Qed.

Lemma Simulated_trans w1 w2 w3 :
  Simulated w1 w2 -> Simulated w2 w3 -> Simulated w1 w3.
Proof.
  intros [F1 E1 C1 (l1 & L1 & A1)] [F2 E2 C2 (l2 & L2 & A2)].
  split; try congruence.
  exists (l1 ++ l2)%list. split.
  - rewrite L2, L1, app_assoc. reflexivity.
  - apply Forall_app. split; assumption.
Qed.

(** *** Tactics *)

Ltac flag_rewrite :=
  repeat match goal with
  | H : DRY_RUN ?w = _ |- context [DRY_RUN ?w] => rewrite H
  end.

Ltac wp_norm :=
  cbn beta iota zeta delta [DRY_RUN clock events console fst snd negb];
  flag_rewrite.

Ltac wp_norm_in H :=
  cbn beta iota zeta delta [DRY_RUN clock events console fst snd negb flagged] in H.

Ltac tmo_ok := unfold DEFAULT_CMD_TIMEOUT, GIT_PUSH_TIMEOUT; lia.

Ltac not_literal b :=
  lazymatch b with
  | true => fail
  | false => fail
  | _ => idtac
  end.

(** A test whose value is known is evaluated, any other is split. *)
Ltac decide_or_split b :=
  let v := eval vm_compute in b in
  lazymatch v with
  | true => change b with true
  | false => change b with false
  | _ => destruct b eqn:?
  end.

(** One step of the run; sub-routines that have a specification of their
    own are left for [wp_use]. *)
Ltac wp_step :=
  lazymatch goal with
  | |- wp (bind _ _) _ _ => apply wp_bind
  | |- wp (ret _) _ _ => apply wp_ret
  | |- wp (raise _) _ _ => apply wp_raise
  | |- wp (sys_exit _) _ _ => apply wp_raise
  | |- wp (lift ?r) _ _ =>
      apply wp_lift;
      lazymatch r with
      | inr _ => idtac
      | inl _ => idtac
      | _ => destruct r eqn:?
      end
  | |- wp (color_print _ _) _ _ => apply wp_color_print
  | |- wp (print _) _ _ => apply wp_print
  | |- wp get_DRY_RUN _ _ => apply wp_get_DRY_RUN
  | |- wp (set_DRY_RUN _) _ _ => apply wp_set_DRY_RUN
  | |- wp time_time _ _ => apply wp_time_time
  | |- wp (time_sleep _) _ _ => apply wp_time_sleep
  | |- wp (datetime_now_ _) _ _ => apply wp_datetime_now
  | |- wp (exists_ _ _) _ _ => apply wp_exists
  | |- wp (run_cmd _ _ _ _ _) _ _ =>
      first
        [ apply wp_run_cmd_real;
          [ wp_norm; congruence | tmo_ok
          | let dt := fresh "dt" in let H := fresh "Hdt" in
            intros [[? ?] ?] dt H ]
        | apply wp_run_cmd_dry; [ wp_norm; congruence | ] ]
  | |- wp (run_cmd_live _ _ _) _ _ =>
      first
        [ apply wp_run_cmd_live_real;
          [ wp_norm; congruence
          | let dt := fresh "dt" in let H := fresh "Hdt" in
            intros [[? ?] ?] dt ? H ]
        | apply wp_run_cmd_live_dry; [ wp_norm; congruence | ] ]
  | |- wp (match ?x with Some _ => _ | None => _ end) _ _ => destruct x eqn:?
  | |- wp (if _ then git_check_remote_ahead _ _ else _) _ _ => fail
  | |- wp (if negb ?b then _ else _) _ _ => not_literal b; decide_or_split b
  | |- wp (if ?b then _ else _) _ _ => not_literal b; decide_or_split b
  end; wp_norm.

Ltac wp_go := wp_norm; repeat wp_step.


(** Use a proved specification for the computation at the head. *)
Ltac wp_use lem :=
  eapply wp_mono; [ eapply lem; wp_norm; try congruence | ];
  wp_norm.

Ltac effect_open :=
  repeat match goal with
  | H : Effect _ _ _ _ |- _ =>
      let F := fresh "F" in let E := fresh "E" in
      let C := fresh "C" in let T := fresh "T" in
      let lines := fresh "lines" in let L := fresh "L" in
      destruct H as [F E C T (lines & L)];
      wp_norm_in F; wp_norm_in E; wp_norm_in C; wp_norm_in L
  | H : Simulated _ _ |- _ =>
      let F := fresh "F" in let E := fresh "E" in
      let C := fresh "C" in let L := fresh "L" in
      let lines := fresh "lines" in let A := fresh "A" in
      destruct H as [F E C (lines & L & A)];
      wp_norm_in F; wp_norm_in E; wp_norm_in C; wp_norm_in L
  end.

Ltac world_rewrite :=
  repeat match goal with
  | H : events ?w = _ |- context [events ?w] => rewrite H
  | H : clock ?w = _ |- context [clock ?w] => rewrite H
  | H : console ?w = _ |- context [console ?w] => rewrite H
  end.

(** The flag, events and clock of a world built by the rules above. *)
Ltac effect_solve :=
  split; wp_norm; world_rewrite;
  [ congruence
  | repeat rewrite <- app_assoc;
    first [ reflexivity | symmetry; apply app_nil_r ]
  | repeat rewrite <- Z.add_assoc;
    first [ reflexivity | symmetry; apply Z.add_0_r ]
  | lia
  | eexists; repeat rewrite <- app_assoc;
    first [ reflexivity | symmetry; apply app_nil_r ] ].

Ltac forall_solve :=
  cbn [app];
  repeat first
    [ apply Forall_nil
    | assumption
    | apply Forall_cons; [ reflexivity | ]
    | apply Forall_app; split ].

Ltac sim_solve :=
  split; wp_norm; world_rewrite;
  [ congruence
  | reflexivity
  | reflexivity
  | eexists; split;
    [ repeat rewrite <- app_assoc;
      first [ reflexivity | symmetry; apply app_nil_r ]
    | forall_solve ] ].

Ltac wp_done :=
  eexists _, _, _; split; [ reflexivity | split; [ effect_solve | ] ].

(** ** The sync engine *)

Ltac side :=
  unfold reports_changes, reports_ahead, noop_marker;
  cbn [code_of stdout_of stderr_of fst snd];
  first [ assumption
        | apply Z.eqb_eq; assumption
        | apply Z.eqb_neq; assumption
        | symmetry; assumption
        | reflexivity ].

Section Sync.

Variable env : Env.

Lemma Ahead_asked_eq dir fe rl b :
  b = reports_ahead rl ->
  AheadCheck dir true
    [mkEvent (fetch_call dir) fe; mkEvent (rev_list_call dir) rl] b.
Proof. intros ->. constructor. Qed.

Lemma SyncRun_result dir msg auto l b b' :
  SyncRun dir msg auto l b -> b = b' -> SyncRun dir msg auto l b'.
Proof. intros H <-. exact H. Qed.

Lemma git_check_remote_ahead_real dir (auto : bool) w :
  DRY_RUN w = false ->
  wp (if auto then git_check_remote_ahead env dir else ret false)
     (fun r w' => exists b l dt,
          r = Val b /\ Effect w w' l dt /\ AheadCheck dir auto l b) w.
Proof.
  intros Hd. destruct auto.
  - unfold git_check_remote_ahead. repeat wp_step; wp_done;
      apply Ahead_asked_eq; unfold reports_ahead;
      cbn [code_of stdout_of fst snd]; rewrite Heqb; reflexivity.
  - wp_step. wp_done. constructor.
Qed.

Lemma git_pull_real dir w :
  DRY_RUN w = false ->
  wp (git_pull env dir)
     (fun r w' => exists pl dt,
          r = Val (code_of pl =? 0) /\
          Effect w w' [mkEvent (pull_call dir) pl] dt) w.
Proof.
  intros Hd. unfold git_pull. repeat wp_step.
  - exists (z, s, s0). eexists. cbn [code_of fst]. rewrite Heqb.
    split; [reflexivity | effect_solve ].
  - exists (z, s, s0). eexists. cbn [code_of fst]. rewrite Heqb.
    split; [reflexivity | effect_solve ].
Qed.

(** Every real run of the sync follows one of the paths of [SyncRun]. *)
Lemma git_commit_push_real dir name msg (auto : bool) w :
  DRY_RUN w = false ->
  wp (git_commit_push env dir name msg auto)
     (fun r w' => exists b l dt,
          r = Val b /\ Effect w w' l dt /\ SyncRun dir msg auto l b) w.
Proof.
  intros Hd. unfold git_commit_push, git_has_changes.
  repeat wp_step.
  - (* the commit went through *)
    wp_use git_check_remote_ahead_real.
    intros r w1 (ahead & chk & dtc & -> & Heff & Hchk). effect_open.
    apply wp_bind. destruct ahead; wp_norm.
    + do 3 wp_step. wp_use git_pull_real.
      intros r w2 (pl & dtp & -> & Heff). effect_open.
      destruct (code_of pl =? 0) eqn:Hpl; wp_norm; repeat wp_step; wp_done.
      * eapply SyncRun_result;
          [ eapply (Sync_pulled_pushed dir msg auto (z, s, s0) (z0, s1, s2)
                      (z1, s3, s4) chk pl (z2, s5, s6)); side | side ].
      * eapply SyncRun_result;
          [ eapply (Sync_pulled_pushed dir msg auto (z, s, s0) (z0, s1, s2)
                      (z1, s3, s4) chk pl (z2, s5, s6)); side | side ].
      * eapply SyncRun_result;
          [ eapply (Sync_pulled_pushed dir msg auto (z, s, s0) (z0, s1, s2)
                      (z1, s3, s4) chk pl (z2, s5, s6)); side | side ].
      * eapply (Sync_pull_failed dir msg auto (z, s, s0) (z0, s1, s2)
                  (z1, s3, s4) chk pl); side.
    + repeat wp_step; wp_done;
        (eapply SyncRun_result;
         [ eapply (Sync_pushed dir msg auto (z, s, s0) (z0, s1, s2)
                     (z1, s3, s4) chk (z2, s5, s6)); side | side ]).
  - wp_done.
    eapply SyncRun_result;
      [ eapply (Sync_commit_failed dir msg auto (z, s, s0) (z0, s1, s2)
                  (z1, s3, s4)); side | side ].
  - wp_done.
    eapply SyncRun_result;
      [ eapply (Sync_commit_failed dir msg auto (z, s, s0) (z0, s1, s2)
                  (z1, s3, s4)); side | side ].
  - wp_done.
    eapply (Sync_add_failed dir msg auto (z, s, s0) (z0, s1, s2)); side.
  - wp_done.
    eapply (Sync_no_changes dir msg auto (z, s, s0)); side.
Qed.

Lemma git_check_remote_ahead_dry dir (auto : bool) w :
  DRY_RUN w = true ->
  wp (if auto then git_check_remote_ahead env dir else ret false)
     (fun r w' => r = Val false /\ Simulated w w') w.
Proof.
  intros Hd. destruct auto.
  - unfold git_check_remote_ahead. repeat wp_step.
    split; [reflexivity | sim_solve].
  - wp_step. split; [reflexivity | sim_solve].
Qed.

(** Under simulation the sync goes all the way and succeeds. *)
Lemma git_commit_push_dry dir name msg (auto : bool) w :
  DRY_RUN w = true ->
  wp (git_commit_push env dir name msg auto)
     (fun r w' => r = Val true /\ Simulated w w') w.
Proof.
  intros Hd.
  unfold git_commit_push, git_has_changes.
  repeat wp_step.
  wp_use git_check_remote_ahead_dry.
  intros r w1 (-> & Hsim). effect_open.
  repeat wp_step.
  split; [reflexivity | sim_solve].
Qed.

End Sync.

(** ** Claims about the sync engine *)

Section SyncClaims.

Variable env : Env.

(** A sync either is simulated (nothing is started, it succeeds) or
    follows [SyncRun]. *)
Lemma git_commit_push_run dir name msg (auto : bool) w :
  let m := git_commit_push env dir name msg auto in
  (DRY_RUN w = true /\ new_events m w = [] /\ result_of m w = Val true)
  \/ (DRY_RUN w = false /\
      exists b, result_of m w = Val b /\ SyncRun dir msg auto (new_events m w) b).
Proof.
  intros m. destruct (DRY_RUN w) eqn:Hd.
  - left. split; [reflexivity|].
    destruct (wp_elim _ _ _ (git_commit_push_dry env dir name msg auto w Hd))
      as (Hr & Hs).
    split; [| exact Hr].
    apply new_events_eq. rewrite app_nil_r. apply (sim_events _ _ Hs).
  - right. split; [reflexivity|].
    destruct (wp_elim _ _ _ (git_commit_push_real env dir name msg auto w Hd))
      as (b & l & dt & Hr & Heff & Hrun).
    exists b. split; [exact Hr|].
    unfold m. rewrite (new_events_eq _ _ _ (eff_events _ _ _ _ Heff)).
    exact Hrun.
Qed.

Lemma git_has_changes_run dir w :
  let m := git_has_changes env dir in
  (DRY_RUN w = true /\ new_events m w = [])
  \/ exists st, new_events m w = [mkEvent (status_call dir) st] /\
                result_of m w = Val (reports_changes st).
Proof.
  intros m. destruct (DRY_RUN w) eqn:Hd.
  - left. split; [reflexivity|].
    apply new_events_eq. rewrite app_nil_r.
    assert (H : wp m (fun _ w' => events w' = events w) w).
    { unfold m, git_has_changes. repeat wp_step. reflexivity. }
    exact (wp_elim _ _ _ H).
  - right.
    assert (H : wp m (fun r w' => exists st,
                events w' = (events w ++ [mkEvent (status_call dir) st])%list /\
                r = Val (reports_changes st)) w).
    { unfold m, git_has_changes. repeat wp_step.
      exists (z, s, s0). split; reflexivity. }
    destruct (wp_elim _ _ _ H) as (st & He & Hr).
    exists st. split; [apply new_events_eq; exact He | exact Hr].
Qed.


End SyncClaims.

(** Take a run of the sync apart, path by path. *)
Ltac sync_paths H :=
  inversion H; subst; clear H;
  repeat match goal with
  | Hc : AheadCheck _ _ _ _ |- _ => inversion Hc; subst; clear Hc
  end.

Ltac list_eqs :=
  repeat match goal with
  | H : _ :: _ = _ :: _ |- _ => injection H as ? ?; subst
  | H : (_ ++ _)%list = _ :: _ |- _ => simpl in H
  | H : _ :: _ = (_ ++ _)%list |- _ => simpl in H
  | H : [] = _ :: _ |- _ => discriminate H
  | H : _ :: _ = [] |- _ => discriminate H
  | H : mkEvent _ _ = mkEvent _ _ |- _ => injection H as ? ?; subst
  end.

Lemma empty_output_no_changes st : stdout_of st = "" -> reports_changes st = false.
Proof.
  intros H. unfold reports_changes. rewrite H. apply andb_false_r.
Qed.

Lemma failed_status_no_changes st : code_of st <> 0 -> reports_changes st = false.
Proof.
  intros H. unfold reports_changes. apply Z.eqb_neq in H. rewrite H. reflexivity.
Qed.

(** C3: when the status query of a sync comes back with empty output,
    the sync returns success (the script's "no changes" outcome) and the
    status query is the only process it started: no staging, commit or
    push. *)
Theorem sync_clean_tree_no_changes :
  forall env dir name msg auto w st rest,
    new_events (git_commit_push env dir name msg auto) w
      = mkEvent (status_call dir) st :: rest ->
    stdout_of st = "" ->
    result_of (git_commit_push env dir name msg auto) w = Val true /\ rest = [].
Proof.
  intros env dir name msg auto w st rest Hev Hout.
  destruct (git_commit_push_run env dir name msg auto w)
    as [(_ & Hnil & _) | (_ & b & Hr & Hrun)].
  - rewrite Hnil in Hev. discriminate Hev.
  - rewrite Hr. rewrite Hev in Hrun.
    apply empty_output_no_changes in Hout.
    sync_paths Hrun; list_eqs; try congruence; auto.
Qed.

Lemma sync_clean_tree_no_changes_witness :
  result_of (git_commit_push Examples.env_quiet Examples.repo "rs-client"
               "build: auto commit" true) Examples.world0 = Val true
  /\ @nil Event = [].
Proof.
  apply (sync_clean_tree_no_changes Examples.env_quiet Examples.repo
           "rs-client" "build: auto commit" true Examples.world0
           (0, "", "") []); reflexivity.
Defined.

(** C9: when the status query itself fails (non-zero exit status), the
    change detection answers "no changes", and the sync returns success
    with the status query as the only process it started: no staging,
    commit or push.  At the interface of the sync a failing status query
    reads like a clean tree. *)
Theorem failed_status_reads_as_clean :
  forall env dir name msg auto w st,
    code_of st <> 0 ->
    (new_events (git_has_changes env dir) w = [mkEvent (status_call dir) st] ->
     result_of (git_has_changes env dir) w = Val false)
    /\
    (forall rest,
       new_events (git_commit_push env dir name msg auto) w
         = mkEvent (status_call dir) st :: rest ->
       result_of (git_commit_push env dir name msg auto) w = Val true
       /\ rest = []).
Proof.
  intros env dir name msg auto w st Hcode.
  apply failed_status_no_changes in Hcode. split.
  - intros Hev.
    destruct (git_has_changes_run env dir w) as [(_ & Hnil) | (st' & Hev' & Hr)].
    + rewrite Hnil in Hev. discriminate Hev.
    + rewrite Hev' in Hev. list_eqs. congruence.
  - intros rest Hev.
    destruct (git_commit_push_run env dir name msg auto w)
      as [(_ & Hnil & _) | (_ & b & Hr & Hrun)].
    + rewrite Hnil in Hev. discriminate Hev.
    + rewrite Hr. rewrite Hev in Hrun.
      sync_paths Hrun; list_eqs; try congruence; auto.
Qed.

Lemma failed_status_reads_as_clean_witness :
  (new_events (git_has_changes Examples.env_status_fails Examples.repo)
     Examples.world0
     = [mkEvent (status_call Examples.repo)
          (128, "", "fatal: not a git repository")] ->
   result_of (git_has_changes Examples.env_status_fails Examples.repo)
     Examples.world0 = Val false)
  /\
  (forall rest,
     new_events (git_commit_push Examples.env_status_fails Examples.repo
                   "rs-client" "build: auto commit" true) Examples.world0
       = mkEvent (status_call Examples.repo)
           (128, "", "fatal: not a git repository") :: rest ->
     result_of (git_commit_push Examples.env_status_fails Examples.repo
                  "rs-client" "build: auto commit" true) Examples.world0
       = Val true
     /\ rest = []).
Proof.
  apply (failed_status_reads_as_clean Examples.env_status_fails Examples.repo
           "rs-client" "build: auto commit" true Examples.world0
           (128, "", "fatal: not a git repository")).
  vm_compute. discriminate.
Defined.

(** The commit of a sync is the only process it starts with the commit
    command. *)
Lemma commit_event_of_run dir msg auto l b cm :
  SyncRun dir msg auto l b ->
  In (mkEvent (commit_call dir msg) cm) l ->
  code_of cm <> 0 ->
  b = noop_marker cm.
Proof.
  intros Hrun Hin Hcode.
  sync_paths Hrun; simpl in Hin;
    repeat match goal with
    | H : _ \/ _ |- _ => destruct H
    | H : False |- _ => destruct H
    | H : mkEvent _ _ = mkEvent _ _ |- _ =>
        first [ discriminate H | injection H as ?; subst ]
    end; congruence.
Qed.

(** C4: when the commit of a sync exits non-zero, the sync returns success
    exactly when "nothing to commit" occurs in what the commit wrote to
    stderr or stdout; any other non-zero exit of the commit makes the
    sync fail. *)
Theorem noop_commit_is_no_changes :
  forall env dir name msg auto w cm,
    In (mkEvent (commit_call dir msg) cm)
       (new_events (git_commit_push env dir name msg auto) w) ->
    code_of cm <> 0 ->
    result_of (git_commit_push env dir name msg auto) w
      = Val (Py.contains "nothing to commit" (stderr_of cm)
             || Py.contains "nothing to commit" (stdout_of cm)).
Proof.
  intros env dir name msg auto w cm Hin Hcode.
  destruct (git_commit_push_run env dir name msg auto w)
    as [(_ & Hnil & _) | (_ & b & Hr & Hrun)].
  - rewrite Hnil in Hin. destruct Hin.
  - rewrite Hr. f_equal.
    exact (commit_event_of_run dir msg auto _ b cm Hrun Hin Hcode).
Qed.

Lemma noop_commit_is_no_changes_witness :
  result_of (git_commit_push Examples.env_noop_commit Examples.repo
               "rs-client" "build: auto commit" true) Examples.world0
    = Val true.
Proof.
  apply (noop_commit_is_no_changes Examples.env_noop_commit Examples.repo
           "rs-client" "build: auto commit" true Examples.world0
           (1, "On branch master nothing to commit, working tree clean", "")).
  - vm_compute. tauto.
  - vm_compute. discriminate.
Defined.






(** ** Simulation *)

Section Dry.

Variable env : Env.

Lemma check_gh_installed_dry w :
  DRY_RUN w = true ->
  wp (check_gh_installed env) (fun r w' => r = Val tt /\ Simulated w w') w.
Proof.
  intros Hd. unfold check_gh_installed. repeat wp_step.
  split; [reflexivity | sim_solve].
Qed.

Lemma check_repo_exists_dry w :
  DRY_RUN w = true ->
  wp (check_repo_exists env)
     (fun r w' => (r = Val tt \/ r = Raise (SystemExit 1)) /\ Simulated w w') w.
Proof.
  intros Hd. unfold check_repo_exists. repeat wp_step;
    (split; [ auto | sim_solve ]).
Qed.

Lemma cmd_push_dry args w :
  dry_run args = true ->
  wp (cmd_push env args)
     (fun r w' => (r = Val 0 \/ r = Raise (SystemExit 1)) /\
                  Simulated (flagged w) w') w.
Proof.
  intros Ha. unfold cmd_push, flagged. rewrite Ha. repeat wp_step.
  wp_use check_gh_installed_dry. intros r w1 (-> & H1). effect_open.
  repeat wp_step. wp_use check_repo_exists_dry. intros r w2 ([-> | ->] & H2); effect_open.
  2: { split; [ auto | sim_solve ]. }
  unfold get_timestamp. wp_go.
  wp_use git_commit_push_dry. intros r w3 (-> & H3). effect_open. wp_go.
  wp_use git_commit_push_dry. intros r w4 (-> & H4). effect_open. wp_go.
  split; [ auto | sim_solve ].
Qed.

Lemma cmd_build_dry args w :
  dry_run args = true ->
  wp (cmd_build env args)
     (fun r w' => (r = Val 0 \/ r = Raise (SystemExit 1)) /\
                  Simulated (flagged w) w') w.
Proof.
  intros Ha. unfold cmd_build, get_tag_timestamp, flagged. rewrite Ha. wp_go.
  wp_use check_gh_installed_dry. intros r w1 (-> & H1). effect_open. wp_go.
  wp_use check_repo_exists_dry. intros r w2 ([-> | ->] & H2); effect_open.
  2: { split; [ auto | sim_solve ]. }
  wp_go.
  wp_use cmd_push_dry. intros r w3 ([-> | ->] & H3); effect_open.
  2: { split; [ auto | sim_solve ]. }
  wp_go; (split; [ auto | sim_solve ]).
Qed.

Lemma cmd_watch_dry args w :
  DRY_RUN w = true ->
  wp (cmd_watch env args) (fun r w' => r = Val 0 /\ Simulated w w') w.
Proof.
  intros Hd. unfold cmd_watch. wp_go.
  wp_use check_gh_installed_dry. intros r w1 (-> & H1). effect_open. wp_go;
    (split; [ auto | sim_solve ]).
Qed.

Lemma cmd_fail_dry args w :
  DRY_RUN w = true ->
  wp (cmd_fail env args) (fun r w' => Simulated w w') w.
Proof.
  intros Hd. unfold cmd_fail. wp_go.
  wp_use check_gh_installed_dry. intros r w1 (-> & H1). effect_open.
  wp_go; sim_solve.
Qed.

Lemma func_dry c args w :
  DRY_RUN w = true ->
  (c = Push \/ c = Build -> dry_run args = true) ->
  wp (func env c args) (fun r w' => Simulated w w') w.
Proof.
  intros Hd Ha.
  assert (Hw : forall w', Simulated (flagged w) w' -> Simulated w w').
  { intros w' [F E C L]. split; assumption. }
  destruct c; simpl func.
  - wp_use cmd_push_dry; auto. intros r w' (_ & H). auto.
  - wp_use cmd_build_dry; auto. intros r w' (_ & H). auto.
  - wp_use cmd_watch_dry. intros r w' (_ & H). auto.
  - apply cmd_fail_dry. exact Hd.
Qed.

Lemma run_commands_dry cs :
  simulating cs ->
  forall w, DRY_RUN w = true ->
  wp (run_commands env cs) (fun r w' => Simulated w w') w.
Proof.
  induction cs as [| [c args] rest IH]; intros Hs w Hd.
  - simpl. wp_step. apply Simulated_refl. exact Hd.
  - simpl. wp_step. wp_use func_dry.
    + intros Hc. apply (Hs c args); [left; reflexivity | exact Hc].
    + intros r w1 H1.
      destruct r as [z | e]; [| exact H1].
      wp_step. eapply wp_mono.
      * apply IH; [| exact (sim_flag _ _ H1)].
        intros c' a' Hin. apply Hs. right. exact Hin.
      * intros r w2 H2. wp_norm.
        assert (H12 := Simulated_trans _ _ _ H1 H2).
        destruct r; wp_go; exact H12.
Qed.

End Dry.


(** ** Pre-flight checks, in earnest *)

Ltac preflight_solve :=
  cbn [app];
  repeat (apply Forall_cons;
          [ unfold is_preflight; cbn [ev_call In];
            first [ left; reflexivity
                  | right; left; reflexivity
                  | right; right; left; reflexivity ] | ]);
  apply Forall_nil.

Section Preflight.

Variable env : Env.

Lemma check_gh_installed_real w :
  DRY_RUN w = false ->
  wp (check_gh_installed env)
     (fun r w' => exists l dt,
          Effect w w' l dt /\
          ((r = Val tt /\
            exists v a, l = [mkEvent gh_version_call v; mkEvent gh_auth_call a])
           \/ (r = Raise (SystemExit 1) /\ Forall (is_preflight env) l))) w.
Proof.
  intros Hd. unfold check_gh_installed. wp_go.
  - eexists _, _. split; [effect_solve |]. left. split; [reflexivity |].
    eexists _, _. reflexivity.
  - eexists _, _. split; [effect_solve |]. right. split; [reflexivity |].
    preflight_solve.
  - eexists _, _. split; [effect_solve |]. right. split; [reflexivity |].
    preflight_solve.
Qed.

Lemma check_repo_exists_real w :
  DRY_RUN w = false ->
  wp (check_repo_exists env)
     (fun r w' => exists l dt,
          Effect w w' l dt /\ Forall (is_preflight env) l /\
          (r = Val tt \/ r = Raise (SystemExit 1))) w.
Proof.
  intros Hd. unfold check_repo_exists. wp_go;
    (eexists _, _; split; [effect_solve |]; split; [| auto];
     preflight_solve).
Qed.

End Preflight.

(** ** The failure reporter *)

Ltac events_in H :=
  simpl in H;
  repeat match goal with
  | H' : _ \/ _ |- _ => destruct H'
  | H' : False |- _ => destruct H'
  | H' : mkEvent _ _ = mkEvent _ _ |- _ =>
      first [ discriminate H' | injection H' as ?; subst ]
  end.

Section Reporter.

Variable env : Env.

Lemma preflight_not_listing res : ~ is_preflight env (mkEvent (failed_list_call env) res).
Proof.
  unfold is_preflight. simpl.
  intros [H | [H | [H | []]]]; discriminate H.
Qed.

Lemma cmd_fail_real args w :
  DRY_RUN w = false ->
  wp (cmd_fail env args)
     (fun r w' => exists l lines,
          events w' = (events w ++ l)%list /\
          console w' = (console w ++ lines)%list /\
          forall res runs,
            In (mkEvent (failed_list_call env) res) l ->
            code_of res = 0 ->
            json_loads env (stdout_of res) = Some runs ->
            truthy runs = false ->
            r = Val 0
            /\ In (Colors.GREEN ++ no_failures_message ++ Colors.ENDC) lines
            /\ exists v a,
                 l = [mkEvent gh_version_call v; mkEvent gh_auth_call a;
                      mkEvent (failed_list_call env) res]) w.
Proof.
  intros Hd. unfold cmd_fail. wp_go.
  wp_use check_gh_installed_real.
  intros r w1 (l0 & dt0 & Heff & [(-> & v & a & ->) | (-> & Hpre)]); effect_open.
  2: { eexists _, _. split; [exact E | split; [exact L |]].
       intros res runs Hin. exfalso.
       rewrite Forall_forall in Hpre.
       exact (preflight_not_listing res (Hpre _ Hin)). }
  wp_go;
    (eexists _, _;
     split; [ world_rewrite; repeat rewrite <- app_assoc; reflexivity |];
     split; [ world_rewrite; repeat rewrite <- app_assoc; reflexivity |];
     intros res runs Hin Hc Hj Ht;
     unfold gh_version_call, gh_auth_call, failed_list_call in *;
     events_in Hin; cbn [code_of stdout_of fst snd] in *;
     try (apply Z.eqb_neq in Heqb); try congruence).
  split; [reflexivity |]. split.
  - apply in_or_app. right. simpl. auto.
  - eexists _, _. reflexivity.
Qed.

End Reporter.

(** C8: when the listing of failing runs (limit 1) of a [fail] command
    succeeds and decodes to no run (an empty list, or any other value
    that counts as false), the command prints the no-failures message,
    returns 0 and has started the two pre-flight checks and the listing
    only: no log is fetched. *)
Theorem fail_without_failing_run :
  forall env args w res runs,
    In (mkEvent (failed_list_call env) res) (new_events (cmd_fail env args) w) ->
    code_of res = 0 ->
    json_loads env (stdout_of res) = Some runs ->
    truthy runs = false ->
    result_of (cmd_fail env args) w = Val 0
    /\ In (Colors.GREEN ++ no_failures_message ++ Colors.ENDC)
          (new_console (cmd_fail env args) w)
    /\ exists v a,
         new_events (cmd_fail env args) w
           = [mkEvent gh_version_call v; mkEvent gh_auth_call a;
              mkEvent (failed_list_call env) res].
Proof.
  intros env args w res runs Hin Hc Hj Ht.
  destruct (DRY_RUN w) eqn:Hd.
  - pose proof (wp_elim _ _ _ (cmd_fail_dry env args w Hd)) as Hs.
    rewrite (new_events_eq (cmd_fail env args) w []) in Hin.
    + destruct Hin.
    + rewrite app_nil_r. apply (sim_events _ _ Hs).
  - destruct (wp_elim _ _ _ (cmd_fail_real env args w Hd))
      as (l & lines & He & Hl & H).
    rewrite (new_events_eq _ _ _ He) in *.
    rewrite (new_console_eq _ _ _ Hl).
    exact (H res runs Hin Hc Hj Ht).
Qed.

Lemma fail_without_failing_run_witness :
  result_of (cmd_fail Examples.env_no_failures Examples.plain_args)
    Examples.world0 = Val 0
  /\ In (Colors.GREEN ++ no_failures_message ++ Colors.ENDC)
        (new_console (cmd_fail Examples.env_no_failures Examples.plain_args)
           Examples.world0)
  /\ exists v a,
       new_events (cmd_fail Examples.env_no_failures Examples.plain_args)
         Examples.world0
         = [mkEvent gh_version_call v; mkEvent gh_auth_call a;
            mkEvent (failed_list_call Examples.env_no_failures) (0, "[]", "")].
Proof.
  apply (fail_without_failing_run Examples.env_no_failures Examples.plain_args
           Examples.world0 (0, "[]", "") (JArr [])).
  - vm_compute. tauto.
  - reflexivity.
  - reflexivity.
  - reflexivity.
Defined.



(** ** The coordinator *)

Section Coordinator.

Variable env : Env.

Lemma check_gh_installed_any w :
  wp (check_gh_installed env)
     (fun r w' => exists l,
          events w' = (events w ++ l)%list /\ Forall (is_preflight env) l /\
          DRY_RUN w' = DRY_RUN w /\ clock w <= clock w' /\
          (r = Val tt \/ r = Raise (SystemExit 1))) w.
Proof.
  destruct (DRY_RUN w) eqn:Hd.
  - wp_use check_gh_installed_dry. intros r w' (-> & [F E C _]).
    exists []. rewrite app_nil_r. repeat split; auto. lia.
  - wp_use check_gh_installed_real.
    intros r w' (l & dt & [F E C T _] & H).
    exists l. repeat split; try congruence; try lia.
    + destruct H as [(_ & v & a & ->) | (_ & H)]; [preflight_solve | exact H].
    + destruct H as [(-> & _) | (-> & _)]; auto.
Qed.

Lemma check_repo_exists_any w :
  wp (check_repo_exists env)
     (fun r w' => exists l,
          events w' = (events w ++ l)%list /\ Forall (is_preflight env) l /\
          DRY_RUN w' = DRY_RUN w /\ clock w <= clock w' /\
          (r = Val tt \/ r = Raise (SystemExit 1))) w.
Proof.
  destruct (DRY_RUN w) eqn:Hd.
  - wp_use check_repo_exists_dry. intros r w' (H & [F E C _]).
    exists []. rewrite app_nil_r. repeat split; auto. lia.
  - wp_use check_repo_exists_real.
    intros r w' (l & dt & [F E C T _] & Hl & H).
    exists l. repeat split; try congruence; try lia; auto.
Qed.



End Coordinator.





(** A push of the submodule that is rejected: the command returns 1 and
    every process it started after the pre-flight checks ran in the
    submodule. *)
Example push_rejected_stops_before_superproject :
  let m := cmd_push Examples.env_push_rejected Examples.plain_args in
  result_of m Examples.world0 = Val 1
  /\ map (fun e => (nth 1 (cmd (ev_call e)) "", cwd (ev_call e)))
         (new_events m Examples.world0)
     = [("--version", None); ("auth", None);
        ("status", Some (HBB_COMMON_DIR Examples.env_push_rejected));
        ("add", Some (HBB_COMMON_DIR Examples.env_push_rejected));
        ("commit", Some (HBB_COMMON_DIR Examples.env_push_rejected));
        ("fetch", Some (HBB_COMMON_DIR Examples.env_push_rejected));
        ("rev-list", Some (HBB_COMMON_DIR Examples.env_push_rejected));
        ("push", Some (HBB_COMMON_DIR Examples.env_push_rejected))].
Proof. vm_compute. split; reflexivity. Qed.

(** ** The confirmation loop *)

(** Replace the tests of the listing by what they are known to give. *)
Ltac rewrite_tests :=
  repeat match goal with
  | H : (_ && _)%bool = _ |- _ => rewrite H
  | H : json_loads _ _ = _ |- _ => rewrite H
  | H : truthy _ = _ |- _ => rewrite H
  | H : getitem_int _ _ = _ |- _ => rewrite H
  | H : getitem_key _ _ = _ |- _ => rewrite H
  | H : is_in _ _ = _ |- _ => rewrite H
  end.

Section Confirmation.

Variable env : Env.

Lemma wp_run_poll Q w :
  DRY_RUN w = false ->
  (forall r,
     Q (Val r) (mkWorld false (clock w + poll_time env w)
                  (events w ++ [mkEvent (poll_call env) r]) (console w))) ->
  wp (run_cmd env run_list_cmd (Some (RS_CLIENT_DIR env)) true DEFAULT_CMD_TIMEOUT)
     Q w.
Proof.
  intros Hd H. unfold wp, run_cmd, bind, get_DRY_RUN.
  cbn beta iota delta [fst snd]. rewrite Hd.
  assert (Hs : forall raw d,
             exec env (events w) (clock w) (poll_call env) = (raw, d) ->
             exists r,
               spawn env (poll_call env) DEFAULT_CMD_TIMEOUT w =
                 (Val r, mkWorld false (clock w + Z.min DEFAULT_CMD_TIMEOUT (Z.of_N d))
                                 (events w ++ [mkEvent (poll_call env) r])
                                 (console w))).
  { intros raw d E. unfold spawn. rewrite E, Hd.
    destruct (DEFAULT_CMD_TIMEOUT <? Z.of_N d) eqn:Ht.
    - apply Z.ltb_lt in Ht. rewrite Z.min_l by lia. eexists. reflexivity.
    - apply Z.ltb_ge in Ht. rewrite Z.min_r by lia. eexists. reflexivity. }
  destruct (exec env (events w) (clock w) (poll_call env)) as [raw d] eqn:E.
  destruct (Hs raw d eq_refl) as (r & Hr).
  change (mkCall run_list_cmd (Some (RS_CLIENT_DIR env)) true
            (Some DEFAULT_CMD_TIMEOUT)) with (poll_call env).
  rewrite Hr. cbn [fst snd].
  specialize (H r). unfold poll_time in H. rewrite E in H. exact H.
Qed.

Lemma poll_time_bounds w : 0 <= poll_time env w <= DEFAULT_CMD_TIMEOUT.
Proof. unfold poll_time, DEFAULT_CMD_TIMEOUT. lia. Qed.

Lemma poll_once_real w :
  DRY_RUN w = false ->
  wp (poll_once env)
     (fun r w' => exists res lines,
          DRY_RUN w' = false /\
          events w' = (events w ++ [mkEvent (poll_call env) res])%list /\
          clock w' = clock w + poll_time env w /\
          console w' = (console w ++ lines)%list /\
          r = poll_outcome env res) w.
Proof.
  intros Hd. unfold poll_once. apply wp_bind. apply wp_run_poll; [exact Hd |].
  intros [[z s] s0]. wp_go;
    (exists (z, s, s0); eexists;
     split; [reflexivity |]; split; [reflexivity |]; split; [reflexivity |];
     split; [ first [ reflexivity | symmetry; apply app_nil_r ] |];
     unfold poll_outcome, qualifying_run; cbn [code_of stdout_of fst snd];
     rewrite_tests; reflexivity).
Qed.

Lemma WaitRun_cons res polls r :
  qualifying_run env res = inr None ->
  WaitRun env polls r ->
  WaitRun env (mkEvent (poll_call env) res :: polls) r.
Proof.
  intros Hq H.
  assert (Hc : forall l, polls_nothing env l ->
                 polls_nothing env (mkEvent (poll_call env) res :: l)).
  { intros l Hl. constructor; [split; [reflexivity | exact Hq] | exact Hl]. }
  destruct H as [l Hl | l res' id Hl Hid | l res' e Hl He].
  - apply Wait_timed_out. auto.
  - apply (Wait_confirmed env (_ :: l)); auto.
  - apply (Wait_raised env (_ :: l)); auto.
Qed.

(** The loop proper: with fuel for the budget that is left, it never
    runs out of fuel, makes at most one listing per two seconds of
    budget, and is over one listing and one sleep after the budget at the
    latest. *)
Lemma wait_loop_real D start max_wait :
  (forall w, poll_time env w <= D) ->
  forall fuel w,
    DRY_RUN w = false ->
    (1 <= fuel)%nat ->
    max_wait - (clock w - start) <= 2 * Z.of_nat fuel - 2 ->
    wp (wait_loop env fuel start max_wait)
       (fun r w' => exists polls lines,
            DRY_RUN w' = false /\
            events w' = (events w ++ polls)%list /\
            console w' = (console w ++ lines)%list /\
            WaitRun env polls r /\
            clock w <= clock w' <= Z.max (clock w) (start + max_wait + D + 1) /\
            2 * Z.of_nat (List.length polls)
              <= Z.max 0 (max_wait - (clock w - start) + 1)) w.
Proof.
  intros HD. induction fuel as [| fuel IH]; intros w Hd Hf Hm; [lia |].
  cbn [wait_loop]. do 3 wp_step.
  - apply Z.ltb_lt in Heqb.
    pose proof (poll_time_bounds w) as Hp. pose proof (HD w) as HDw.
    wp_step. wp_use poll_once_real.
    intros r w1 (res & lines & F & E & C & L & ->).
    unfold poll_outcome.
    destruct (qualifying_run env res) as [e | [run_id |]] eqn:Hq; wp_norm.
    + exists [mkEvent (poll_call env) res], lines.
      repeat split; auto; try lia.
      * apply (Wait_raised env []); [constructor | exact Hq].
      * cbn [List.length]. lia.
    + wp_go. exists [mkEvent (poll_call env) res], lines.
      repeat split; auto; try lia.
      * apply (Wait_confirmed env []); [constructor | exact Hq].
      * cbn [List.length]. lia.
    + wp_go. eapply wp_mono.
      * apply IH; wp_norm; [reflexivity | lia | lia].
      * wp_norm.
        intros r w2 (polls & lines2 & F2 & E2 & L2 & Hrun & C2 & Hn).
        wp_norm_in E2. wp_norm_in L2. wp_norm_in C2. wp_norm_in Hn.
        exists (mkEvent (poll_call env) res :: polls), (lines ++ lines2)%list.
        split; [exact F2 |].
        split; [rewrite E2, E, <- app_assoc; reflexivity |].
        split; [rewrite L2, L, <- app_assoc; reflexivity |].
        split; [apply WaitRun_cons; assumption |].
        cbn [List.length]. lia.
  - apply Z.ltb_ge in Heqb. wp_step. exists [], [].
    rewrite !app_nil_r. repeat split; auto; try lia.
    + apply Wait_timed_out. constructor.
    + cbn [List.length]. lia.
Qed.

Lemma wait_for_workflow_start_real D max_wait w :
  (forall w, poll_time env w <= D) ->
  DRY_RUN w = false ->
  wp (wait_for_workflow_start env max_wait)
     (fun r w' => exists polls lines,
          DRY_RUN w' = false /\
          events w' = (events w ++ polls)%list /\
          console w' = (console w ++ lines)%list /\
          WaitRun env polls r /\
          clock w <= clock w' <= Z.max (clock w) (clock w + max_wait + D + 1) /\
          2 * Z.of_nat (List.length polls) <= Z.max 0 (max_wait + 1)) w.
Proof.
  intros HD Hd. unfold wait_for_workflow_start. wp_go.
  eapply wp_mono.
  - apply (wait_loop_real D (clock w) max_wait HD (wait_fuel max_wait));
      wp_norm; unfold wait_fuel; [reflexivity | lia | lia].
  - wp_norm.
    intros r w1 (polls & lines & F & E & L & Hrun & C & Hn).
    wp_norm_in E. wp_norm_in L. wp_norm_in C. wp_norm_in Hn.
    replace (max_wait - (clock w - clock w) + 1) with (max_wait + 1) in Hn by lia.
    destruct r as [[id |] | e]; wp_go;
      (eexists polls, _;
       split; [first [exact F | reflexivity] |]; split; [exact E |];
       split; [rewrite L, <- !app_assoc; reflexivity |];
       split; [exact Hrun |]; split; lia).
Qed.

Lemma getitem_int_not_fuel v i : getitem_int v i <> inl OutOfFuel.
Proof.
  unfold getitem_int. destruct v; try discriminate.
  - destruct (_ && _); [| discriminate]. discriminate.
  - destruct (_ && _); [| discriminate].
    destruct (nth_error _ _); discriminate.
Qed.

Lemma getitem_key_not_fuel v k : getitem_key v k <> inl OutOfFuel.
Proof.
  unfold getitem_key. destruct v; try discriminate.
  destruct (assoc k kv); discriminate.
Qed.

(** The indexing never raises the marker of the bounded loop. *)
Lemma qualifying_run_not_fuel res : qualifying_run env res <> inl OutOfFuel.
Proof.
  unfold qualifying_run.
  destruct (_ && _); [| discriminate].
  destruct (json_loads env (stdout_of res)) as [runs |]; [| discriminate].
  destruct (truthy runs); [| discriminate].
  destruct (getitem_int runs 0) as [e | run0] eqn:H0.
  - intros H. injection H as ->. exact (getitem_int_not_fuel _ _ H0).
  - destruct (getitem_key run0 "status") as [e | st] eqn:H1.
    + intros H. injection H as ->. exact (getitem_key_not_fuel _ _ H1).
    + destruct (is_in st _); [| discriminate].
      destruct (getitem_key run0 "databaseId") as [e | id] eqn:H2; [| discriminate].
      intros H. injection H as ->. exact (getitem_key_not_fuel _ _ H2).
Qed.

(** What a listing must say for the loop to return a run. *)
Lemma qualifying_run_some res run_id :
  qualifying_run env res = inr (Some run_id) ->
  code_of res = 0 /\
  exists runs run0 status,
    json_loads env (stdout_of res) = Some runs /\
    getitem_int runs 0 = inr run0 /\
    getitem_key run0 "status" = inr status /\
    is_in status ["queued"; "in_progress"] = true /\
    getitem_key run0 "databaseId" = inr run_id.
Proof.
  unfold qualifying_run.
  destruct ((code_of res =? 0) && Py.truthy_str (stdout_of res)) eqn:Hc;
    [| discriminate].
  apply andb_prop in Hc. destruct Hc as (Hc & _). apply Z.eqb_eq in Hc.
  destruct (json_loads env (stdout_of res)) as [runs |] eqn:Hj; [| discriminate].
  destruct (truthy runs); [| discriminate].
  destruct (getitem_int runs 0) as [e | run0] eqn:H0; [discriminate |].
  destruct (getitem_key run0 "status") as [e | st] eqn:H1; [discriminate |].
  destruct (is_in st _) eqn:Hin; [| discriminate].
  destruct (getitem_key run0 "databaseId") as [e | id] eqn:H2; [discriminate |].
  intros H. injection H as ->.
  split; [exact Hc |]. exists runs, run0, st. repeat split; assumption.
Qed.

Lemma poll_outcome_not_fuel res : poll_outcome env res <> Raise OutOfFuel.
Proof.
  unfold poll_outcome.
  destruct (qualifying_run env res) as [e | [id |]] eqn:Hq; try discriminate.
  intros H. injection H as ->. exact (qualifying_run_not_fuel _ Hq).
Qed.

(** Simulated or not, one turn of the loop keeps the flag, takes at most
    the command timeout, only adds to the console and raises nothing but
    what the indexing raises. *)
Lemma poll_once_any w :
  wp (poll_once env)
     (fun r w' => DRY_RUN w' = DRY_RUN w /\
                  clock w <= clock w' <= clock w + DEFAULT_CMD_TIMEOUT /\
                  (exists lines, console w' = (console w ++ lines)%list) /\
                  r <> Raise OutOfFuel) w.
Proof.
  destruct (DRY_RUN w) eqn:Hd.
  - unfold poll_once. wp_go;
      (split; [reflexivity |]; split; [unfold DEFAULT_CMD_TIMEOUT; lia |];
       split; [eexists; rewrite <- ?app_assoc; reflexivity |];
       try discriminate;
       intros H; injection H as ->;
       first [ eapply getitem_int_not_fuel; eassumption
             | eapply getitem_key_not_fuel; eassumption ]).
  - wp_use poll_once_real.
    intros r w' (res & lines & F & E & C & L & ->).
    pose proof (poll_time_bounds w).
    split; [exact F |]. split; [lia |].
    split; [exists lines; exact L | apply poll_outcome_not_fuel].
Qed.

Lemma wait_loop_any start max_wait :
  forall fuel w,
    (1 <= fuel)%nat ->
    max_wait - (clock w - start) <= 2 * Z.of_nat fuel - 2 ->
    wp (wait_loop env fuel start max_wait)
       (fun r w' =>
          r <> Raise OutOfFuel /\
          clock w <= clock w'
                  <= Z.max (clock w) (start + max_wait + DEFAULT_CMD_TIMEOUT + 1) /\
          exists lines, console w' = (console w ++ lines)%list) w.
Proof.
  induction fuel as [| fuel IH]; intros w Hf Hm; [lia |].
  cbn [wait_loop]. do 3 wp_step.
  - apply Z.ltb_lt in Heqb. wp_step. wp_use poll_once_any.
    intros r w1 (F & C & (lines & L) & Hr).
    destruct r as [[id |] | e]; wp_norm.
    + wp_go. split; [discriminate |]. split; [lia | exists lines; exact L].
    + wp_go. eapply wp_mono.
      * apply IH; wp_norm; lia.
      * wp_norm. intros r w2 (Hr2 & C2 & (lines2 & L2)).
        wp_norm_in C2. wp_norm_in L2.
        split; [exact Hr2 |]. split; [lia |].
        exists (lines ++ lines2)%list. rewrite L2, L, app_assoc. reflexivity.
    + split; [exact Hr |]. split; [lia | exists lines; exact L].
  - apply Z.ltb_ge in Heqb. wp_step. split; [discriminate |].
    split; [lia | exists []; rewrite app_nil_r; reflexivity].
Qed.

(** The confirmation loop always ends, simulated or not, within the
    budget, one command timeout and one sleep; and the first thing it
    does is print its banner. *)
Lemma wait_for_workflow_start_any max_wait w :
  wp (wait_for_workflow_start env max_wait)
     (fun r w' =>
        r <> Raise OutOfFuel /\
        clock w <= clock w'
                <= Z.max (clock w) (clock w + max_wait + DEFAULT_CMD_TIMEOUT + 1) /\
        exists banner lines,
          console w' = (console w ++ banner :: lines)%list /\
          is_wait_banner banner = true) w.
Proof.
  unfold wait_for_workflow_start. wp_go.
  eapply wp_mono.
  - apply (wait_loop_any (clock w) max_wait (wait_fuel max_wait));
      wp_norm; unfold wait_fuel; lia.
  - wp_norm. intros r w1 (Hr & C & (lines & L)). wp_norm_in C. wp_norm_in L.
    destruct r as [[id |] | e]; wp_go;
      (split; [first [discriminate | exact Hr] |]; split; [lia |];
       eexists _, _; split;
       [ rewrite L, <- ?app_assoc; cbn [app]; reflexivity | reflexivity ]).
Qed.

Lemma WaitRun_not_fuel polls r : WaitRun env polls r -> r <> Raise OutOfFuel.
Proof.
  intros [l Hl | l res id Hl Hid | l res e Hl He]; try discriminate.
  intros H. injection H as ->. exact (qualifying_run_not_fuel _ He).
Qed.

Lemma WaitRun_calls polls r :
  WaitRun env polls r -> Forall (fun e => ev_call e = poll_call env) polls.
Proof.
  assert (Hn : forall l, polls_nothing env l ->
                 Forall (fun e => ev_call e = poll_call env) l).
  { intros l Hl. unfold polls_nothing in Hl. rewrite Forall_forall in *.
    intros e He. apply (Hl e He). }
  intros [l Hl | l res id Hl Hid | l res e Hl He]; auto;
    (apply Forall_app; split; [auto | repeat constructor]).
Qed.

(** A run of the loop in which no listing shows a qualifying run, and
    none makes the indexing raise, ends by the budget. *)
Lemma WaitRun_nothing polls r :
  WaitRun env polls r ->
  (forall e, In e polls -> qualifying_run env (ev_result e) = inr None) ->
  r = Val None.
Proof.
  intros [l Hl | l res id Hl Hid | l res e Hl He] Hall; [reflexivity | |];
    (assert (Hq : qualifying_run env res = inr None)
       by (apply (Hall (mkEvent (poll_call env) res));
           apply in_or_app; right; left; reflexivity);
     congruence).
Qed.

End Confirmation.

(** ** The build command, in earnest *)

Lemma SyncRun_push_phase env dir msg auto l b :
  SyncRun dir msg auto l b -> Forall (is_push_phase env) l.
Proof.
  intros H. sync_paths H; cbn [app];
    repeat (apply Forall_cons; [right; reflexivity |]); apply Forall_nil.
Qed.

Lemma preflight_push_phase env l :
  Forall (is_preflight env) l -> Forall (is_push_phase env) l.
Proof.
  intros H. eapply Forall_impl; [| exact H]. intros e He. left. exact He.
Qed.

(** Close a branch of a command: the flag, what was started (the given
    list), the clock, the kind of the processes and the result. *)
Ltac push_leaf ls :=
  exists ls;
  split; [ wp_norm; congruence |];
  split; [ wp_norm; world_rewrite; rewrite <- ?app_assoc; reflexivity |];
  split; [ wp_norm; lia |];
  split; [ repeat (apply Forall_app; split); auto | auto ].

Section Build.

Variable env : Env.

Lemma cmd_push_real args w :
  dry_run args = false ->
  wp (cmd_push env args)
     (fun r w' => exists l,
          DRY_RUN w' = false /\
          events w' = (events w ++ l)%list /\
          clock w <= clock w' /\
          Forall (is_push_phase env) l /\
          (r = Val 0 \/ r = Val 1 \/ r = Raise (SystemExit 1))) w.
Proof.
  intros Ha. unfold cmd_push, get_timestamp. rewrite Ha. wp_go.
  wp_use check_gh_installed_any.
  intros r w1 (l1 & E1 & P1 & F1 & C1 & [-> | ->]); wp_norm;
    wp_norm_in E1; wp_norm_in F1; wp_norm_in C1;
    apply preflight_push_phase in P1.
  2: { push_leaf l1. }
  wp_go. wp_use check_repo_exists_any.
  intros r w2 (l2 & E2 & P2 & F2 & C2 & [-> | ->]); wp_norm;
    apply preflight_push_phase in P2.
  2: { push_leaf (l1 ++ l2)%list. }
  try rewrite F1 in F2. wp_go.
  wp_use git_commit_push_real.
  intros r w3 (b3 & l3 & dt3 & -> & Heff3 & Hrun3). effect_open.
  apply (SyncRun_push_phase env) in Hrun3. wp_go.
  2: { push_leaf (l1 ++ l2 ++ l3)%list. }
  wp_use git_commit_push_real.
  intros r w4 (b4 & l4 & dt4 & -> & Heff4 & Hrun4). effect_open.
  apply (SyncRun_push_phase env) in Hrun4. wp_go;
    push_leaf (l1 ++ l2 ++ l3 ++ l4)%list.
Qed.

Lemma cmd_build_real args w :
  dry_run args = false ->
  wp (cmd_build env args)
     (fun r w' => exists l,
          events w' = (events w ++ l)%list /\
          clock w <= clock w' /\
          BuildRun env args (clock w) (clock w') l r) w.
Proof.
  intros Ha. unfold cmd_build, get_tag_timestamp. rewrite Ha. wp_go.
  wp_use check_gh_installed_any.
  intros r w1 (l1 & E1 & P1 & F1 & C1 & [-> | ->]); wp_norm;
    wp_norm_in E1; wp_norm_in F1; wp_norm_in C1;
    apply preflight_push_phase in P1.
  2: { exists l1. split; [exact E1 |]. split; [exact C1 |].
       apply Build_stopped; auto. }
  wp_go. wp_use check_repo_exists_any.
  intros r w2 (l2 & E2 & P2 & F2 & C2 & [-> | ->]); wp_norm;
    apply preflight_push_phase in P2.
  2: { exists (l1 ++ l2)%list.
       split; [rewrite E2, E1, <- app_assoc; reflexivity |]. split; [lia |].
       apply Build_stopped; [apply Forall_app |]; auto. }
  wp_go. wp_use cmd_push_real.
  intros r w3 (l3 & F3 & E3 & C3 & P3 & Hr). wp_norm_in E3. wp_norm_in C3.
  assert (E : events w3 = (events w ++ (l1 ++ l2 ++ l3))%list)
    by (rewrite E3, E2, E1, <- !app_assoc; reflexivity).
  assert (P : Forall (is_push_phase env) (l1 ++ l2 ++ l3))
    by (repeat (apply Forall_app; split); auto).
  assert (C : clock w <= clock w3) by lia.
  clear E1 E2 E3 P1 P2 P3 C1 C2 C3.
  destruct Hr as [-> | [-> | ->]]; wp_norm.
  2, 3: (wp_go; exists (l1 ++ l2 ++ l3)%list;
         split; [exact E |]; split; [wp_norm; exact C |];
         apply Build_stopped; auto).
  wp_go.
  all: try (wp_use (wait_for_workflow_start_real env DEFAULT_CMD_TIMEOUT 30);
            [ intros w0; apply poll_time_bounds |];
            intros r w4 (polls & lines & F4 & E4 & L4 & Hrun & C4 & Hn);
            wp_norm_in E4; wp_norm_in C4;
            destruct r as [[id |] | e]; wp_go).
  all: lazymatch goal with
       | Hw : WaitRun _ ?polls _ |- _ =>
           exists ((l1 ++ l2 ++ l3) ++
                   [mkEvent (trigger_call env (build_tag env args (clock w3)))
                            (z, s, s0)] ++ polls)%list
       | _ =>
           exists ((l1 ++ l2 ++ l3) ++
                   [mkEvent (trigger_call env (build_tag env args (clock w3)))
                            (z, s, s0)])%list
       end.
  all: split; [ wp_norm; world_rewrite; rewrite <- ?app_assoc;
                unfold build_tag; rewrite Heqb; reflexivity |].
  all: split; [ wp_norm; lia |].
  all: wp_norm.
  all: lazymatch goal with
       | Hw : WaitRun _ ?polls ?r |- _ =>
           apply (Build_triggered env args (clock w) _ (l1 ++ l2 ++ l3)
                    (clock w3) (z, s, s0) polls r P);
           [ lia | apply Z.eqb_eq; exact Heqb0 | exact Hw ]
       | _ =>
           apply (Build_not_triggered env args (clock w) _ (l1 ++ l2 ++ l3)
                    (clock w3) (z, s, s0) P);
           [ lia | apply Z.eqb_neq; exact Heqb0 ]
       end.
Qed.

End Build.

(** ** Claims about the confirmation loop and the build *)

Lemma push_phase_not_trigger env e :
  is_push_phase env e -> ~ is_trigger (ev_call e).
Proof.
  unfold is_push_phase, is_preflight, is_trigger.
  intros [[H | [H | [H | []]]] | H] Ht.
  - rewrite <- H in Ht. discriminate Ht.
  - rewrite <- H in Ht. discriminate Ht.
  - rewrite <- H in Ht. discriminate Ht.
  - destruct (cmd (ev_call e)) as [| a [| b [| c l]]]; try discriminate Ht.
    injection H as ->. discriminate Ht.
Qed.

Lemma push_phase_not_poll env e :
  is_push_phase env e -> ev_call e <> poll_call env.
Proof.
  unfold is_push_phase, is_preflight.
  intros [[H | [H | [H | []]]] | H] Hp; rewrite Hp in H; discriminate H.
Qed.

Lemma push_phase_not_trigger_call env e tag :
  is_push_phase env e -> ev_call e <> trigger_call env tag.
Proof.
  intros H Hc. apply (push_phase_not_trigger env e H).
  rewrite Hc. reflexivity.
Qed.

Lemma append_empty (s : string) : s ++ "" = s.
Proof. induction s; simpl; congruence. Qed.

Lemma strftime_tag dt : strftime "%Y-%m%d-%H%M" dt = tag_YYYY_MMDD_HHMM dt.
Proof.
  unfold tag_YYYY_MMDD_HHMM. cbn [strftime Ascii.eqb Bool.eqb strftime_field].
  rewrite append_empty. reflexivity.
Qed.

Lemma length_append_str (a b : string) :
  String.length (a ++ b) = (String.length a + String.length b)%nat.
Proof. induction a; simpl; congruence. Qed.

(** A number below [bound] fills its field exactly; checked number by
    number. *)
Lemma zpad_length_below (width bound : nat) :
  forallb (fun n => Nat.eqb (String.length (Py.zpad width (Z.of_nat n))) width)
          (seq 0 bound) = true ->
  forall z, 0 <= z < Z.of_nat bound -> String.length (Py.zpad width z) = width.
Proof.
  intros Hall z Hz. rewrite forallb_forall in Hall.
  specialize (Hall (Z.to_nat z)).
  rewrite Z2Nat.id in Hall by lia.
  apply Nat.eqb_eq. apply Hall. apply in_seq. lia.
Qed.

Lemma zpad2_length z : 0 <= z <= 99 -> String.length (Py.zpad 2 z) = 2%nat.
Proof.
  intros Hz. apply (zpad_length_below 2 100); [vm_compute; reflexivity | lia].
Qed.

Lemma zpad4_length z : 0 <= z <= 9999 -> String.length (Py.zpad 4 z) = 4%nat.
Proof.
  intros Hz. apply (zpad_length_below 4 (Z.to_nat 10000)).
  - vm_compute. reflexivity.
  - rewrite Z2Nat.id; lia.
Qed.

Lemma tag_length dt :
  valid_datetime dt -> String.length (tag_YYYY_MMDD_HHMM dt) = 14%nat.
Proof.
  intros (Hy & Hm & Hd & HH & HM & _). unfold tag_YYYY_MMDD_HHMM.
  rewrite !length_append_str.
  rewrite zpad4_length by lia. rewrite !zpad2_length by lia. reflexivity.
Qed.

(** C7, as the script has it: a build that is given no tag (none, or an
    empty one) makes its tag from the current time as YYYY-MMDD-HHMM (year,
    hyphen, month and day, hyphen, hour and minute: 14 characters for a
    date of the calendar), and the one trigger call it starts carries that
    text unchanged as its [upload-tag] input. *)
Theorem auto_tag_is_formatted_now :
  forall env args w e,
    opt_truthy (tag args) = false ->
    In e (new_events (cmd_build env args) w) ->
    is_trigger (ev_call e) ->
    result_of (get_tag_timestamp env) w
      = Val (tag_YYYY_MMDD_HHMM (datetime_now env (clock w)))
    /\ (forall dt, valid_datetime dt ->
                   String.length (tag_YYYY_MMDD_HHMM dt) = 14%nat)
    /\ exists t,
         clock w <= t <= clock (world_after (cmd_build env args) w) /\
         cmd (ev_call e)
           = ["gh"; "workflow"; "run"; "flutter-nightly.yml";
              "-R"; "Jiang1756/rs-client";
              "-f"; "upload-tag=" ++ tag_YYYY_MMDD_HHMM (datetime_now env t)].
Proof.
  intros env args w e Htag Hin Htrig.
  split.
  { unfold result_of.
    change (get_tag_timestamp env w)
      with (Val (strftime "%Y-%m%d-%H%M" (datetime_now env (clock w))), w).
    cbn [fst]. rewrite strftime_tag. reflexivity. }
  split; [exact tag_length |].
  destruct (dry_run args) eqn:Ha.
  - pose proof (wp_elim _ _ _ (cmd_build_dry env args w Ha)) as (_ & Hs).
    pose proof (sim_events _ _ Hs) as He. cbn [flagged events] in He.
    rewrite (new_events_eq (cmd_build env args) w []) in Hin
      by (rewrite app_nil_r; exact He).
    destruct Hin.
  - destruct (wp_elim _ _ _ (cmd_build_real env args w Ha)) as (l & He & Hc & Hrun).
    rewrite (new_events_eq _ _ _ He) in Hin.
    assert (Hpre : forall pre, Forall (is_push_phase env) pre -> ~ In e pre).
    { intros pre Hp Hi. rewrite Forall_forall in Hp.
      exact (push_phase_not_trigger env e (Hp e Hi) Htrig). }
    assert (Htr : forall t tr,
               clock w <= t <= clock (world_after (cmd_build env args) w) ->
               e = mkEvent (trigger_call env (build_tag env args t)) tr ->
               exists t0,
                 clock w <= t0 <= clock (world_after (cmd_build env args) w) /\
                 cmd (ev_call e)
                   = ["gh"; "workflow"; "run"; "flutter-nightly.yml";
                      "-R"; "Jiang1756/rs-client";
                      "-f"; "upload-tag=" ++ tag_YYYY_MMDD_HHMM (datetime_now env t0)]).
    { intros t tr Ht ->. exists t. split; [exact Ht |].
      unfold build_tag. rewrite Htag, strftime_tag. reflexivity. }
    inversion Hrun as [pre r Hp Hr | pre t tr Hp Ht Hcode | pre t tr polls r Hp Ht Hcode Hw];
      subst.
    + exfalso. exact (Hpre _ Hp Hin).
    + apply in_app_or in Hin. destruct Hin as [Hi | [Hi | []]].
      * exfalso. exact (Hpre _ Hp Hi).
      * exact (Htr t tr Ht (eq_sym Hi)).
    + apply in_app_or in Hin. destruct Hin as [Hi | Hi].
      * exfalso. exact (Hpre _ Hp Hi).
      * destruct Hi as [Hi | Hi]; [exact (Htr t tr Ht (eq_sym Hi)) |].
        exfalso. pose proof (WaitRun_calls env _ _ Hw) as Hcalls.
        rewrite Forall_forall in Hcalls. specialize (Hcalls e Hi).
        unfold is_trigger in Htrig. rewrite Hcalls in Htrig. discriminate Htrig.
Qed.

Lemma auto_tag_is_formatted_now_witness :
  exists t,
    0 <= t <= clock (world_after (cmd_build Examples.env_quiet Examples.plain_args)
                       Examples.world0) /\
    workflow_run_cmd "2026-1103-1405"
      = ["gh"; "workflow"; "run"; "flutter-nightly.yml";
         "-R"; "Jiang1756/rs-client";
         "-f"; "upload-tag=" ++ tag_YYYY_MMDD_HHMM (datetime_now Examples.env_quiet t)].
Proof.
  refine (proj2 (proj2 (auto_tag_is_formatted_now Examples.env_quiet
                          Examples.plain_args Examples.world0
                          (mkEvent (trigger_call Examples.env_quiet "2026-1103-1405")
                                   (0, "", "")) _ _ _))).
  - reflexivity.
  - vm_compute. tauto.
  - reflexivity.
Defined.

(** C7, as the specification words it, fails: on 2026-11-03 at 14:05 the
    build triggers with the tag 2026-1103-1405, which is not the date written
    as YYYY-MM-DD-HHMM. *)
Lemma auto_tag_is_not_YYYY_MM_DD_HHMM :
  In (mkEvent (trigger_call Examples.env_quiet "2026-1103-1405") (0, "", ""))
     (new_events (cmd_build Examples.env_quiet Examples.plain_args) Examples.world0)
  /\ datetime_now Examples.env_quiet 0 = mkDateTime 2026 11 3 14 5 9
  /\ tag_YYYY_MM_DD_HHMM (mkDateTime 2026 11 3 14 5 9) = "2026-11-03-1405"
  /\ "2026-1103-1405" <> tag_YYYY_MM_DD_HHMM (mkDateTime 2026 11 3 14 5 9).
Proof.
  split; [vm_compute; tauto |]. split; [reflexivity |].
  split; [reflexivity |]. vm_compute. discriminate.
Qed.

(** C6, as the script has it: the confirmation loop returns a run id only
    as the text of the [databaseId] of the first run of its last listing,
    a listing that succeeded, decoded, and whose first run has the status
    queued or in_progress at that moment.  Whether the run was there
    before the trigger is not looked at. *)
Theorem confirmed_run_heads_last_listing :
  forall env max_wait w id,
    DRY_RUN w = false ->
    result_of (wait_for_workflow_start env max_wait) w = Val (Some id) ->
    exists earlier res runs run0 status run_id,
      new_events (wait_for_workflow_start env max_wait) w
        = (earlier ++ [mkEvent (poll_call env) res])%list /\
      code_of res = 0 /\
      json_loads env (stdout_of res) = Some runs /\
      getitem_int runs 0 = inr run0 /\
      getitem_key run0 "status" = inr status /\
      is_in status ["queued"; "in_progress"] = true /\
      getitem_key run0 "databaseId" = inr run_id /\
      id = py_str env run_id.
Proof.
  intros env max_wait w id Hd Hr.
  destruct (wp_elim _ _ _
              (wait_for_workflow_start_real env DEFAULT_CMD_TIMEOUT max_wait w
                 (fun w0 => proj2 (poll_time_bounds env w0)) Hd))
    as (polls & lines & _ & He & _ & Hrun & _).
  rewrite (new_events_eq _ _ _ He). rewrite Hr in Hrun.
  inversion Hrun as [| earlier res run_id Hn Hq |]; subst.
  destruct (qualifying_run_some env res run_id Hq)
    as (Hc & runs & run0 & status & Hj & H0 & H1 & Hin & H2).
  exists earlier, res, runs, run0, status, run_id. repeat split; assumption.
Qed.

Lemma confirmed_run_heads_last_listing_witness :
  exists earlier res runs run0 status run_id,
    new_events (wait_for_workflow_start Examples.env_stale_run 30) Examples.world0
      = (earlier ++ [mkEvent (poll_call Examples.env_stale_run) res])%list /\
    code_of res = 0 /\
    json_loads Examples.env_stale_run (stdout_of res) = Some runs /\
    getitem_int runs 0 = inr run0 /\
    getitem_key run0 "status" = inr status /\
    is_in status ["queued"; "in_progress"] = true /\
    getitem_key run0 "databaseId" = inr run_id /\
    "100" = py_str Examples.env_stale_run run_id.
Proof.
  apply (confirmed_run_heads_last_listing Examples.env_stale_run 30
           Examples.world0 "100"); reflexivity.
Defined.

(** C6, as the specification words it, fails: run 100 is in progress
    before anything is triggered (a listing made first shows it), the build is
    then triggered, and the confirmation loop returns 100, a run that was
    not absent before the trigger. *)
Lemma confirmed_run_was_there_before :
  let env := Examples.env_stale_run in
  let trigger :=
    run_cmd env (workflow_run_cmd "v1") (Some (RS_CLIENT_DIR env)) true
            DEFAULT_CMD_TIMEOUT in
  result_of (poll_once env) Examples.world0 = Val (Some "100")
  /\ events (world_after trigger Examples.world0)
     = [mkEvent (trigger_call env "v1") (0, "", "")]
  /\ result_of (wait_for_workflow_start env 30)
               (world_after trigger Examples.world0) = Val (Some "100").
Proof. vm_compute. repeat split. Qed.

(** Once its trigger call has succeeded, a build returns 0 unless a
    listing qualifies a run or makes the indexing raise. *)
Lemma BuildRun_triggered_quiet env args t0 t1 l r tag tr :
  BuildRun env args t0 t1 l r ->
  In (mkEvent (trigger_call env tag) tr) l ->
  code_of tr = 0 ->
  (forall e, In e l -> ev_call e = poll_call env ->
             qualifying_run env (ev_result e) = inr None) ->
  r = Val 0.
Proof.
  intros Hrun Hin Hcode Hq.
  assert (Hpre : forall pre, Forall (is_push_phase env) pre ->
                   ~ In (mkEvent (trigger_call env tag) tr) pre).
  { intros pre Hp Hi. rewrite Forall_forall in Hp.
    exact (push_phase_not_trigger_call env _ tag (Hp _ Hi) eq_refl). }
  inversion Hrun as [pre r0 Hp Hr | pre t tr0 Hp Ht Hc | pre t tr0 polls r0 Hp Ht Hc Hw];
    subst.
  - exfalso. exact (Hpre _ Hp Hin).
  - exfalso. apply in_app_or in Hin. destruct Hin as [Hi | [Hi | []]].
    + exact (Hpre _ Hp Hi).
    + injection Hi as _ ->. exact (Hc Hcode).
  - assert (Hr0 : r0 = Val None).
    { apply (WaitRun_nothing env polls r0 Hw). intros e He.
      pose proof (WaitRun_calls env _ _ Hw) as Hcalls.
      rewrite Forall_forall in Hcalls.
      apply Hq; [| exact (Hcalls e He)].
      apply in_or_app. right. right. exact He. }
    rewrite Hr0. reflexivity.
Qed.

(** C5, as the script has it.  The confirmation loop with budget
    [max_wait] (30 when the build calls it) always ends: the bounded
    unrolling never runs out, and it is over within the budget plus the
    time of one listing, at most the command timeout of 300 seconds, plus
    one sleep of 2 seconds.  When commands are really run it makes
    listings only, at most one per two seconds of budget; it is over
    within budget + 2 when listings take no time; and when no listing
    qualifies a run (nor breaks the indexing) it returns no run id.  A
    build whose trigger call succeeded and whose listings qualify no run
    returns 0 all the same. *)
Theorem confirmation_wait_is_bounded :
  forall env max_wait,
    let m := wait_for_workflow_start env max_wait in
    let elapsed w := clock (world_after m w) - clock w in
    (forall w,
       result_of m w <> Raise OutOfFuel
       /\ 0 <= elapsed w < Z.max 0 max_wait + DEFAULT_CMD_TIMEOUT + 2)
    /\
    (forall w,
       DRY_RUN w = false ->
       Forall (fun e => ev_call e = poll_call env) (new_events m w)
       /\ 2 * Z.of_nat (List.length (new_events m w)) <= Z.max 0 (max_wait + 1)
       /\ (forall D,
             (forall h t, Z.of_N (snd (exec env h t (poll_call env))) <= D) ->
             elapsed w < Z.max 0 max_wait + D + 2)
       /\ ((forall e, In e (new_events m w) ->
                      qualifying_run env (ev_result e) = inr None) ->
           result_of m w = Val None))
    /\
    (forall args w tag tr,
       In (mkEvent (trigger_call env tag) tr)
          (new_events (cmd_build env args) w) ->
       code_of tr = 0 ->
       (forall e, In e (new_events (cmd_build env args) w) ->
                  ev_call e = poll_call env ->
                  qualifying_run env (ev_result e) = inr None) ->
       result_of (cmd_build env args) w = Val 0).
Proof.
  intros env max_wait m elapsed. split; [| split].
  - intros w.
    destruct (wp_elim _ _ _ (wait_for_workflow_start_any env max_wait w))
      as (Hr & Hc & _).
    split; [exact Hr |]. unfold elapsed, m, DEFAULT_CMD_TIMEOUT in *. lia.
  - intros w Hd.
    assert (Hspec : forall D, (forall w0, poll_time env w0 <= D) ->
              exists polls,
                new_events m w = polls /\ WaitRun env polls (result_of m w) /\
                clock w <= clock (world_after m w)
                        <= Z.max (clock w) (clock w + max_wait + D + 1) /\
                2 * Z.of_nat (List.length polls) <= Z.max 0 (max_wait + 1)).
    { intros D HD.
      destruct (wp_elim _ _ _
                  (wait_for_workflow_start_real env D max_wait w HD Hd))
        as (polls & lines & _ & He & _ & Hrun & Hc & Hn).
      exists polls. split; [exact (new_events_eq _ _ _ He) | auto]. }
    destruct (Hspec DEFAULT_CMD_TIMEOUT (fun w0 => proj2 (poll_time_bounds env w0)))
      as (polls & Hev & Hrun & Hc & Hn).
    rewrite Hev.
    split; [exact (WaitRun_calls env _ _ Hrun) |].
    split; [exact Hn |].
    split; [| exact (WaitRun_nothing env _ _ Hrun)].
    intros D HD.
    assert (HD' : forall w0, poll_time env w0 <= D).
    { intros w0. unfold poll_time. specialize (HD (events w0) (clock w0)). lia. }
    destruct (Hspec D HD') as (_ & _ & _ & Hc' & _).
    pose proof (poll_time_bounds env w) as Hp. specialize (HD' w).
    unfold elapsed. lia.
  - intros args w tag tr Hin Hcode Hq.
    destruct (dry_run args) eqn:Ha.
    + pose proof (wp_elim _ _ _ (cmd_build_dry env args w Ha)) as (_ & Hs).
      pose proof (sim_events _ _ Hs) as He. cbn [flagged events] in He.
      rewrite (new_events_eq (cmd_build env args) w []) in Hin
        by (rewrite app_nil_r; exact He).
      destruct Hin.
    + destruct (wp_elim _ _ _ (cmd_build_real env args w Ha))
        as (l & He & _ & Hb).
      rewrite (new_events_eq _ _ _ He) in Hin, Hq.
      exact (BuildRun_triggered_quiet env args _ _ l _ tag tr Hb Hin Hcode Hq).
Qed.

Lemma confirmation_wait_is_bounded_witness :
  clock (world_after (wait_for_workflow_start Examples.env_quiet 30)
           Examples.world0) - clock Examples.world0
    < Z.max 0 30 + 0 + 2.
Proof.
  refine (proj1 (proj2 (proj2
            (proj1 (proj2 (confirmation_wait_is_bounded Examples.env_quiet 30))
               Examples.world0 _))) 0 _).
  - reflexivity.
  - intros h t. vm_compute. discriminate.
Defined.

(** C5, as the specification words it, fails: with a budget of 30
    seconds and a listing that hangs until its timeout of 300 seconds, the loop is over
    after 302 seconds, not within the 32 of budget plus one poll
    interval. *)
Lemma slow_listing_outlasts_budget :
  let m := wait_for_workflow_start Examples.env_slow 30 in
  result_of m Examples.world0 = Val None
  /\ clock (world_after m Examples.world0) - clock Examples.world0 = 302
  /\ ~ (302 <= 30 + 2).
Proof.
  split; [vm_compute; reflexivity |].
  split; [vm_compute; reflexivity | lia].
Qed.

(** C2: with the simulate-only flag set, a call of either process runner
    starts no child and returns the synthetic success (status 0, for
    [run_cmd] with the text "[dry-run]"); and any sequence of commands
    that keeps the flag set ([push] and [build] with [--dry-run]; [watch]
    and [fail] do not touch the flag), as well as a [build] with
    [--dry-run] from any state, starts no process at all, lets no time go by
    and never prints the banner of the confirmation loop, the line that
    loop prints first whenever it is entered: no repository is changed,
    no remote call is made and the polling is skipped. *)
Theorem simulate_only_runs_nothing :
  forall env,
    (forall cmd cwd capture tmo w,
       DRY_RUN w = true ->
       result_of (run_cmd env cmd cwd capture tmo) w = Val (0, "[dry-run]", "")
       /\ Simulated w (world_after (run_cmd env cmd cwd capture tmo) w))
    /\
    (forall cmd cwd w,
       DRY_RUN w = true ->
       result_of (run_cmd_live env cmd cwd) w = Val 0
       /\ Simulated w (world_after (run_cmd_live env cmd cwd) w))
    /\
    (forall cs w,
       DRY_RUN w = true ->
       simulating cs ->
       Simulated w (world_after (run_commands env cs) w))
    /\
    (forall args w,
       dry_run args = true ->
       Simulated (flagged w) (world_after (cmd_build env args) w))
    /\
    (forall max_wait w,
       exists banner lines,
         new_console (wait_for_workflow_start env max_wait) w = banner :: lines
         /\ is_wait_banner banner = true).
Proof.
  intros env.
  split; [| split; [| split; [| split]]];
    [ | | | | intros max_wait w;
            destruct (wp_elim _ _ _ (wait_for_workflow_start_any env max_wait w))
              as (_ & _ & banner & lines & L & B);
            exists banner, lines; split; [apply new_console_eq; exact L | exact B] ];
    repeat split.
  - apply wp_elim with (Q := fun r _ => r = Val (0, "[dry-run]", "")).
    wp_step. reflexivity.
  - apply wp_elim with (Q := fun _ w' => DRY_RUN w' = true). wp_step. reflexivity.
  - apply wp_elim with (Q := fun _ w' => events w' = events w). wp_step. reflexivity.
  - apply wp_elim with (Q := fun _ w' => clock w' = clock w). wp_step. reflexivity.
  - apply wp_elim
      with (Q := fun _ w' => exists lines,
                    console w' = (console w ++ lines)%list /\
                    Forall (fun line => is_wait_banner line = false) lines).
    wp_step. eexists. split; [reflexivity | forall_solve].
  - apply wp_elim with (Q := fun r _ => r = Val 0). wp_step. reflexivity.
  - apply wp_elim with (Q := fun _ w' => DRY_RUN w' = true). wp_step. reflexivity.
  - apply wp_elim with (Q := fun _ w' => events w' = events w). wp_step. reflexivity.
  - apply wp_elim with (Q := fun _ w' => clock w' = clock w). wp_step. reflexivity.
  - apply wp_elim
      with (Q := fun _ w' => exists lines,
                    console w' = (console w ++ lines)%list /\
                    Forall (fun line => is_wait_banner line = false) lines).
    wp_step. eexists. split; [reflexivity | forall_solve].
  - apply (sim_flag w). apply (wp_elim _ _ _ (run_commands_dry env cs H0 w H)).
  - apply (sim_events w). apply (wp_elim _ _ _ (run_commands_dry env cs H0 w H)).
  - apply (sim_clock w). apply (wp_elim _ _ _ (run_commands_dry env cs H0 w H)).
  - apply (sim_console w). apply (wp_elim _ _ _ (run_commands_dry env cs H0 w H)).
  - apply (sim_flag (flagged w)).
    apply (wp_elim _ _ _ (cmd_build_dry env args w H)).
  - apply (sim_events (flagged w)).
    apply (wp_elim _ _ _ (cmd_build_dry env args w H)).
  - apply (sim_clock (flagged w)).
    apply (wp_elim _ _ _ (cmd_build_dry env args w H)).
  - apply (sim_console (flagged w)).
    apply (wp_elim _ _ _ (cmd_build_dry env args w H)).
Qed.

Lemma simulate_only_runs_nothing_witness :
  Simulated Examples.world_dry
    (world_after
       (run_commands Examples.env_quiet
          [(Build, Examples.dry_args); (Watch, Examples.plain_args);
           (Fail, Examples.plain_args); (Push, Examples.dry_args)])
       Examples.world_dry).
Proof.
  apply (proj1 (proj2 (proj2 (simulate_only_runs_nothing Examples.env_quiet)))).
  - reflexivity.
  - intros c args [H | [H | [H | [H | []]]]] Hc;
      injection H as <- <-; first [ reflexivity | destruct Hc; discriminate ].
Defined.

(** ** More about the sync engine *)

(** Which process of a sync an event is, read off a membership. *)
Ltac sync_member H :=
  simpl in H;
  repeat match goal with
  | H' : _ \/ _ |- _ => destruct H'
  | H' : False |- _ => destruct H'
  | H' : mkEvent _ _ = mkEvent _ _ |- _ =>
      first [ discriminate H' | injection H' as ?; subst ]
  end.

Lemma SyncRun_add_failed dir msg auto l b ad :
  SyncRun dir msg auto l b ->
  In (mkEvent (add_call dir) ad) l ->
  code_of ad <> 0 ->
  b = false /\ exists st, l = [mkEvent (status_call dir) st; mkEvent (add_call dir) ad].
Proof.
  intros Hrun Hin Hcode.
  sync_paths Hrun; sync_member Hin; try congruence.
  split; [reflexivity |]. eexists. reflexivity.
Qed.

(** X7: When staging fails the sync fails, and nothing is started after the
    staging: no commit, no fetch, no push. *)
Theorem sync_stops_when_staging_fails :
  forall env dir name msg auto w ad,
    In (mkEvent (add_call dir) ad)
       (new_events (git_commit_push env dir name msg auto) w) ->
    code_of ad <> 0 ->
    result_of (git_commit_push env dir name msg auto) w = Val false
    /\ exists st,
         new_events (git_commit_push env dir name msg auto) w
           = [mkEvent (status_call dir) st; mkEvent (add_call dir) ad].
Proof.
  intros env dir name msg auto w ad Hin Hcode.
  destruct (git_commit_push_run env dir name msg auto w)
    as [(_ & Hnil & _) | (_ & b & Hr & Hrun)].
  - rewrite Hnil in Hin. destruct Hin.
  - rewrite Hr.
    destruct (SyncRun_add_failed _ _ _ _ _ ad Hrun Hin Hcode) as (-> & st & Hl).
    split; [reflexivity |]. exists st. exact Hl.
Qed.

Lemma sync_stops_when_staging_fails_witness :
  result_of (git_commit_push Examples.env_add_fails Examples.repo "rs-client"
               "build: auto commit" true) Examples.world0 = Val false
  /\ exists st,
       new_events (git_commit_push Examples.env_add_fails Examples.repo
                     "rs-client" "build: auto commit" true) Examples.world0
         = [mkEvent (status_call Examples.repo) st;
            mkEvent (add_call Examples.repo)
                    (128, "", "fatal: Unable to create index.lock")].
Proof.
  apply (sync_stops_when_staging_fails Examples.env_add_fails Examples.repo
           "rs-client" "build: auto commit" true Examples.world0
           (128, "", "fatal: Unable to create index.lock")).
  - vm_compute. tauto.
  - vm_compute. discriminate.
Defined.

Lemma SyncRun_pull_failed dir msg auto l b pl :
  SyncRun dir msg auto l b ->
  In (mkEvent (pull_call dir) pl) l ->
  code_of pl <> 0 ->
  b = false
  /\ (exists earlier, l = (earlier ++ [mkEvent (pull_call dir) pl])%list)
  /\ forall pu, ~ In (mkEvent (push_call dir) pu) l.
Proof.
  intros Hrun Hin Hcode.
  sync_paths Hrun; sync_member Hin; try congruence.
  split; [reflexivity |]. split.
  - exists [mkEvent (status_call dir) st; mkEvent (add_call dir) ad;
            mkEvent (commit_call dir msg) cm; mkEvent (fetch_call dir) fe;
            mkEvent (rev_list_call dir) rl].
    reflexivity.
  - intros pu Hpu. sync_member Hpu.
Qed.

(** X9: When the rebase-pull of a sync fails the sync fails, the pull is the
    last process it started and no push is attempted. *)
Theorem sync_never_pushes_after_failed_pull :
  forall env dir name msg auto w pl,
    In (mkEvent (pull_call dir) pl)
       (new_events (git_commit_push env dir name msg auto) w) ->
    code_of pl <> 0 ->
    result_of (git_commit_push env dir name msg auto) w = Val false
    /\ (exists earlier,
          new_events (git_commit_push env dir name msg auto) w
            = (earlier ++ [mkEvent (pull_call dir) pl])%list)
    /\ forall pu,
         ~ In (mkEvent (push_call dir) pu)
              (new_events (git_commit_push env dir name msg auto) w).
Proof.
  intros env dir name msg auto w pl Hin Hcode.
  destruct (git_commit_push_run env dir name msg auto w)
    as [(_ & Hnil & _) | (_ & b & Hr & Hrun)].
  - rewrite Hnil in Hin. destruct Hin.
  - rewrite Hr.
    destruct (SyncRun_pull_failed _ _ _ _ _ pl Hrun Hin Hcode) as (-> & Hl & Hpu).
    auto.
Qed.

Lemma sync_never_pushes_after_failed_pull_witness :
  result_of (git_commit_push Examples.env_pull_conflict Examples.repo "rs-client"
               "build: auto commit" true) Examples.world0 = Val false
  /\ (exists earlier,
        new_events (git_commit_push Examples.env_pull_conflict Examples.repo
                      "rs-client" "build: auto commit" true) Examples.world0
          = (earlier ++ [mkEvent (pull_call Examples.repo)
                           (1, "", "CONFLICT (content): src/main.rs")])%list)
  /\ forall pu,
       ~ In (mkEvent (push_call Examples.repo) pu)
            (new_events (git_commit_push Examples.env_pull_conflict Examples.repo
                           "rs-client" "build: auto commit" true) Examples.world0).
Proof.
  apply (sync_never_pushes_after_failed_pull Examples.env_pull_conflict
           Examples.repo "rs-client" "build: auto commit" true Examples.world0
           (1, "", "CONFLICT (content): src/main.rs")).
  - vm_compute. tauto.
  - vm_compute. discriminate.
Defined.

Lemma reports_changes_true st :
  reports_changes st = true -> code_of st = 0 /\ stdout_of st <> "".
Proof.
  intros H. unfold reports_changes in H.
  apply andb_prop in H. destruct H as (Hc & Hl).
  apply Z.eqb_eq in Hc. split; [exact Hc |].
  intros E. rewrite E in Hl. discriminate Hl.
Qed.

Lemma SyncRun_pushed dir msg auto l b pu :
  SyncRun dir msg auto l b ->
  In (mkEvent (push_call dir) pu) l ->
  b = (code_of pu =? 0)
  /\ exists st ad cm between,
       l = ([mkEvent (status_call dir) st; mkEvent (add_call dir) ad;
             mkEvent (commit_call dir msg) cm]
            ++ between ++ [mkEvent (push_call dir) pu])%list
       /\ code_of st = 0 /\ stdout_of st <> ""
       /\ code_of ad = 0 /\ code_of cm = 0.
Proof.
  intros Hrun Hin.
  sync_paths Hrun; sync_member Hin; try congruence;
    (split; [reflexivity |]);
    match goal with
    | Hc : reports_changes ?st = true |- _ =>
        destruct (reports_changes_true st Hc) as (Hc0 & Hout)
    end.
  - exists st, ad, cm,
      [mkEvent (fetch_call dir) fe; mkEvent (rev_list_call dir) rl;
       mkEvent (pull_call dir) pl].
    repeat split; assumption.
  - exists st, ad, cm, []. repeat split; assumption.
  - exists st, ad, cm,
      [mkEvent (fetch_call dir) fe; mkEvent (rev_list_call dir) rl].
    repeat split; assumption.
Qed.

(** X10: A sync pushes only after a status query that reported changes, a
    staging that exited 0 and a commit that exited 0; the push is the
    last process it starts, and the sync succeeds exactly when the push
    exits 0. *)
Theorem sync_pushes_last_after_commit :
  forall env dir name msg auto w pu,
    In (mkEvent (push_call dir) pu)
       (new_events (git_commit_push env dir name msg auto) w) ->
    result_of (git_commit_push env dir name msg auto) w
      = Val (code_of pu =? 0)
    /\ exists st ad cm between,
         new_events (git_commit_push env dir name msg auto) w
           = ([mkEvent (status_call dir) st; mkEvent (add_call dir) ad;
               mkEvent (commit_call dir msg) cm]
              ++ between ++ [mkEvent (push_call dir) pu])%list
         /\ code_of st = 0 /\ stdout_of st <> ""
         /\ code_of ad = 0 /\ code_of cm = 0.
Proof.
  intros env dir name msg auto w pu Hin.
  destruct (git_commit_push_run env dir name msg auto w)
    as [(_ & Hnil & _) | (_ & b & Hr & Hrun)].
  - rewrite Hnil in Hin. destruct Hin.
  - rewrite Hr.
    destruct (SyncRun_pushed _ _ _ _ _ pu Hrun Hin) as (-> & H).
    split; [reflexivity | exact H].
Qed.

Lemma sync_pushes_last_after_commit_witness :
  result_of (git_commit_push Examples.env_push_rejected Examples.repo "rs-client"
               "build: auto commit" true) Examples.world0
    = Val (code_of (1, "", "! [rejected] master -> master (fetch first)") =? 0)
  /\ exists st ad cm between,
       new_events (git_commit_push Examples.env_push_rejected Examples.repo
                     "rs-client" "build: auto commit" true) Examples.world0
         = ([mkEvent (status_call Examples.repo) st;
             mkEvent (add_call Examples.repo) ad;
             mkEvent (commit_call Examples.repo "build: auto commit") cm]
            ++ between
            ++ [mkEvent (push_call Examples.repo)
                  (1, "", "! [rejected] master -> master (fetch first)")])%list
       /\ code_of st = 0 /\ stdout_of st <> ""
       /\ code_of ad = 0 /\ code_of cm = 0.
Proof.
  apply (sync_pushes_last_after_commit Examples.env_push_rejected Examples.repo
           "rs-client" "build: auto commit" true Examples.world0
           (1, "", "! [rejected] master -> master (fetch first)")).
  vm_compute. tauto.
Defined.

(** X11: A sync called without [auto_pull] never looks at the remote before
    pushing: it starts nothing but the status query, the staging, the
    commit and the push. *)
Theorem sync_without_auto_pull_never_fetches :
  forall env dir name msg w,
    Forall (fun e => In (ev_call e)
                        [status_call dir; add_call dir; commit_call dir msg;
                         push_call dir])
           (new_events (git_commit_push env dir name msg false) w).
Proof.
  intros env dir name msg w.
  destruct (git_commit_push_run env dir name msg false w)
    as [(_ & Hnil & _) | (_ & b & Hr & Hrun)].
  - rewrite Hnil. constructor.
  - sync_paths Hrun; cbn [app];
      repeat (apply Forall_cons; [cbn [ev_call In]; tauto |]);
      apply Forall_nil.
Qed.





(** *** How long a sync can take *)


Section SyncTime.

Variable env : Env.




End SyncTime.


(** *** What the status query is taken to say *)







(** Step up to the next child process. *)
Ltac wp_upto_run :=
  wp_norm;
  repeat lazymatch goal with
         | |- wp (run_cmd _ _ _ _ _) _ _ => fail
         | |- wp (run_cmd_live _ _ _) _ _ => fail
         | _ => wp_step
         end.



(** ** More about the pre-flight checks *)

Ltac code_side :=
  cbn [code_of fst snd];
  first [ assumption
        | apply Z.eqb_eq; assumption
        | apply Z.eqb_neq; assumption ].

Section PreflightRuns.

Variable env : Env.

Lemma check_gh_installed_run w :
  DRY_RUN w = false ->
  wp (check_gh_installed env)
     (fun r w' => exists l dt, Effect w w' l dt /\ GhCheck l r) w.
Proof.
  intros Hd. unfold check_gh_installed. wp_go;
    (eexists _, _; split; [effect_solve |]).
  - apply (Gh_ready (z, s, s0) (z0, s1, s2)); code_side.
  - apply (Gh_logged_out (z, s, s0) (z0, s1, s2)); code_side.
  - apply (Gh_missing (z, s, s0)); code_side.
Qed.




End PreflightRuns.

(** X2: The check of [gh] asks for the version first and stops there, with
    exit status 1, when that fails: the login is only queried after a
    version query that exited 0, and decides the check. *)
Theorem gh_check_stops_at_first_failure :
  forall env w,
    DRY_RUN w = false ->
    let m := check_gh_installed env in
    exists v,
      (code_of v <> 0 /\
       new_events m w = [mkEvent gh_version_call v] /\
       result_of m w = Raise (SystemExit 1))
      \/
      (code_of v = 0 /\
       exists a,
         new_events m w = [mkEvent gh_version_call v; mkEvent gh_auth_call a] /\
         result_of m w
           = if code_of a =? 0 then Val tt else Raise (SystemExit 1)).
Proof.
  intros env w Hd m.
  destruct (wp_elim _ _ _ (check_gh_installed_run env w Hd))
    as (l & dt & Heff & Hrun).
  pose proof (new_events_eq _ _ _ (eff_events _ _ _ _ Heff)) as Hev.
  fold m in Hev, Hrun. rewrite Hev.
  inversion Hrun as [v Hv | v a Hv Ha | v a Hv Ha]; subst; exists v.
  - left. auto.
  - right. split; [exact Hv |]. exists a. split; [reflexivity |].
    apply Z.eqb_neq in Ha. rewrite Ha. reflexivity.
  - right. split; [exact Hv |]. exists a. split; [reflexivity |].
    apply Z.eqb_eq in Ha. rewrite Ha. reflexivity.
Qed.

Lemma gh_check_stops_at_first_failure_witness :
  let m := check_gh_installed Examples.env_logged_out in
  exists v,
    (code_of v <> 0 /\
     new_events m Examples.world0 = [mkEvent gh_version_call v] /\
     result_of m Examples.world0 = Raise (SystemExit 1))
    \/
    (code_of v = 0 /\
     exists a,
       new_events m Examples.world0
         = [mkEvent gh_version_call v; mkEvent gh_auth_call a] /\
       result_of m Examples.world0
         = if code_of a =? 0 then Val tt else Raise (SystemExit 1)).
Proof.
  apply (gh_check_stops_at_first_failure Examples.env_logged_out Examples.world0).
  reflexivity.
Defined.



(** ** The status and failure reports, in earnest *)

Lemma GhCheck_outcome l r :
  GhCheck l r -> r = Val tt \/ r = Raise (SystemExit 1).
Proof. intros [v Hv | v a Hv Ha | v a Hv Ha]; auto. Qed.

Section Reports.

Variable env : Env.

(** Every real run of [watch] follows one of the paths of [WatchRun]. *)
Lemma cmd_watch_run args w :
  DRY_RUN w = false ->
  wp (cmd_watch env args)
     (fun r w' => DRY_RUN w' = false /\
                  exists l, events w' = (events w ++ l)%list /\
                            WatchRun env args l r) w.
Proof.
  intros Hd. unfold cmd_watch. wp_go.
  wp_use check_gh_installed_run.
  intros r w1 (pre & dt & Heff & Hgh). effect_open.
  destruct (GhCheck_outcome _ _ Hgh) as [-> | ->]; wp_norm.
  2: { split; [congruence |]. exists pre. split; [exact E |].
       apply Watch_stopped. exact Hgh. }
  rename Hgh into Hpre.
  wp_go; (split; [reflexivity |]); eexists;
    (split; [world_rewrite; rewrite <- ?app_assoc; reflexivity |]).
  - apply (Watch_followed env args _ (z, s, s0) (z0, s1, s2) Hpre); code_side.
  - apply (Watch_listed env args _ (z, s, s0) Hpre); [code_side | right; code_side].
  - apply (Watch_listed env args _ (z, s, s0) Hpre); [code_side | left; code_side].
  - apply (Watch_query_failed env args _ (z, s, s0) Hpre); code_side.
Qed.

(** Every real run of [fail] follows one of the paths of [FailRun]. *)
Lemma cmd_fail_run args w :
  DRY_RUN w = false ->
  wp (cmd_fail env args)
     (fun r w' => DRY_RUN w' = false /\
                  exists l, events w' = (events w ++ l)%list /\
                            FailRun env l r) w.
Proof.
  intros Hd. unfold cmd_fail. wp_go.
  wp_use check_gh_installed_run.
  intros r w1 (pre & dt & Heff & Hgh). effect_open.
  destruct (GhCheck_outcome _ _ Hgh) as [-> | ->]; wp_norm.
  2: { split; [congruence |]. exists pre. split; [exact E |].
       apply Fail_stopped. exact Hgh. }
  rename Hgh into Hpre.
  wp_go; (split; [reflexivity |]); eexists;
    (split; [world_rewrite; rewrite <- ?app_assoc; reflexivity |]).
  all: first
    [ eapply (Fail_logged env _ (z, s, s0) _ _ _ _ _ Hpre);
      [ code_side | cbn [stdout_of fst snd]; eassumption | eassumption
      | unfold failing_run; rewrite_tests; reflexivity ]
    | eapply (Fail_ill_shaped env _ (z, s, s0) _ _ Hpre);
      [ code_side | cbn [stdout_of fst snd]; eassumption | eassumption
      | unfold failing_run; rewrite_tests; reflexivity ]
    | eapply (Fail_none env _ (z, s, s0) _ Hpre);
      [ code_side | cbn [stdout_of fst snd]; eassumption | eassumption ]
    | eapply (Fail_undecodable env _ (z, s, s0) Hpre);
      [ code_side | cbn [stdout_of fst snd]; eassumption ]
    | eapply (Fail_query_failed env _ (z, s, s0) Hpre); code_side ].
Qed.

End Reports.

(** A command that checks [gh] first is simulated and starts nothing, or
    follows its relation. *)
Lemma cmd_watch_cases env args w :
  let m := cmd_watch env args in
  (DRY_RUN w = true /\ new_events m w = [] /\ result_of m w = Val 0)
  \/ (DRY_RUN w = false /\ WatchRun env args (new_events m w) (result_of m w)).
Proof.
  intros m. destruct (DRY_RUN w) eqn:Hd.
  - left. split; [reflexivity |].
    destruct (wp_elim _ _ _ (cmd_watch_dry env args w Hd)) as (Hr & Hs).
    split; [| exact Hr].
    apply new_events_eq. rewrite app_nil_r. apply (sim_events _ _ Hs).
  - right. split; [reflexivity |].
    destruct (wp_elim _ _ _ (cmd_watch_run env args w Hd)) as (_ & l & He & Hrun).
    unfold m. rewrite (new_events_eq _ _ _ He). exact Hrun.
Qed.

Lemma cmd_fail_cases env args w :
  let m := cmd_fail env args in
  (DRY_RUN w = true /\ new_events m w = [])
  \/ (DRY_RUN w = false /\ FailRun env (new_events m w) (result_of m w)).
Proof.
  intros m. destruct (DRY_RUN w) eqn:Hd.
  - left. split; [reflexivity |].
    pose proof (wp_elim _ _ _ (cmd_fail_dry env args w Hd)) as Hs.
    apply new_events_eq. rewrite app_nil_r. apply (sim_events _ _ Hs).
  - right. split; [reflexivity |].
    destruct (wp_elim _ _ _ (cmd_fail_run env args w Hd)) as (_ & l & He & Hrun).
    unfold m. rewrite (new_events_eq _ _ _ He). exact Hrun.
Qed.

Ltac gh_paths :=
  repeat match goal with
  | H : GhCheck _ _ |- _ => inversion H; subst; clear H
  end.

Lemma truthy_str_text s : Py.truthy_str s = true -> s <> "".
Proof. destruct s; [discriminate | discriminate]. Qed.

Lemma WatchRun_attached env args l r lv :
  WatchRun env args l r ->
  In (mkEvent (watch_live_call env) lv) l ->
  follow args = true
  /\ r = Val (code_of lv)
  /\ exists v a ls,
       l = [mkEvent gh_version_call v; mkEvent gh_auth_call a;
            mkEvent (watch_list_call env) ls; mkEvent (watch_live_call env) lv]
       /\ code_of ls = 0 /\ stdout_of ls <> "".
Proof.
  intros Hrun Hin.
  inversion Hrun; subst; clear Hrun; gh_paths; sync_member Hin.
  split; [assumption |]. split; [reflexivity |].
  eexists _, _, _. split; [reflexivity |].
  split; [assumption | apply truthy_str_text; assumption].
Qed.

Lemma WatchRun_listed_only env args l r ls :
  WatchRun env args l r ->
  In (mkEvent (watch_list_call env) ls) l ->
  code_of ls <> 0 \/ stdout_of ls = "" \/ follow args = false ->
  r = Val (if code_of ls =? 0 then 0 else 1)
  /\ exists v a,
       l = [mkEvent gh_version_call v; mkEvent gh_auth_call a;
            mkEvent (watch_list_call env) ls].
Proof.
  intros Hrun Hin Hwhy.
  inversion Hrun; subst; clear Hrun; gh_paths; sync_member Hin.
  all: try solve [exfalso; congruence].
  all: try solve
         [ exfalso;
           match goal with
           | H : Py.truthy_str (stdout_of ?x) = true, Hs : stdout_of ?x = "" |- _ =>
               rewrite Hs in H; discriminate H
           end ].
  all: split; [| eexists _, _; reflexivity].
  all: first
         [ match goal with
           | H : code_of _ <> 0 |- _ => apply Z.eqb_neq in H; rewrite H
           end
         | match goal with
           | H : code_of _ = 0 |- _ => rewrite H
           end ];
       reflexivity.
Qed.

(** X25: [watch] attaches to the latest run only with [--follow], after a
    listing that exited 0 and printed something; the live watch is then the
    last process, and the command returns its exit status. *)
Theorem watch_follow_returns_live_status :
  forall env args w lv,
    In (mkEvent (watch_live_call env) lv) (new_events (cmd_watch env args) w) ->
    follow args = true
    /\ result_of (cmd_watch env args) w = Val (code_of lv)
    /\ exists v a ls,
         new_events (cmd_watch env args) w
           = [mkEvent gh_version_call v; mkEvent gh_auth_call a;
              mkEvent (watch_list_call env) ls;
              mkEvent (watch_live_call env) lv]
         /\ code_of ls = 0 /\ stdout_of ls <> "".
Proof.
  intros env args w lv Hin.
  destruct (cmd_watch_cases env args w) as [(_ & Hnil & _) | (_ & Hrun)].
  - rewrite Hnil in Hin. destruct Hin.
  - exact (WatchRun_attached env args _ _ lv Hrun Hin).
Qed.

Lemma watch_follow_returns_live_status_witness :
  true = true
  /\ result_of (cmd_watch Examples.env_watching Examples.follow_args)
       Examples.world0 = Val (code_of (3, "", ""))
  /\ exists v a ls,
       new_events (cmd_watch Examples.env_watching Examples.follow_args)
         Examples.world0
         = [mkEvent gh_version_call v; mkEvent gh_auth_call a;
            mkEvent (watch_list_call Examples.env_watching) ls;
            mkEvent (watch_live_call Examples.env_watching) (3, "", "")]
       /\ code_of ls = 0 /\ stdout_of ls <> "".
Proof.
  apply (watch_follow_returns_live_status Examples.env_watching
           Examples.follow_args Examples.world0 (3, "", "")).
  vm_compute. tauto.
Defined.

(** X26: When the listing of [watch] fails, prints nothing, or [--follow] is
    not given, the listing is the last process of the command: it returns
    1 for a listing that exited non-zero and 0 otherwise, and never
    attaches to a run. *)
Theorem watch_lists_without_attaching :
  forall env args w ls,
    In (mkEvent (watch_list_call env) ls) (new_events (cmd_watch env args) w) ->
    code_of ls <> 0 \/ stdout_of ls = "" \/ follow args = false ->
    result_of (cmd_watch env args) w = Val (if code_of ls =? 0 then 0 else 1)
    /\ exists v a,
         new_events (cmd_watch env args) w
           = [mkEvent gh_version_call v; mkEvent gh_auth_call a;
              mkEvent (watch_list_call env) ls].
Proof.
  intros env args w ls Hin Hwhy.
  destruct (cmd_watch_cases env args w) as [(_ & Hnil & _) | (_ & Hrun)].
  - rewrite Hnil in Hin. destruct Hin.
  - exact (WatchRun_listed_only env args _ _ ls Hrun Hin Hwhy).
Qed.

Lemma watch_lists_without_attaching_witness :
  result_of (cmd_watch Examples.env_quiet Examples.follow_args) Examples.world0
    = Val (if code_of (0, "", "") =? 0 then 0 else 1)
  /\ exists v a,
       new_events (cmd_watch Examples.env_quiet Examples.follow_args)
         Examples.world0
         = [mkEvent gh_version_call v; mkEvent gh_auth_call a;
            mkEvent (watch_list_call Examples.env_quiet) (0, "", "")].
Proof.
  apply (watch_lists_without_attaching Examples.env_quiet Examples.follow_args
           Examples.world0 (0, "", "")).
  - vm_compute. tauto.
  - right. left. reflexivity.
Defined.

(** What a run of [fail] that made its listing did, by what the listing
    said. *)
Lemma FailRun_listing env l r res :
  FailRun env l r ->
  In (mkEvent (failed_list_call env) res) l ->
  exists v a rest,
    l = (mkEvent gh_version_call v :: mkEvent gh_auth_call a
         :: mkEvent (failed_list_call env) res :: rest)
    /\ if code_of res =? 0
       then match json_loads env (stdout_of res) with
            | None => r = Val 1 /\ rest = []
            | Some runs =>
                if truthy runs
                then match failing_run runs with
                     | inl e => r = Raise e /\ rest = []
                     | inr (run_id, _, _) =>
                         exists lg,
                           rest = [mkEvent (log_failed_call env (py_str env run_id)) lg]
                           /\ r = Val (code_of lg)
                     end
                else r = Val 0 /\ rest = []
            end
       else r = Val 1 /\ rest = [].
Proof.
  intros Hrun Hin.
  inversion Hrun; subst; clear Hrun; gh_paths; sync_member Hin;
    eexists _, _, _; (split; [reflexivity |]);
    repeat match goal with
    | H : code_of _ = 0 |- _ => apply Z.eqb_eq in H
    | H : code_of _ <> 0 |- _ => apply Z.eqb_neq in H
    end;
    repeat match goal with
    | H : _ = _ |- _ => rewrite H
    end;
    try (split; reflexivity).
  eexists. split; reflexivity.
Qed.

Lemma fail_listing env args w res :
  In (mkEvent (failed_list_call env) res) (new_events (cmd_fail env args) w) ->
  FailRun env (new_events (cmd_fail env args) w) (result_of (cmd_fail env args) w).
Proof.
  intros Hin.
  destruct (cmd_fail_cases env args w) as [(_ & Hnil) | (_ & Hrun)].
  - rewrite Hnil in Hin. destruct Hin.
  - exact Hrun.
Qed.

(** X27: When the listing of failing runs exits non-zero, or prints what
    does not decode as JSON, [fail] returns 1 and fetches no log: the
    listing is the last process it started. *)
Theorem fail_stops_on_unusable_listing :
  forall env args w res,
    In (mkEvent (failed_list_call env) res) (new_events (cmd_fail env args) w) ->
    code_of res <> 0 \/ json_loads env (stdout_of res) = None ->
    result_of (cmd_fail env args) w = Val 1
    /\ exists v a,
         new_events (cmd_fail env args) w
           = [mkEvent gh_version_call v; mkEvent gh_auth_call a;
              mkEvent (failed_list_call env) res].
Proof.
  intros env args w res Hin Hwhy.
  destruct (FailRun_listing env _ _ res (fail_listing env args w res Hin) Hin)
    as (v & a & rest & Hl & H).
  rewrite Hl.
  assert (Hr : result_of (cmd_fail env args) w = Val 1 /\ rest = []).
  { destruct (code_of res =? 0) eqn:Hc; [| exact H].
    destruct Hwhy as [Hne | Hj].
    - apply Z.eqb_eq in Hc. congruence.
    - rewrite Hj in H. exact H. }
  destruct Hr as (Hr & ->). split; [exact Hr |]. exists v, a. reflexivity.
Qed.

Lemma fail_stops_on_unusable_listing_witness :
  result_of (cmd_fail Examples.env_garbled Examples.plain_args) Examples.world0
    = Val 1
  /\ exists v a,
       new_events (cmd_fail Examples.env_garbled Examples.plain_args)
         Examples.world0
         = [mkEvent gh_version_call v; mkEvent gh_auth_call a;
            mkEvent (failed_list_call Examples.env_garbled) (0, "Not Found", "")].
Proof.
  apply (fail_stops_on_unusable_listing Examples.env_garbled Examples.plain_args
           Examples.world0 (0, "Not Found", "")).
  - vm_compute. tauto.
  - right. reflexivity.
Defined.

(** X28: When the listing of failing runs shows a run with its id, title and
    creation time, [fail] starts exactly one more process, the view of the
    failed log of that run, named by the text of its [databaseId], and
    returns the exit status of that view. *)
Theorem fail_views_log_of_first_run :
  forall env args w res runs run run_id title created,
    In (mkEvent (failed_list_call env) res) (new_events (cmd_fail env args) w) ->
    code_of res = 0 ->
    json_loads env (stdout_of res) = Some runs ->
    truthy runs = true ->
    getitem_int runs 0 = inr run ->
    getitem_key run "databaseId" = inr run_id ->
    getitem_key run "displayTitle" = inr title ->
    getitem_key run "createdAt" = inr created ->
    exists v a lg,
      new_events (cmd_fail env args) w
        = [mkEvent gh_version_call v; mkEvent gh_auth_call a;
           mkEvent (failed_list_call env) res;
           mkEvent (log_failed_call env (py_str env run_id)) lg]
      /\ cmd (log_failed_call env (py_str env run_id))
         = ["gh"; "run"; "view"; py_str env run_id;
            "-R"; "Jiang1756/rs-client"; "--log-failed"]
      /\ result_of (cmd_fail env args) w = Val (code_of lg).
Proof.
  intros env args w res runs run run_id title created Hin Hc Hj Ht H0 H1 H2 H3.
  destruct (FailRun_listing env _ _ res (fail_listing env args w res Hin) Hin)
    as (v & a & rest & Hl & H).
  rewrite Hl. apply Z.eqb_eq in Hc. rewrite Hc, Hj, Ht in H.
  unfold failing_run in H. rewrite H0, H1, H2, H3 in H.
  destruct H as (lg & -> & Hr).
  exists v, a, lg. split; [reflexivity |]. split; [reflexivity | exact Hr].
Qed.

Lemma fail_views_log_of_first_run_witness :
  exists v a lg,
    new_events (cmd_fail Examples.env_failed_run Examples.plain_args)
      Examples.world0
      = [mkEvent gh_version_call v; mkEvent gh_auth_call a;
         mkEvent (failed_list_call Examples.env_failed_run)
                 (0, Examples.run_7_text, "");
         mkEvent (log_failed_call Examples.env_failed_run
                    (py_str Examples.env_failed_run (JInt 7))) lg]
    /\ cmd (log_failed_call Examples.env_failed_run
              (py_str Examples.env_failed_run (JInt 7)))
       = ["gh"; "run"; "view"; py_str Examples.env_failed_run (JInt 7);
          "-R"; "Jiang1756/rs-client"; "--log-failed"]
    /\ result_of (cmd_fail Examples.env_failed_run Examples.plain_args)
         Examples.world0 = Val (code_of lg).
Proof.
  apply (fail_views_log_of_first_run Examples.env_failed_run Examples.plain_args
           Examples.world0 (0, Examples.run_7_text, "") Examples.run_7
           (JObj [("conclusion", JStr "failure");
                  ("createdAt", JStr "2026-11-02T09:30:00Z");
                  ("databaseId", JInt 7);
                  ("displayTitle", JStr "build: auto commit 20261102-093000")])
           (JInt 7) (JStr "build: auto commit 20261102-093000")
           (JStr "2026-11-02T09:30:00Z")).
  - vm_compute. tauto.
  - reflexivity.
  - reflexivity.
  - reflexivity.
  - reflexivity.
  - reflexivity.
  - reflexivity.
  - reflexivity.
Defined.

Lemma failing_run_missing_field runs kv :
  getitem_int runs 0 = inr (JObj kv) ->
  assoc "databaseId" kv = None \/ assoc "displayTitle" kv = None
  \/ assoc "createdAt" kv = None ->
  exists key,
    In key ["databaseId"; "displayTitle"; "createdAt"]
    /\ assoc key kv = None
    /\ failing_run runs = inl (KeyError key).
Proof.
  intros H0 Hmiss. unfold failing_run, getitem_key. rewrite H0.
  destruct (assoc "databaseId" kv) eqn:Hid.
  2: { exists "databaseId". simpl. auto. }
  destruct (assoc "displayTitle" kv) eqn:Htitle.
  2: { exists "displayTitle". simpl. auto. }
  destruct (assoc "createdAt" kv) eqn:Hcreated.
  2: { exists "createdAt". simpl. auto. }
  destruct Hmiss as [H | [H | H]]; discriminate H.
Qed.

(** X29: When the first run of the listing of failing runs lacks one of the
    fields [databaseId], [displayTitle] and [createdAt], [fail] ends with
    a [KeyError] for a missing field, which nothing catches, and fetches no
    log. *)
Theorem fail_raises_on_missing_field :
  forall env args w res runs kv,
    In (mkEvent (failed_list_call env) res) (new_events (cmd_fail env args) w) ->
    code_of res = 0 ->
    json_loads env (stdout_of res) = Some runs ->
    truthy runs = true ->
    getitem_int runs 0 = inr (JObj kv) ->
    assoc "databaseId" kv = None \/ assoc "displayTitle" kv = None
    \/ assoc "createdAt" kv = None ->
    (exists key,
       In key ["databaseId"; "displayTitle"; "createdAt"]
       /\ assoc key kv = None
       /\ result_of (cmd_fail env args) w = Raise (KeyError key))
    /\ exists v a,
         new_events (cmd_fail env args) w
           = [mkEvent gh_version_call v; mkEvent gh_auth_call a;
              mkEvent (failed_list_call env) res].
Proof.
  intros env args w res runs kv Hin Hc Hj Ht H0 Hmiss.
  destruct (FailRun_listing env _ _ res (fail_listing env args w res Hin) Hin)
    as (v & a & rest & Hl & H).
  rewrite Hl. apply Z.eqb_eq in Hc. rewrite Hc, Hj, Ht in H.
  destruct (failing_run_missing_field runs kv H0 Hmiss) as (key & Hk & Hnone & Hf).
  rewrite Hf in H. destruct H as (Hr & ->).
  split; [exists key; auto | exists v, a; reflexivity].
Qed.

Lemma fail_raises_on_missing_field_witness :
  (exists key,
     In key ["databaseId"; "displayTitle"; "createdAt"]
     /\ assoc key [] = None
     /\ result_of (cmd_fail Examples.env_bare_run Examples.plain_args)
          Examples.world0 = Raise (KeyError key))
  /\ exists v a,
       new_events (cmd_fail Examples.env_bare_run Examples.plain_args)
         Examples.world0
         = [mkEvent gh_version_call v; mkEvent gh_auth_call a;
            mkEvent (failed_list_call Examples.env_bare_run) (0, "[{}]", "")].
Proof.
  apply (fail_raises_on_missing_field Examples.env_bare_run Examples.plain_args
           Examples.world0 (0, "[{}]", "") (JArr [JObj []]) []).
  - vm_compute. tauto.
  - reflexivity.
  - reflexivity.
  - reflexivity.
  - reflexivity.
  - left. reflexivity.
Defined.

(** ** More about the build *)

Lemma getitem_int_not_exit v i c : getitem_int v i <> inl (SystemExit c).
Proof.
  unfold getitem_int. destruct v; try discriminate.
  - destruct (_ && _); [| discriminate]. discriminate.
  - destruct (_ && _); [| discriminate].
    destruct (nth_error _ _); discriminate.
Qed.

Lemma getitem_key_not_exit v k c : getitem_key v k <> inl (SystemExit c).
Proof.
  unfold getitem_key. destruct v; try discriminate.
  destruct (assoc k kv); discriminate.
Qed.

(** The indexing of a listing never raises [SystemExit]. *)
Lemma qualifying_run_not_exit env res c :
  qualifying_run env res <> inl (SystemExit c).
Proof.
  unfold qualifying_run.
  destruct (_ && _); [| discriminate].
  destruct (json_loads env (stdout_of res)) as [runs |]; [| discriminate].
  destruct (truthy runs); [| discriminate].
  destruct (getitem_int runs 0) as [e | run0] eqn:H0.
  - intros H. injection H as ->. exact (getitem_int_not_exit _ _ _ H0).
  - destruct (getitem_key run0 "status") as [e | st] eqn:H1.
    + intros H. injection H as ->. exact (getitem_key_not_exit _ _ _ H1).
    + destruct (is_in st _); [| discriminate].
      destruct (getitem_key run0 "databaseId") as [e | id] eqn:H2; [| discriminate].
      intros H. injection H as ->. exact (getitem_key_not_exit _ _ _ H2).
Qed.

Lemma WaitRun_not_exit env polls r c :
  WaitRun env polls r -> r <> Raise (SystemExit c).
Proof.
  intros [l Hl | l res id Hl Hid | l res e Hl He]; try discriminate.
  intros H. injection H as ->. exact (qualifying_run_not_exit _ _ _ He).
Qed.

(** A build is simulated and starts nothing, or follows [BuildRun]. *)
Lemma cmd_build_cases env args w :
  let m := cmd_build env args in
  (dry_run args = true /\ new_events m w = [] /\
   (result_of m w = Val 0 \/ result_of m w = Raise (SystemExit 1)))
  \/ (dry_run args = false /\
      BuildRun env args (clock w) (clock (world_after m w))
               (new_events m w) (result_of m w)).
Proof.
  intros m. destruct (dry_run args) eqn:Ha.
  - left. split; [reflexivity |].
    destruct (wp_elim _ _ _ (cmd_build_dry env args w Ha)) as (Hr & Hs).
    split; [| exact Hr].
    apply new_events_eq. rewrite app_nil_r. apply (sim_events _ _ Hs).
  - right. split; [reflexivity |].
    destruct (wp_elim _ _ _ (cmd_build_real env args w Ha)) as (l & He & _ & Hrun).
    unfold m. rewrite (new_events_eq _ _ _ He). exact Hrun.
Qed.

Lemma push_phase_no_trigger env pre tag tr :
  Forall (is_push_phase env) pre ->
  ~ In (mkEvent (trigger_call env tag) tr) pre.
Proof.
  intros Hp Hi. rewrite Forall_forall in Hp.
  exact (push_phase_not_trigger_call env _ tag (Hp _ Hi) eq_refl).
Qed.

Lemma polls_no_trigger env polls r tag tr :
  WaitRun env polls r ->
  ~ In (mkEvent (trigger_call env tag) tr) polls.
Proof.
  intros Hw Hi. pose proof (WaitRun_calls env _ _ Hw) as Hcalls.
  rewrite Forall_forall in Hcalls. specialize (Hcalls _ Hi).
  discriminate Hcalls.
Qed.

(** Where the trigger call of a build sits, and what follows it. *)
Lemma BuildRun_trigger env args t0 t1 l r tag tr :
  BuildRun env args t0 t1 l r ->
  In (mkEvent (trigger_call env tag) tr) l ->
  exists pre polls,
    l = (pre ++ [mkEvent (trigger_call env tag) tr] ++ polls)%list
    /\ Forall (is_push_phase env) pre
    /\ ((code_of tr <> 0 /\ polls = [] /\ r = Val 1)
        \/ (code_of tr = 0 /\
            exists wr, WaitRun env polls wr /\
                       r = match wr with
                           | Val _ => Val 0
                           | Raise e => Raise e
                           end)).
Proof.
  intros Hrun Hin.
  inversion Hrun as [pre r0 Hp Hr | pre t tr0 Hp Ht Hc | pre t tr0 polls r0 Hp Ht Hc Hw];
    subst.
  - exfalso. eapply push_phase_no_trigger; eassumption.
  - apply in_app_or in Hin. destruct Hin as [Hi | [Hi | []]].
    + exfalso. exact (push_phase_no_trigger env pre tag tr Hp Hi).
    + exists pre, []. rewrite Hi. split; [reflexivity |]. split; [exact Hp |].
      left. injection Hi as _ <-. auto.
  - apply in_app_or in Hin. destruct Hin as [Hi | [Hi | Hi]].
    + exfalso. exact (push_phase_no_trigger env pre tag tr Hp Hi).
    + exists pre, polls. rewrite Hi. split; [reflexivity |]. split; [exact Hp |].
      right. injection Hi as _ <-. split; [exact Hc |]. exists r0. auto.
    + exfalso. exact (polls_no_trigger env polls r0 tag tr Hw Hi).
Qed.

(** X17: When the trigger call of a build exits non-zero the build returns 1,
    the trigger call is the last process it started, and the runs are
    never listed. *)
Theorem build_stops_when_trigger_fails :
  forall env args w tag tr,
    In (mkEvent (trigger_call env tag) tr) (new_events (cmd_build env args) w) ->
    code_of tr <> 0 ->
    result_of (cmd_build env args) w = Val 1
    /\ (exists pre,
          new_events (cmd_build env args) w
            = (pre ++ [mkEvent (trigger_call env tag) tr])%list)
    /\ forall res,
         ~ In (mkEvent (poll_call env) res) (new_events (cmd_build env args) w).
Proof.
  intros env args w tag tr Hin Hcode.
  destruct (cmd_build_cases env args w) as [(_ & Hnil & _) | (_ & Hrun)].
  - rewrite Hnil in Hin. destruct Hin.
  - destruct (BuildRun_trigger _ _ _ _ _ _ tag tr Hrun Hin)
      as (pre & polls & Hl & Hp & Hcases).
    destruct Hcases as [(_ & Hpolls & Hr) | (Hc & _)]; [subst polls | congruence].
    rewrite Hl. split; [exact Hr |]. split; [exists pre; reflexivity |].
    intros res Hi. apply in_app_or in Hi. destruct Hi as [Hi | [Hi | []]].
    + rewrite Forall_forall in Hp.
      exact (push_phase_not_poll env _ (Hp _ Hi) eq_refl).
    + discriminate Hi.
Qed.

Lemma build_stops_when_trigger_fails_witness :
  result_of (cmd_build Examples.env_trigger_fails Examples.tagged_args)
    Examples.world0 = Val 1
  /\ (exists pre,
        new_events (cmd_build Examples.env_trigger_fails Examples.tagged_args)
          Examples.world0
          = (pre ++ [mkEvent (trigger_call Examples.env_trigger_fails "v1.0.0")
                       (1, "",
                        "HTTP 422: Workflow does not have 'workflow_dispatch' trigger")])%list)
  /\ forall res,
       ~ In (mkEvent (poll_call Examples.env_trigger_fails) res)
            (new_events (cmd_build Examples.env_trigger_fails Examples.tagged_args)
               Examples.world0).
Proof.
  apply (build_stops_when_trigger_fails Examples.env_trigger_fails
           Examples.tagged_args Examples.world0 "v1.0.0"
           (1, "", "HTTP 422: Workflow does not have 'workflow_dispatch' trigger")).
  - vm_compute. tauto.
  - vm_compute. discriminate.
Defined.

(** X18: A build that is not simulated returns 0 only after a trigger call
    that exited 0: everything before that call belongs to the push phase,
    and everything after it is a listing of the confirmation loop. *)
Theorem build_success_means_triggered :
  forall env args w,
    dry_run args = false ->
    result_of (cmd_build env args) w = Val 0 ->
    exists pre t tr polls,
      new_events (cmd_build env args) w
        = (pre ++ [mkEvent (trigger_call env (build_tag env args t)) tr]
           ++ polls)%list
      /\ clock w <= t <= clock (world_after (cmd_build env args) w)
      /\ code_of tr = 0
      /\ Forall (is_push_phase env) pre
      /\ Forall (fun e => ev_call e = poll_call env) polls.
Proof.
  intros env args w Ha Hr.
  destruct (cmd_build_cases env args w) as [(Hdry & _) | (_ & Hrun)];
    [congruence |].
  rewrite Hr in Hrun.
  inversion Hrun as [pre r0 Hp Hr0 | pre t tr0 Hp Ht Hc | pre t tr0 polls r0 Hp Ht Hc Hw].
  - destruct Hr0; discriminate.
  - exists pre, t, tr0, polls. repeat split; try assumption; try lia.
    exact (WaitRun_calls env _ _ Hw).
Qed.

Lemma build_success_means_triggered_witness :
  exists pre t tr polls,
    new_events (cmd_build Examples.env_quiet Examples.plain_args) Examples.world0
      = (pre ++ [mkEvent (trigger_call Examples.env_quiet
                            (build_tag Examples.env_quiet Examples.plain_args t)) tr]
         ++ polls)%list
    /\ clock Examples.world0 <= t
       <= clock (world_after (cmd_build Examples.env_quiet Examples.plain_args)
                   Examples.world0)
    /\ code_of tr = 0
    /\ Forall (is_push_phase Examples.env_quiet) pre
    /\ Forall (fun e => ev_call e = poll_call Examples.env_quiet) polls.
Proof.
  apply (build_success_means_triggered Examples.env_quiet Examples.plain_args
           Examples.world0); reflexivity.
Defined.

(** X19: A build ends with [SystemExit] only out of the pre-flight checks,
    with exit status 1: every process it started by then is a pre-flight
    check or a [git] call, so nothing was triggered and no run listed. *)
Theorem build_exit_is_before_trigger :
  forall env args w code,
    result_of (cmd_build env args) w = Raise (SystemExit code) ->
    code = 1
    /\ Forall (is_push_phase env) (new_events (cmd_build env args) w)
    /\ forall e, In e (new_events (cmd_build env args) w) ->
                 ~ is_trigger (ev_call e) /\ ev_call e <> poll_call env.
Proof.
  intros env args w code Hr.
  assert (H : code = 1 /\
              Forall (is_push_phase env) (new_events (cmd_build env args) w)).
  { destruct (cmd_build_cases env args w) as [(_ & Hnil & H) | (_ & Hrun)].
    - rewrite Hnil. rewrite Hr in H.
      destruct H as [H | H]; [discriminate H |]. injection H as ->.
      split; [reflexivity | constructor].
    - rewrite Hr in Hrun.
      inversion Hrun as [pre r0 Hp Hr0 | pre t tr0 Hp Ht Hc
                        | pre t tr0 polls r0 Hp Ht Hc Hw Hl Hres].
      + destruct Hr0 as [Hx | Hx]; [| discriminate Hx]. injection Hx as ->. auto.
      + exfalso. destruct r0 as [x | e]; [discriminate Hres |].
        injection Hres as ->.
        exact (WaitRun_not_exit env _ _ code Hw eq_refl). }
  destruct H as (Hc & Hall). split; [exact Hc |]. split; [exact Hall |].
  intros e He. rewrite Forall_forall in Hall. split.
  - exact (push_phase_not_trigger env e (Hall e He)).
  - exact (push_phase_not_poll env e (Hall e He)).
Qed.

Lemma build_exit_is_before_trigger_witness :
  1 = 1
  /\ Forall (is_push_phase Examples.env_logged_out)
       (new_events (cmd_build Examples.env_logged_out Examples.plain_args)
          Examples.world0)
  /\ forall e,
       In e (new_events (cmd_build Examples.env_logged_out Examples.plain_args)
               Examples.world0) ->
       ~ is_trigger (ev_call e) /\ ev_call e <> poll_call Examples.env_logged_out.
Proof.
  apply (build_exit_is_before_trigger Examples.env_logged_out
           Examples.plain_args Examples.world0 1).
  reflexivity.
Defined.

Lemma BuildRun_explicit_tag env args t0 t1 l r e :
  BuildRun env args t0 t1 l r ->
  opt_truthy (tag args) = true ->
  In e l ->
  is_trigger (ev_call e) ->
  cmd (ev_call e) = workflow_run_cmd (opt_get (tag args)).
Proof.
  intros Hrun Htag Hin Htrig.
  assert (Hpre : forall pre, Forall (is_push_phase env) pre -> ~ In e pre).
  { intros pre Hp Hi. rewrite Forall_forall in Hp.
    exact (push_phase_not_trigger env e (Hp e Hi) Htrig). }
  assert (Htr : forall t tr,
             e = mkEvent (trigger_call env (build_tag env args t)) tr ->
             cmd (ev_call e) = workflow_run_cmd (opt_get (tag args))).
  { intros t tr ->. unfold build_tag. rewrite Htag. reflexivity. }
  inversion Hrun as [pre r0 Hp Hr | pre t tr Hp Ht Hcode
                    | pre t tr polls r0 Hp Ht Hcode Hw]; subst.
  - exfalso. exact (Hpre _ Hp Hin).
  - apply in_app_or in Hin. destruct Hin as [Hi | [Hi | []]].
    + exfalso. exact (Hpre _ Hp Hi).
    + exact (Htr t tr (eq_sym Hi)).
  - apply in_app_or in Hin. destruct Hin as [Hi | [Hi | Hi]].
    + exfalso. exact (Hpre _ Hp Hi).
    + exact (Htr t tr (eq_sym Hi)).
    + exfalso. pose proof (WaitRun_calls env _ _ Hw) as Hcalls.
      rewrite Forall_forall in Hcalls. specialize (Hcalls e Hi).
      unfold is_trigger in Htrig. rewrite Hcalls in Htrig. discriminate Htrig.
Qed.

(** X16: A build that is given a tag passes it on unchanged: every trigger
    call it starts carries that text as its [upload-tag] input, whatever
    the date. *)
Theorem explicit_tag_is_passed_verbatim :
  forall env args w e,
    opt_truthy (tag args) = true ->
    In e (new_events (cmd_build env args) w) ->
    is_trigger (ev_call e) ->
    cmd (ev_call e)
      = ["gh"; "workflow"; "run"; "flutter-nightly.yml";
         "-R"; "Jiang1756/rs-client";
         "-f"; "upload-tag=" ++ opt_get (tag args)].
Proof.
  intros env args w e Htag Hin Htrig.
  destruct (cmd_build_cases env args w) as [(_ & Hnil & _) | (_ & Hrun)].
  - rewrite Hnil in Hin. destruct Hin.
  - exact (BuildRun_explicit_tag env args _ _ _ _ e Hrun Htag Hin Htrig).
Qed.

Lemma explicit_tag_is_passed_verbatim_witness :
  workflow_run_cmd "v1.0.0"
    = ["gh"; "workflow"; "run"; "flutter-nightly.yml";
       "-R"; "Jiang1756/rs-client";
       "-f"; "upload-tag=" ++ opt_get (tag Examples.tagged_args)].
Proof.
  apply (explicit_tag_is_passed_verbatim Examples.env_quiet Examples.tagged_args
           Examples.world0
           (mkEvent (trigger_call Examples.env_quiet "v1.0.0") (0, "", ""))).
  - reflexivity.
  - vm_compute. tauto.
  - reflexivity.
Defined.

(** *** How often a build lists the runs *)

Lemma listings_app l1 l2 : listings (l1 ++ l2) = (listings l1 ++ listings l2)%list.
Proof. apply filter_app. Qed.

Lemma push_phase_no_listing env l :
  Forall (is_push_phase env) l -> listings l = [].
Proof.
  induction 1 as [| e l He Hl IH]; [reflexivity |].
  unfold listings in *. cbn [filter]. rewrite IH.
  replace (is_run_list (ev_call e)) with false; [reflexivity |].
  destruct He as [[H | [H | [H | []]]] | H].
  - rewrite <- H. reflexivity.
  - rewrite <- H. reflexivity.
  - rewrite <- H. reflexivity.
  - unfold is_run_list.
    destruct (cmd (ev_call e)) as [| a [| b [| c l']]]; try reflexivity.
    injection H as ->. reflexivity.
Qed.

Lemma polls_listings env l :
  Forall (fun e => ev_call e = poll_call env) l -> listings l = l.
Proof.
  induction 1 as [| e l He Hl IH]; [reflexivity |].
  unfold listings in *. cbn [filter]. rewrite He, IH. reflexivity.
Qed.

Lemma trigger_no_listing env tag tr :
  listings [mkEvent (trigger_call env tag) tr] = [].
Proof. reflexivity. Qed.

Ltac flag_solve := wp_norm; first [ reflexivity | assumption | congruence ].

Section BuildCount.

Variable env : Env.

(** A build in earnest leaves the flag unset and lists the runs at most
    once per two seconds of the confirmation budget of 30 seconds. *)
Lemma cmd_build_listings args w :
  dry_run args = false ->
  wp (cmd_build env args)
     (fun r w' => DRY_RUN w' = false /\
                  exists l, events w' = (events w ++ l)%list /\
                            2 * Z.of_nat (List.length (listings l)) <= 31) w.
Proof.
  intros Ha. unfold cmd_build, get_tag_timestamp. rewrite Ha. wp_go.
  wp_use check_gh_installed_any.
  intros r w1 (l1 & E1 & P1 & F1 & C1 & [-> | ->]); wp_norm;
    wp_norm_in E1; wp_norm_in F1; wp_norm_in C1;
    apply preflight_push_phase, (push_phase_no_listing env) in P1.
  2: { split; [flag_solve |]. exists l1. split; [exact E1 |].
       rewrite P1. cbn. lia. }
  wp_go. wp_use check_repo_exists_any.
  intros r w2 (l2 & E2 & P2 & F2 & C2 & [-> | ->]); wp_norm;
    apply preflight_push_phase, (push_phase_no_listing env) in P2.
  2: { split; [flag_solve |]. exists (l1 ++ l2)%list.
       split; [rewrite E2, E1, <- app_assoc; reflexivity |].
       rewrite listings_app, P1, P2. cbn. lia. }
  wp_go. wp_use cmd_push_real.
  intros r w3 (l3 & F3 & E3 & C3 & P3 & Hr). wp_norm_in E3. wp_norm_in C3.
  apply (push_phase_no_listing env) in P3.
  assert (E : events w3 = (events w ++ (l1 ++ l2 ++ l3))%list)
    by (rewrite E3, E2, E1, <- !app_assoc; reflexivity).
  clear E1 E2 E3 C1 C2 C3.
  destruct Hr as [-> | [-> | ->]]; wp_norm.
  2, 3: (wp_go; split; [flag_solve |]; exists (l1 ++ l2 ++ l3)%list;
         split; [exact E |]; rewrite !listings_app, P1, P2, P3; cbn; lia).
  wp_go.
  all: try (wp_use (wait_for_workflow_start_real env DEFAULT_CMD_TIMEOUT 30);
            [ intros w0; apply poll_time_bounds |];
            intros r w4 (polls & lines & F4 & E4 & L4 & Hrun & C4 & Hn);
            wp_norm_in E4; wp_norm_in C4;
            apply WaitRun_calls in Hrun; apply polls_listings in Hrun;
            destruct r as [[id |] | e]; wp_go).
  all: split; [ flag_solve |].
  all: eexists;
       (split; [ wp_norm; world_rewrite; rewrite <- ?app_assoc; reflexivity |]).
  all: rewrite !listings_app, P1, P2, P3; cbn [app];
       change (listings (?e :: ?l)) with (listings l);
       try rewrite Hrun; cbn [app listings filter List.length]; lia.
Qed.

End BuildCount.

(** X20: A build lists the runs at most 15 times, whatever the answers, and
    15 times when every listing comes back at once without a run. *)
Theorem build_lists_runs_at_most_15_times :
  (forall env args w,
     (List.length (listings (new_events (cmd_build env args) w)) <= 15)%nat)
  /\ List.length
       (listings (new_events (cmd_build Examples.env_quiet Examples.plain_args)
                    Examples.world0)) = 15%nat.
Proof.
  split; [| vm_compute; reflexivity].
  intros env args w. destruct (dry_run args) eqn:Ha.
  - destruct (wp_elim _ _ _ (cmd_build_dry env args w Ha)) as (_ & Hs).
    pose proof (sim_events _ _ Hs) as He. cbn [flagged events] in He.
    rewrite (new_events_eq (cmd_build env args) w [])
      by (rewrite app_nil_r; exact He).
    cbn. lia.
  - destruct (wp_elim _ _ _ (cmd_build_listings env args w Ha))
      as (_ & l & He & Hn).
    rewrite (new_events_eq _ _ _ He). lia.
Qed.

(** ** The commands and the flag *)

(** X15: [push] and [build] leave the simulate-only flag as their
    [--dry-run] option says, whatever it was before; [watch] and [fail]
    leave it as they found it. *)
Theorem commands_and_the_flag :
  forall env c args w,
    DRY_RUN (world_after (func env c args) w)
      = match c with
        | Push | Build => dry_run args
        | Watch | Fail => DRY_RUN w
        end.
Proof.
  intros env c args w. destruct c; cbn [func].
  - destruct (dry_run args) eqn:Ha.
    + destruct (wp_elim _ _ _ (cmd_push_dry env args w Ha)) as (_ & Hs).
      exact (sim_flag _ _ Hs).
    + destruct (wp_elim _ _ _ (cmd_push_real env args w Ha)) as (l & F & _).
      exact F.
  - destruct (dry_run args) eqn:Ha.
    + destruct (wp_elim _ _ _ (cmd_build_dry env args w Ha)) as (_ & Hs).
      exact (sim_flag _ _ Hs).
    + destruct (wp_elim _ _ _ (cmd_build_listings env args w Ha)) as (F & _).
      exact F.
  - destruct (DRY_RUN w) eqn:Hd.
    + destruct (wp_elim _ _ _ (cmd_watch_dry env args w Hd)) as (_ & Hs).
      exact (sim_flag _ _ Hs).
    + destruct (wp_elim _ _ _ (cmd_watch_run env args w Hd)) as (F & _).
      exact F.
  - destruct (DRY_RUN w) eqn:Hd.
    + exact (sim_flag _ _ (wp_elim _ _ _ (cmd_fail_dry env args w Hd))).
    + destruct (wp_elim _ _ _ (cmd_fail_run env args w Hd)) as (F & _).
      exact F.
Qed.

(** ** The commit message of a push *)

Lemma preflight_commits_with env msg l :
  Forall (is_preflight env) l -> Forall (commits_with msg) l.
Proof.
  intros H. eapply Forall_impl; [| exact H].
  intros e [He | [He | [He | []]]] Hc; unfold is_commit in Hc;
    rewrite <- He in Hc; discriminate Hc.
Qed.

Lemma SyncRun_commits_with dir msg auto l b :
  SyncRun dir msg auto l b -> Forall (commits_with msg) l.
Proof.
  intros H. sync_paths H; cbn [app];
    repeat (apply Forall_cons;
            [ intros Hc; first [ reflexivity | discriminate Hc ] |]);
    apply Forall_nil.
Qed.

Section PushMessage.

Variable env : Env.

Lemma cmd_push_message args w :
  dry_run args = false ->
  wp (cmd_push env args)
     (fun r w' => exists l t,
          events w' = (events w ++ l)%list /\
          clock w <= t <= clock w' /\
          Forall (commits_with (commit_message env args t)) l) w.
Proof.
  intros Ha. unfold cmd_push, get_timestamp. rewrite Ha. wp_go.
  wp_use check_gh_installed_any.
  intros r w1 (l1 & E1 & P1 & F1 & C1 & [-> | ->]); wp_norm;
    wp_norm_in E1; wp_norm_in F1; wp_norm_in C1.
  2: { exists l1, (clock w). split; [exact E1 |]. split; [lia |].
       apply preflight_commits_with with (env := env). exact P1. }
  wp_go. wp_use check_repo_exists_any.
  intros r w2 (l2 & E2 & P2 & F2 & C2 & [-> | ->]); wp_norm.
  2: { exists (l1 ++ l2)%list, (clock w).
       split; [rewrite E2, E1, <- app_assoc; reflexivity |]. split; [lia |].
       apply Forall_app; split;
         apply preflight_commits_with with (env := env); assumption. }
  try rewrite F1 in F2.
  assert (Q1 : Forall (commits_with (commit_message env args (clock w2))) l1)
    by (apply preflight_commits_with with (env := env); exact P1).
  assert (Q2 : Forall (commits_with (commit_message env args (clock w2))) l2)
    by (apply preflight_commits_with with (env := env); exact P2).
  wp_go.
  wp_use git_commit_push_real.
  intros r w3 (b3 & l3 & dt3 & -> & Heff3 & Hrun3). effect_open.
  apply SyncRun_commits_with in Hrun3.
  change (Forall (commits_with (commit_message env args (clock w2))) l3) in Hrun3.
  wp_go.
  2: { exists (l1 ++ l2 ++ l3)%list, (clock w2).
       split; [world_rewrite; rewrite <- ?app_assoc; reflexivity |].
       split; [wp_norm; lia |].
       repeat (apply Forall_app; split); assumption. }
  wp_use git_commit_push_real.
  intros r w4 (b4 & l4 & dt4 & -> & Heff4 & Hrun4). effect_open.
  apply SyncRun_commits_with in Hrun4.
  change (Forall (commits_with (commit_message env args (clock w2))) l4) in Hrun4.
  wp_go;
    (exists (l1 ++ l2 ++ l3 ++ l4)%list, (clock w2);
     split; [world_rewrite; rewrite <- ?app_assoc; reflexivity |];
     split; [wp_norm; lia |];
     repeat (apply Forall_app; split); assumption).
Qed.

End PushMessage.

(** X13: Every commit a [push] makes, in the submodule and in the
    superproject, records one and the same message: the one given with
    [-m] when that is not empty, otherwise the text "build: auto commit "
    followed by the timestamp taken once, before the first sync. *)
Theorem push_commits_with_one_message :
  forall env args w,
    exists t,
      clock w <= t <= clock (world_after (cmd_push env args) w)
      /\ (opt_truthy (message args) = true ->
          commit_message env args t = opt_get (message args))
      /\ (opt_truthy (message args) = false ->
          commit_message env args t
            = "build: auto commit "
              ++ strftime "%Y%m%d-%H%M%S" (datetime_now env t))
      /\ forall e,
           In e (new_events (cmd_push env args) w) ->
           is_commit (ev_call e) ->
           cmd (ev_call e) = ["git"; "commit"; "-m"; commit_message env args t].
Proof.
  intros env args w.
  assert (Hmsg : forall t,
            (opt_truthy (message args) = true ->
             commit_message env args t = opt_get (message args))
            /\ (opt_truthy (message args) = false ->
                commit_message env args t
                  = "build: auto commit "
                    ++ strftime "%Y%m%d-%H%M%S" (datetime_now env t))).
  { intros t. unfold commit_message.
    split; intros H; rewrite H; reflexivity. }
  destruct (dry_run args) eqn:Ha.
  - destruct (wp_elim _ _ _ (cmd_push_dry env args w Ha)) as (_ & Hs).
    pose proof (sim_events _ _ Hs) as He. cbn [flagged events] in He.
    pose proof (sim_clock _ _ Hs) as Hc. cbn [flagged clock] in Hc.
    exists (clock w). split; [lia |].
    split; [apply Hmsg |]. split; [apply Hmsg |].
    rewrite (new_events_eq (cmd_push env args) w [])
      by (rewrite app_nil_r; exact He).
    intros e [].
  - destruct (wp_elim _ _ _ (cmd_push_message env args w Ha))
      as (l & t & He & Ht & Hall).
    exists t. split; [exact Ht |].
    split; [apply Hmsg |]. split; [apply Hmsg |].
    rewrite (new_events_eq _ _ _ He).
    intros e Hin Hc. rewrite Forall_forall in Hall. exact (Hall e Hin Hc).
Qed.

(** ** The timestamp of the automatic commit message *)

Lemma strftime_stamp dt : strftime "%Y%m%d-%H%M%S" dt = stamp_YYYYMMDD_HHMMSS dt.
Proof.
  unfold stamp_YYYYMMDD_HHMMSS. cbn [strftime Ascii.eqb Bool.eqb strftime_field].
  rewrite append_empty. reflexivity.
Qed.

Lemma get_after_prefix (a : string) c r :
  String.get (String.length a) (a ++ String c r) = Some c.
Proof. induction a as [| x a IH]; simpl; [reflexivity | exact IH]. Qed.

Lemma append_assoc_str (a b c : string) : (a ++ b) ++ c = a ++ b ++ c.
Proof. induction a; simpl; congruence. Qed.

(** X4: The timestamp is the date of the clock written as YYYYMMDD-HHMMSS:
    for a date of the calendar 15 characters with the hyphen in ninth
    place, and taking it changes nothing. *)
Theorem timestamp_is_formatted_now :
  forall env w,
    valid_datetime (datetime_now env (clock w)) ->
    exists stamp,
      get_timestamp env w = (Val stamp, w)
      /\ stamp = stamp_YYYYMMDD_HHMMSS (datetime_now env (clock w))
      /\ String.length stamp = 15%nat
      /\ String.get 8 stamp = Some "-"%char.
Proof.
  intros env w (Hy & Hm & Hd & HH & HM & HS).
  exists (stamp_YYYYMMDD_HHMMSS (datetime_now env (clock w))).
  split.
  { change (get_timestamp env w)
      with (Val (strftime "%Y%m%d-%H%M%S" (datetime_now env (clock w))), w).
    rewrite strftime_stamp. reflexivity. }
  split; [reflexivity |].
  unfold stamp_YYYYMMDD_HHMMSS.
  set (dt := datetime_now env (clock w)) in *.
  split.
  - rewrite !length_append_str.
    rewrite zpad4_length by lia. rewrite !zpad2_length by lia. reflexivity.
  - assert (Hshape :
        Py.zpad 4 (year dt) ++ Py.zpad 2 (month dt) ++ Py.zpad 2 (day dt)
        ++ "-" ++ Py.zpad 2 (hour dt) ++ Py.zpad 2 (minute dt)
        ++ Py.zpad 2 (second dt)
        = (Py.zpad 4 (year dt) ++ Py.zpad 2 (month dt) ++ Py.zpad 2 (day dt))
          ++ String "-" (Py.zpad 2 (hour dt) ++ Py.zpad 2 (minute dt)
                         ++ Py.zpad 2 (second dt)))
      by (rewrite !append_assoc_str; reflexivity).
    rewrite Hshape.
    replace 8%nat
      with (String.length (Py.zpad 4 (year dt) ++ Py.zpad 2 (month dt)
                           ++ Py.zpad 2 (day dt))).
    + apply get_after_prefix.
    + rewrite !length_append_str.
      rewrite zpad4_length by lia. rewrite !zpad2_length by lia. reflexivity.
Qed.

Lemma timestamp_is_formatted_now_witness :
  exists stamp,
    get_timestamp Examples.env_quiet Examples.world0 = (Val stamp, Examples.world0)
    /\ stamp = stamp_YYYYMMDD_HHMMSS
                 (datetime_now Examples.env_quiet (clock Examples.world0))
    /\ String.length stamp = 15%nat
    /\ String.get 8 stamp = Some "-"%char.
Proof.
  apply (timestamp_is_formatted_now Examples.env_quiet Examples.world0).
  vm_compute. intuition discriminate.
Defined.

(** ** More about the confirmation loop *)

(** X22: With no budget (zero or negative) the confirmation loop makes no
    listing at all: it prints its banner and its warning, returns no run
    id and lets no time go by, simulated or not. *)
Theorem wait_without_budget_lists_nothing :
  forall env max_wait w,
    max_wait <= 0 ->
    result_of (wait_for_workflow_start env max_wait) w = Val None
    /\ new_events (wait_for_workflow_start env max_wait) w = []
    /\ clock (world_after (wait_for_workflow_start env max_wait) w) = clock w
    /\ List.length (new_console (wait_for_workflow_start env max_wait) w) = 2%nat.
Proof.
  intros env max_wait w Hm.
  assert (H : wp (wait_for_workflow_start env max_wait)
                (fun r w' => r = Val None /\ events w' = events w /\
                             clock w' = clock w /\
                             exists a b, console w' = (console w ++ [a; b])%list) w).
  { unfold wait_for_workflow_start, wait_fuel. cbn [wait_loop]. wp_go.
    - apply Z.ltb_lt in Heqb. lia.
    - repeat split. eexists _, _. rewrite <- app_assoc. reflexivity. }
  destruct (wp_elim _ _ _ H) as (Hr & He & Hc & a & b & Hl).
  split; [exact Hr |]. split; [| split; [exact Hc |]].
  - apply new_events_eq. rewrite app_nil_r. exact He.
  - rewrite (new_console_eq _ _ _ Hl). reflexivity.
Qed.

Lemma wait_without_budget_lists_nothing_witness :
  result_of (wait_for_workflow_start Examples.env_stale_run 0) Examples.world0
    = Val None
  /\ new_events (wait_for_workflow_start Examples.env_stale_run 0) Examples.world0
     = []
  /\ clock (world_after (wait_for_workflow_start Examples.env_stale_run 0)
              Examples.world0) = clock Examples.world0
  /\ List.length (new_console (wait_for_workflow_start Examples.env_stale_run 0)
                    Examples.world0) = 2%nat.
Proof.
  apply (wait_without_budget_lists_nothing Examples.env_stale_run 0
           Examples.world0).
  lia.
Defined.

Lemma wait_for_workflow_start_cases env max_wait w :
  DRY_RUN w = false ->
  WaitRun env (new_events (wait_for_workflow_start env max_wait) w)
          (result_of (wait_for_workflow_start env max_wait) w).
Proof.
  intros Hd.
  destruct (wp_elim _ _ _
              (wait_for_workflow_start_real env DEFAULT_CMD_TIMEOUT max_wait w
                 (fun w0 => proj2 (poll_time_bounds env w0)) Hd))
    as (polls & lines & _ & He & _ & Hrun & _).
  rewrite (new_events_eq _ _ _ He). exact Hrun.
Qed.

Lemma polls_nothing_in env polls res :
  polls_nothing env polls ->
  In (mkEvent (poll_call env) res) polls ->
  qualifying_run env res = inr None.
Proof.
  intros Hn Hin. unfold polls_nothing in Hn. rewrite Forall_forall in Hn.
  exact (proj2 (Hn _ Hin)).
Qed.

Lemma WaitRun_raising env polls r res e :
  WaitRun env polls r ->
  In (mkEvent (poll_call env) res) polls ->
  qualifying_run env res = inl e ->
  r = Raise e
  /\ exists earlier, polls = (earlier ++ [mkEvent (poll_call env) res])%list.
Proof.
  intros Hrun Hin Hq.
  destruct Hrun as [l Hl | l res' id Hl Hid | l res' e' Hl He].
  - pose proof (polls_nothing_in env l res Hl Hin). congruence.
  - apply in_app_or in Hin. destruct Hin as [Hi | [Hi | []]].
    + pose proof (polls_nothing_in env l res Hl Hi). congruence.
    + injection Hi as ->. congruence.
  - apply in_app_or in Hin. destruct Hin as [Hi | [Hi | []]].
    + pose proof (polls_nothing_in env l res Hl Hi). congruence.
    + injection Hi as ->. split; [congruence | exists l; reflexivity].
Qed.

Lemma qualifying_run_missing_status env res runs kv :
  code_of res = 0 ->
  stdout_of res <> "" ->
  json_loads env (stdout_of res) = Some runs ->
  truthy runs = true ->
  getitem_int runs 0 = inr (JObj kv) ->
  assoc "status" kv = None ->
  qualifying_run env res = inl (KeyError "status").
Proof.
  intros Hc Hs Hj Ht H0 Hk. unfold qualifying_run.
  apply Z.eqb_eq in Hc. rewrite Hc.
  destruct (stdout_of res) eqn:Hout; [congruence |]. cbn [Py.truthy_str andb].
  rewrite Hj, Ht, H0. unfold getitem_key. rewrite Hk. reflexivity.
Qed.

(** X23: The confirmation loop catches a listing that does not decode, but
    not one that decodes to the wrong shape: when a listing exits 0 and its
    first run is an object without a [status] field, the loop ends there
    with [KeyError] "status", and that listing is the last process it
    started. *)
Theorem wait_raises_on_run_without_status :
  forall env max_wait w res runs kv,
    DRY_RUN w = false ->
    In (mkEvent (poll_call env) res)
       (new_events (wait_for_workflow_start env max_wait) w) ->
    code_of res = 0 ->
    stdout_of res <> "" ->
    json_loads env (stdout_of res) = Some runs ->
    truthy runs = true ->
    getitem_int runs 0 = inr (JObj kv) ->
    assoc "status" kv = None ->
    result_of (wait_for_workflow_start env max_wait) w = Raise (KeyError "status")
    /\ exists earlier,
         new_events (wait_for_workflow_start env max_wait) w
           = (earlier ++ [mkEvent (poll_call env) res])%list.
Proof.
  intros env max_wait w res runs kv Hd Hin Hc Hs Hj Ht H0 Hk.
  exact (WaitRun_raising env _ _ res _
           (wait_for_workflow_start_cases env max_wait w Hd) Hin
           (qualifying_run_missing_status env res runs kv Hc Hs Hj Ht H0 Hk)).
Qed.

Lemma wait_raises_on_run_without_status_witness :
  result_of (wait_for_workflow_start Examples.env_bare_run 30) Examples.world0
    = Raise (KeyError "status")
  /\ exists earlier,
       new_events (wait_for_workflow_start Examples.env_bare_run 30)
         Examples.world0
         = (earlier ++ [mkEvent (poll_call Examples.env_bare_run)
                          (0, "[{}]", "")])%list.
Proof.
  apply (wait_raises_on_run_without_status Examples.env_bare_run 30
           Examples.world0 (0, "[{}]", "") (JArr [JObj []]) []).
  - reflexivity.
  - vm_compute. tauto.
  - reflexivity.
  - discriminate.
  - reflexivity.
  - reflexivity.
  - reflexivity.
  - reflexivity.
Defined.

Section Pace.

Variable env : Env.

(** Between two listings the loop sleeps two seconds; the bound holds
    for any unrolling, cut short or not. *)
Lemma wait_loop_pace start max_wait :
  forall fuel w,
    DRY_RUN w = false ->
    wp (wait_loop env fuel start max_wait)
       (fun r w' => exists polls,
            events w' = (events w ++ polls)%list /\
            clock w + 2 * Z.of_nat (List.length polls) - 2 <= clock w' /\
            (r = Val None ->
             clock w + 2 * Z.of_nat (List.length polls) <= clock w')) w.
Proof.
  induction fuel as [| fuel IH]; intros w Hd.
  - cbn [wait_loop]. wp_step. exists []. rewrite app_nil_r.
    split; [reflexivity |]. split; [cbn; lia | discriminate].
  - cbn [wait_loop]. do 3 wp_step.
    + pose proof (poll_time_bounds env w) as Hp.
      wp_step. wp_use poll_once_real.
      intros r w1 (res & lines & F & E & C & L & ->).
      unfold poll_outcome.
      destruct (qualifying_run env res) as [e | [run_id |]] eqn:Hq; wp_norm.
      * exists [mkEvent (poll_call env) res].
        split; [exact E |]. split; [cbn [List.length]; lia | discriminate].
      * wp_go. exists [mkEvent (poll_call env) res].
        split; [exact E |]. split; [cbn [List.length]; lia | discriminate].
      * wp_go. eapply wp_mono.
        -- apply IH. wp_norm. reflexivity.
        -- wp_norm. intros r w2 (polls & E2 & C2 & N2).
           wp_norm_in E2. wp_norm_in C2. wp_norm_in N2.
           exists (mkEvent (poll_call env) res :: polls).
           split; [rewrite E2, E, <- app_assoc; reflexivity |].
           cbn [List.length]. split; [lia |].
           intros Hr. specialize (N2 Hr). lia.
    + wp_step. exists []. rewrite app_nil_r.
      split; [reflexivity |]. split; [cbn; lia |]. intros _. cbn. lia.
Qed.

End Pace.

(** X24: The confirmation loop paces its listings: a run that made [n]
    listings took at least 2 (n - 1) seconds, and at least 2 n seconds
    when it ended without a run id. *)
Theorem wait_paces_its_listings :
  forall env max_wait w,
    DRY_RUN w = false ->
    let m := wait_for_workflow_start env max_wait in
    let n := Z.of_nat (List.length (new_events m w)) in
    2 * (n - 1) <= clock (world_after m w) - clock w
    /\ (result_of m w = Val None ->
        2 * n <= clock (world_after m w) - clock w).
Proof.
  intros env max_wait w Hd m n.
  assert (H : wp m (fun r w' => exists polls,
                 events w' = (events w ++ polls)%list /\
                 clock w + 2 * Z.of_nat (List.length polls) - 2 <= clock w' /\
                 (r = Val None ->
                  clock w + 2 * Z.of_nat (List.length polls) <= clock w')) w).
  { unfold m, wait_for_workflow_start. wp_go. eapply wp_mono.
    - apply wait_loop_pace. wp_norm. reflexivity.
    - wp_norm. intros r w1 (polls & E & C & N).
      wp_norm_in E. wp_norm_in C. wp_norm_in N.
      destruct r as [[id |] | e]; wp_go; exists polls;
        (split; [exact E |]); (split; [wp_norm; exact C |]);
        first [ discriminate | intros _; wp_norm; apply N; reflexivity ]. }
  destruct (wp_elim _ _ _ H) as (polls & E & C & N).
  unfold n. rewrite (new_events_eq _ _ _ E). fold m in C, N.
  split; [lia |]. intros Hr. specialize (N Hr). lia.
Qed.

Lemma wait_paces_its_listings_witness :
  let m := wait_for_workflow_start Examples.env_quiet 30 in
  let n := Z.of_nat (List.length (new_events m Examples.world0)) in
  2 * (n - 1) <= clock (world_after m Examples.world0) - clock Examples.world0
  /\ (result_of m Examples.world0 = Val None ->
      2 * n <= clock (world_after m Examples.world0) - clock Examples.world0).
Proof.
  apply (wait_paces_its_listings Examples.env_quiet 30 Examples.world0).
  reflexivity.
Defined.

(** ** The process runner *)

(** X1: [run_cmd] never raises: whatever the command, it returns a triple;
    it leaves the flag alone, keeps the script waiting for at most its
    timeout, and starts exactly one child, recorded with the triple it
    returns, unless the flag is set, when it starts none and returns the
    synthetic success. *)
Theorem run_cmd_returns_within_timeout :
  forall env cmd cwd capture tmo w,
    0 <= tmo ->
    let m := run_cmd env cmd cwd capture tmo in
    exists r,
      result_of m w = Val r
      /\ DRY_RUN (world_after m w) = DRY_RUN w
      /\ clock w <= clock (world_after m w) <= clock w + tmo
      /\ new_events m w
         = if DRY_RUN w then []
           else [mkEvent (mkCall cmd cwd capture (Some tmo)) r].
Proof.
  intros env cmd cwd capture tmo w Ht m.
  assert (H : wp m (fun r0 w' => exists r,
                 r0 = Val r /\ DRY_RUN w' = DRY_RUN w /\
                 clock w <= clock w' <= clock w + tmo /\
                 events w' = (events w ++
                              if DRY_RUN w then []
                              else [mkEvent (mkCall cmd cwd capture (Some tmo)) r])%list)
                w).
  { destruct (DRY_RUN w) eqn:Hd.
    - apply wp_run_cmd_dry; [exact Hd |]. eexists.
      split; [reflexivity |]. split; [reflexivity |]. split; [cbn; lia |].
      cbn. rewrite app_nil_r. reflexivity.
    - unfold m, wp, run_cmd, bind, get_DRY_RUN. simpl. rewrite Hd.
      destruct (spawn_shape env (mkCall cmd cwd capture (Some tmo)) tmo w Ht)
        as (r & dt & Hdt & E).
      rewrite E. simpl. exists r.
      split; [reflexivity |]. split; [exact Hd |]. split; [lia | reflexivity]. }
  destruct (wp_elim _ _ _ H) as (r & Hr & Hf & Hc & He).
  exists r. split; [exact Hr |]. split; [exact Hf |]. split; [exact Hc |].
  exact (new_events_eq _ _ _ He).
Qed.

Lemma run_cmd_returns_within_timeout_witness :
  let m := run_cmd Examples.env_slow ["git"; "fetch"] (Some Examples.repo) true 60 in
  exists r,
    result_of m Examples.world0 = Val r
    /\ DRY_RUN (world_after m Examples.world0) = DRY_RUN Examples.world0
    /\ clock Examples.world0 <= clock (world_after m Examples.world0)
       <= clock Examples.world0 + 60
    /\ new_events m Examples.world0
       = if DRY_RUN Examples.world0 then []
         else [mkEvent (mkCall ["git"; "fetch"] (Some Examples.repo) true (Some 60)) r].
Proof.
  apply (run_cmd_returns_within_timeout Examples.env_slow ["git"; "fetch"]
           (Some Examples.repo) true 60 Examples.world0).
  lia.
Defined.

(** A child that outlives its timeout is given up after the timeout and
    reported as status -1 with nothing on stdout. *)
Lemma wp_run_cmd_timed_out env cmd cwd tmo raw d Q w :
  DRY_RUN w = false ->
  exec env (events w) (clock w) (mkCall cmd cwd true (Some tmo)) = (raw, d) ->
  tmo < Z.of_N d ->
  Q (Val (-1, "", "命令执行超时 (" ++ Py.str_int tmo ++ "秒)"))
    (mkWorld false (clock w + tmo)
       (events w ++ [mkEvent (mkCall cmd cwd true (Some tmo))
                             (-1, "", "命令执行超时 (" ++ Py.str_int tmo ++ "秒)")])
       (console w)) ->
  wp (run_cmd env cmd cwd true tmo) Q w.
Proof.
  intros Hd He Ht H. unfold wp, run_cmd, bind, get_DRY_RUN, spawn.
  cbn beta iota delta [fst snd]. rewrite Hd. rewrite He.
  apply Z.ltb_lt in Ht. rewrite Ht. cbn [fst snd]. rewrite Hd.
  exact H.
Qed.

(** X6: A status query that hangs is given up after its timeout of 300
    seconds and then read like a clean tree: the sync returns success,
    exactly 300 seconds later, and the query is the only process it
    started, whatever the query would have printed. *)
Theorem hung_status_reads_as_clean :
  forall env dir name msg auto w raw d,
    DRY_RUN w = false ->
    exec env (events w) (clock w) (status_call dir) = (raw, d) ->
    DEFAULT_CMD_TIMEOUT < Z.of_N d ->
    let m := git_commit_push env dir name msg auto in
    result_of m w = Val true
    /\ clock (world_after m w) = clock w + 300
    /\ exists err,
         new_events m w = [mkEvent (status_call dir) (-1, "", err)].
Proof.
  intros env dir name msg auto w raw d Hd He Ht m.
  assert (H : wp m (fun r w' =>
                 r = Val true /\ clock w' = clock w + 300 /\
                 exists err,
                   events w' = (events w
                                ++ [mkEvent (status_call dir) (-1, "", err)])%list)
                w).
  { unfold m, git_commit_push, git_has_changes. wp_upto_run.
    eapply wp_run_cmd_timed_out; [reflexivity | exact He | exact Ht |].
    wp_go. split; [reflexivity |]. split; [reflexivity |].
    eexists. reflexivity. }
  destruct (wp_elim _ _ _ H) as (Hr & Hc & err & Hev).
  split; [exact Hr |]. split; [exact Hc |].
  exists err. exact (new_events_eq _ _ _ Hev).
Qed.

Lemma hung_status_reads_as_clean_witness :
  let m := git_commit_push Examples.env_hung_status Examples.repo "rs-client"
             "build: auto commit" true in
  result_of m Examples.world0 = Val true
  /\ clock (world_after m Examples.world0) = clock Examples.world0 + 300
  /\ exists err,
       new_events m Examples.world0
         = [mkEvent (status_call Examples.repo) (-1, "", err)].
Proof.
  apply (hung_status_reads_as_clean Examples.env_hung_status Examples.repo
           "rs-client" "build: auto commit" true Examples.world0
           (Exited 0 " M src/main.rs" "") 3600%N).
  - reflexivity.
  - reflexivity.
  - vm_compute. reflexivity.
Defined.

(** X21: A build whose trigger call went through still ends with an uncaught
    [KeyError] when a listing of the confirmation loop shows a first run
    without a [status] field. *)
Theorem build_raises_on_run_without_status :
  forall env args w res runs kv,
    In (mkEvent (poll_call env) res) (new_events (cmd_build env args) w) ->
    code_of res = 0 ->
    stdout_of res <> "" ->
    json_loads env (stdout_of res) = Some runs ->
    truthy runs = true ->
    getitem_int runs 0 = inr (JObj kv) ->
    assoc "status" kv = None ->
    result_of (cmd_build env args) w = Raise (KeyError "status")
    /\ exists earlier tag tr,
         In (mkEvent (trigger_call env tag) tr) earlier
         /\ code_of tr = 0
         /\ new_events (cmd_build env args) w
            = (earlier ++ [mkEvent (poll_call env) res])%list.
Proof.
  intros env args w res runs kv Hin Hc Hs Hj Ht H0 Hk.
  pose proof (qualifying_run_missing_status env res runs kv Hc Hs Hj Ht H0 Hk) as Hq.
  destruct (cmd_build_cases env args w) as [(_ & Hnil & _) | (_ & Hrun)].
  { rewrite Hnil in Hin. destruct Hin. }
  revert Hin Hrun.
  generalize (new_events (cmd_build env args) w) as l.
  generalize (result_of (cmd_build env args) w) as r.
  generalize (clock (world_after (cmd_build env args) w)) as t1.
  intros t1 r l Hin Hrun.
  assert (Hpre : forall pre, Forall (is_push_phase env) pre ->
                   ~ In (mkEvent (poll_call env) res) pre).
  { intros pre Hp Hi. rewrite Forall_forall in Hp.
    exact (push_phase_not_poll env _ (Hp _ Hi) eq_refl). }
  inversion Hrun as [pre r0 Hp Hr | pre t tr Hp Htm Hcode
                    | pre t tr polls r0 Hp Htm Hcode Hw]; subst.
  - exfalso. exact (Hpre _ Hp Hin).
  - exfalso. apply in_app_or in Hin. destruct Hin as [Hi | [Hi | []]].
    + exact (Hpre _ Hp Hi).
    + discriminate Hi.
  - apply in_app_or in Hin. destruct Hin as [Hi | [Hi | Hi]].
    + exfalso. exact (Hpre _ Hp Hi).
    + discriminate Hi.
    + destruct (WaitRun_raising env polls r0 res _ Hw Hi Hq) as (-> & earlier & ->).
      split; [reflexivity |].
      exists (pre ++ [mkEvent (trigger_call env (build_tag env args t)) tr]
              ++ earlier)%list, (build_tag env args t), tr.
      split; [apply in_or_app; right; left; reflexivity |].
      split; [exact Hcode |].
      rewrite <- !app_assoc. reflexivity.
Qed.

Lemma build_raises_on_run_without_status_witness :
  result_of (cmd_build Examples.env_bare_run Examples.tagged_args) Examples.world0
    = Raise (KeyError "status")
  /\ exists earlier tag tr,
       In (mkEvent (trigger_call Examples.env_bare_run tag) tr) earlier
       /\ code_of tr = 0
       /\ new_events (cmd_build Examples.env_bare_run Examples.tagged_args)
            Examples.world0
          = (earlier ++ [mkEvent (poll_call Examples.env_bare_run)
                           (0, "[{}]", "")])%list.
Proof.
  apply (build_raises_on_run_without_status Examples.env_bare_run
           Examples.tagged_args Examples.world0 (0, "[{}]", "")
           (JArr [JObj []]) []).
  - vm_compute. tauto.
  - reflexivity.
  - discriminate.
  - reflexivity.
  - reflexivity.
  - reflexivity.
  - reflexivity.
Defined.

(** ** What the commands never start *)

Lemma GhCheck_only_gh l r :
  GhCheck l r -> Forall (fun e => hd_error (cmd (ev_call e)) = Some "gh") l.
Proof. intros [v Hv | v a Hv Ha | v a Hv Ha]; repeat constructor. Qed.

Lemma WatchRun_only_gh env args l r :
  WatchRun env args l r ->
  Forall (fun e => hd_error (cmd (ev_call e)) = Some "gh") l.
Proof.
  intros [pre Hp | pre ls Hp Hc | pre ls Hp Hc Hs | pre ls lv Hp Hc Hs Hf];
    try (apply Forall_app; split);
    try exact (GhCheck_only_gh _ _ Hp); repeat constructor.
Qed.

Lemma FailRun_only_gh env l r :
  FailRun env l r ->
  Forall (fun e => hd_error (cmd (ev_call e)) = Some "gh") l.
Proof.
  intros [pre Hp | pre res Hp Hc | pre res Hp Hc Hj | pre res runs Hp Hc Hj Ht
         | pre res runs e Hp Hc Hj Ht Hf | pre res runs id ti cr lg Hp Hc Hj Ht Hf];
    try (apply Forall_app; split);
    try exact (GhCheck_only_gh _ _ Hp); repeat constructor.
Qed.

(** X30: [watch] and [fail] only ever start [gh]: they run no [git] command,
    and in particular never initialise the submodule, commit or push. *)
Theorem reports_start_only_gh :
  forall env args w,
    Forall (fun e => hd_error (cmd (ev_call e)) = Some "gh")
           (new_events (cmd_watch env args) w)
    /\ Forall (fun e => hd_error (cmd (ev_call e)) = Some "gh")
              (new_events (cmd_fail env args) w).
Proof.
  intros env args w. split.
  - destruct (cmd_watch_cases env args w) as [(_ & Hnil & _) | (_ & Hrun)].
    + rewrite Hnil. constructor.
    + exact (WatchRun_only_gh env args _ _ Hrun).
  - destruct (cmd_fail_cases env args w) as [(_ & Hnil) | (_ & Hrun)].
    + rewrite Hnil. constructor.
    + exact (FailRun_only_gh env _ _ Hrun).
Qed.

(** X14: [push] starts nothing but the pre-flight checks and [git]: it never
    dispatches the workflow and never lists its runs. *)
Theorem push_never_triggers_a_build :
  forall env args w,
    Forall (fun e => is_push_phase env e
                     /\ ~ is_trigger (ev_call e)
                     /\ ev_call e <> poll_call env)
           (new_events (cmd_push env args) w).
Proof.
  intros env args w.
  assert (H : Forall (is_push_phase env) (new_events (cmd_push env args) w)).
  { destruct (dry_run args) eqn:Ha.
    - destruct (wp_elim _ _ _ (cmd_push_dry env args w Ha)) as (_ & Hs).
      pose proof (sim_events _ _ Hs) as He. cbn [flagged events] in He.
      rewrite (new_events_eq (cmd_push env args) w [])
        by (rewrite app_nil_r; exact He).
      constructor.
    - destruct (wp_elim _ _ _ (cmd_push_real env args w Ha))
        as (l & _ & He & _ & Hp & _).
      rewrite (new_events_eq _ _ _ He). exact Hp. }
  eapply Forall_impl; [| exact H].
  intros e He. split; [exact He |]. split.
  - exact (push_phase_not_trigger env e He).
  - exact (push_phase_not_poll env e He).
Qed.
